(** * sqlalchemy_django_admin: composite keys, column conversion, admin options

    A shallow embedding of the three source files of the package
    ([fields.py], [__init__.py], [admin.py]) together with the parts of the
    Python runtime they call ([json], [base64], [str.encode]), and the
    properties of the package stated over it.

    Conventions.
    - A Python [str] is the list of its code points, a [bytes] value the
      list of its octets; both are lists of [N].
    - A call that may raise returns a [result]; the exception class is kept.
    - A [dict] is the list of its items in insertion order, with at most one
      item per key. *)

From Stdlib Require Import List ZArith NArith Lia Bool Ascii.
From Stdlib Require String.
Import String.StringSyntax.
From Stdlib Require Import Permutation.
From Stdlib Require Decimal DecimalFacts DecimalN.
Import ListNotations.

Set Implicit Arguments.
Local Open Scope string_scope.
Local Open Scope N_scope.

(* ================================================================== *)
(** ** Python values, exceptions, strings *)

Module Py.

Inductive exn : Type :=
  | TypeError
  | ValueError
  | KeyError
  | IndexError
  | AttributeError
  | UnicodeError
  | BinasciiError
  | JSONDecodeError
  | FieldDoesNotExist
  | FieldError.

Inductive result (A : Type) : Type :=
  | Ok (a : A)
  | Raise (e : exn).

Arguments Ok {A} a.
Arguments Raise {A} e.

Definition bind {A B : Type} (r : result A) (k : A -> result B) : result B :=
  match r with
  | Ok a => k a
  | Raise e => Raise e
  end.

Definition fmap {A B : Type} (f : A -> B) (r : result A) : result B :=
  bind r (fun a => Ok (f a)).

(** [mapM f l] is the list comprehension [[f(x) for x in l]]: elements are
    evaluated left to right and the first exception ends the evaluation. *)
Fixpoint mapM {A B : Type} (f : A -> result B) (l : list A) : result (list B) :=
  match l with
  | [] => Ok []
  | x :: r =>
      bind (f x) (fun y => bind (mapM f r) (fun ys => Ok (y :: ys)))
  end.

Definition of_option {A : Type} (e : exn) (o : option A) : result A :=
  match o with
  | Some a => Ok a
  | None => Raise e
  end.

(** A [str]: code points, each at most U+10FFFF. *)
Definition pystr : Type := list N.
Definition pybytes : Type := list N.

Definition wf_str (s : pystr) : Prop := Forall (fun c => c <= 1114111) s.

Definition lit (s : String.string) : pystr :=
  List.map N_of_ascii (String.list_ascii_of_string s).

Fixpoint str_eqb (a b : pystr) : bool :=
  match a, b with
  | [], [] => true
  | x :: a', y :: b' => (x =? y) && str_eqb a' b'
  | _, _ => false
  end.

(** [a < b] on [str]: lexicographic on code points, as [str.__lt__]. *)
Fixpoint str_ltb (a b : pystr) : bool :=
  match a, b with
  | [], [] => false
  | [], _ :: _ => true
  | _ :: _, [] => false
  | x :: a', y :: b' =>
      if x <? y then true else if y <? x then false else str_ltb a' b'
  end.

Fixpoint startswith (s prefix : pystr) {struct prefix} : bool :=
  match prefix, s with
  | [], _ => true
  | p :: prefix', c :: s' => (c =? p) && startswith s' prefix'
  | _ :: _, [] => false
  end.

(** [s.endswith(suffix)] *)
Definition endswith (s suffix : pystr) : bool :=
  startswith (rev s) (rev suffix).

(** [s[:-k]] for a positive [k] *)
Definition drop_last (k : nat) (s : pystr) : pystr :=
  firstn (length s - k) s.

(** [s[:k]] and [s[k:]] *)
Definition slice_to (k : nat) (s : pystr) : pystr := firstn k s.
Definition slice_from (k : nat) (s : pystr) : pystr := skipn k s.

(** [s.split(sep)] for a one-character separator: always at least one part. *)
Fixpoint split (sep : N) (s : pystr) : list pystr :=
  match s with
  | [] => [[]]
  | c :: r =>
      if c =? sep then [] :: split sep r
      else match split sep r with
           | [] => [[c]]
           | p :: ps => (c :: p) :: ps
           end
  end.

(** Truth value of an [Optional[str]]. *)
Definition truthy_str (o : option pystr) : bool :=
  match o with
  | Some (_ :: _) => true
  | _ => false
  end.

(** [a or b] on [Optional[str]] operands. *)
Definition or_str (a b : option pystr) : option pystr :=
  if truthy_str a then a else b.

End Py.

Import Py.

Declare Scope py_scope.
Notation "x <- e ;; k" := (bind e (fun x => k))
  (at level 61, e at next level, right associativity) : py_scope.
Notation "' p <- e ;; k" := (bind e (fun p => k))
  (at level 61, p pattern, e at next level, right associativity) : py_scope.
Local Open Scope py_scope.

(* ================================================================== *)
(** ** Bounded checks by computation

    [all_below n p] evaluates [p] on [0 .. n-1]; the table and bit
    identities of the codecs below are settled by running it. *)

Fixpoint all_from (fuel : nat) (i : N) (p : N -> bool) : bool :=
  match fuel with
  | O => true
  | S f => p i && all_from f (N.succ i) p
  end.

Definition all_below (n : N) (p : N -> bool) : bool :=
  all_from (N.to_nat n) 0 p.

(* ================================================================== *)
(** ** [base64.b64encode] and [base64.b64decode]

    Both are thin wrappers over [binascii]: [b64encode(s)] is
    [b2a_base64(s, newline=False)] and [b64decode(s)] with the default
    [validate=False] is [a2b_base64(s)] in its lenient mode. *)

Module Base64.

Definition BASE64_PAD : N := 61.

(** [table_b2a_base64]: "A-Za-z0-9+/" *)
Definition table_b2a (i : N) : N :=
  if i <? 26 then i + 65
  else if i <? 52 then i + 71
  else if i <? 62 then i - 4
  else if i =? 62 then 43
  else 47.

(** [table_a2b_base64]: the inverse table; [None] stands for the entries
    of the table that are 64 or more (no alphabet character). *)
Definition table_a2b (c : N) : option N :=
  if (65 <=? c) && (c <=? 90) then Some (c - 65)
  else if (97 <=? c) && (c <=? 122) then Some (c - 71)
  else if (48 <=? c) && (c <=? 57) then Some (c + 4)
  else if c =? 43 then Some 62
  else if c =? 47 then Some 63
  else None.

(** The encoder, three octets at a time; a short tail is padded. *)
Fixpoint b2a_base64 (data : pybytes) : pybytes :=
  match data with
  | [] => []
  | [a] =>
      [ table_b2a (N.shiftr a 2);
        table_b2a (N.shiftl (N.land a 3) 4);
        BASE64_PAD; BASE64_PAD ]
  | [a; b] =>
      [ table_b2a (N.shiftr a 2);
        table_b2a (N.lor (N.shiftl (N.land a 3) 4) (N.shiftr b 4));
        table_b2a (N.shiftl (N.land b 15) 2);
        BASE64_PAD ]
  | a :: b :: c :: rest =>
      table_b2a (N.shiftr a 2)
      :: table_b2a (N.lor (N.shiftl (N.land a 3) 4) (N.shiftr b 4))
      :: table_b2a (N.lor (N.shiftl (N.land b 15) 2) (N.shiftr c 6))
      :: table_b2a (N.land c 63)
      :: b2a_base64 rest
  end.

(** Position inside the current group of four characters. *)
Inductive quad : Type := Q0 | Q1 | Q2 | Q3.

Definition quad_index (q : quad) : N :=
  match q with Q0 => 0 | Q1 => 1 | Q2 => 2 | Q3 => 3 end.

(** The decoder loop of [a2b_base64] (lenient mode), one input character
    per step, with its three pieces of state: [quad_pos], [leftchar] and
    the count of pad characters seen in a row.  Octets are stored through
    an [unsigned char], hence the mask. *)
Fixpoint a2b_loop (ascii : pybytes) (quad_pos : quad) (leftchar pads : N)
  : result pybytes :=
  match ascii with
  | [] =>
      match quad_pos with
      | Q0 => Ok []
      | _ => Raise BinasciiError
      end
  | this_ch :: rest =>
      if this_ch =? BASE64_PAD then
        if 2 <=? quad_index quad_pos then
          if 4 <=? quad_index quad_pos + (pads + 1) then Ok []
          else a2b_loop rest quad_pos leftchar (pads + 1)
        else a2b_loop rest quad_pos leftchar pads
      else
        match table_a2b this_ch with
        | None => a2b_loop rest quad_pos leftchar pads
        | Some v =>
            match quad_pos with
            | Q0 => a2b_loop rest Q1 v 0
            | Q1 =>
                fmap (cons (N.land (N.lor (N.shiftl leftchar 2) (N.shiftr v 4)) 255))
                     (a2b_loop rest Q2 (N.land v 15) 0)
            | Q2 =>
                fmap (cons (N.land (N.lor (N.shiftl leftchar 4) (N.shiftr v 2)) 255))
                     (a2b_loop rest Q3 (N.land v 3) 0)
            | Q3 =>
                fmap (cons (N.land (N.lor (N.shiftl leftchar 6) v) 255))
                     (a2b_loop rest Q0 0 0)
            end
        end
  end.

Definition a2b_base64 (ascii : pybytes) : result pybytes :=
  a2b_loop ascii Q0 0 0.

Definition b64encode (s : pybytes) : pybytes := b2a_base64 s.
Definition b64decode (s : pybytes) : result pybytes := a2b_base64 s.

Definition is_octet (b : N) : Prop := b < 256.

End Base64.

(* ================================================================== *)
(** ** [str.encode('utf-8')] and [bytes.decode('utf-8')] *)

Module Utf8.

Definition is_surrogate (c : N) : bool := (55296 <=? c) && (c <=? 57343).

(** One code point to its one to four octets; a surrogate cannot be
    encoded (the default error handler is [strict]). *)
Definition encode_char (c : N) : result pybytes :=
  if c <? 128 then Ok [c]
  else if c <? 2048 then
    Ok [N.lor 192 (N.shiftr c 6); N.lor 128 (N.land c 63)]
  else if c <? 65536 then
    if is_surrogate c then Raise UnicodeError
    else Ok [N.lor 224 (N.shiftr c 12);
             N.lor 128 (N.land (N.shiftr c 6) 63);
             N.lor 128 (N.land c 63)]
  else
    Ok [N.lor 240 (N.shiftr c 18);
        N.lor 128 (N.land (N.shiftr c 12) 63);
        N.lor 128 (N.land (N.shiftr c 6) 63);
        N.lor 128 (N.land c 63)].

Definition encode (s : pystr) : result pybytes :=
  fmap (@concat N) (mapM encode_char s).

Definition is_cont (b : N) : bool := (128 <=? b) && (b <? 192).

(** Strict decoding: overlong forms, surrogates, values above U+10FFFF,
    stray continuation octets and truncated sequences are errors. *)
Fixpoint decode (b : pybytes) : result pystr :=
  match b with
  | [] => Ok []
  | b0 :: r =>
      if b0 <? 128 then fmap (cons b0) (decode r)
      else if b0 <? 194 then Raise UnicodeError
      else if b0 <? 224 then
        match r with
        | b1 :: r1 =>
            if is_cont b1 then
              fmap (cons (N.lor (N.shiftl (N.land b0 31) 6) (N.land b1 63)))
                   (decode r1)
            else Raise UnicodeError
        | _ => Raise UnicodeError
        end
      else if b0 <? 240 then
        match r with
        | b1 :: b2 :: r2 =>
            if is_cont b1 && is_cont b2
               && (negb (b0 =? 224) || (160 <=? b1))
               && (negb (b0 =? 237) || (b1 <? 160))
            then
              fmap (cons (N.lor (N.shiftl (N.land b0 15) 12)
                                (N.lor (N.shiftl (N.land b1 63) 6)
                                       (N.land b2 63))))
                   (decode r2)
            else Raise UnicodeError
        | _ => Raise UnicodeError
        end
      else if b0 <? 245 then
        match r with
        | b1 :: b2 :: b3 :: r3 =>
            if is_cont b1 && is_cont b2 && is_cont b3
               && (negb (b0 =? 240) || (144 <=? b1))
               && (negb (b0 =? 244) || (b1 <? 144))
            then
              fmap (cons (N.lor (N.shiftl (N.land b0 7) 18)
                                (N.lor (N.shiftl (N.land b1 63) 12)
                                       (N.lor (N.shiftl (N.land b2 63) 6)
                                              (N.land b3 63)))))
                   (decode r3)
            else Raise UnicodeError
        | _ => Raise UnicodeError
        end
      else Raise UnicodeError
  end.

Definition is_ascii (s : list N) : Prop := Forall (fun c => c < 128) s.

End Utf8.

(* ================================================================== *)
(** ** [dict] with [str] keys *)

Module Dict.

Section Dict.
Variable V : Type.

Definition t : Type := list (pystr * V).

(** [d.get(k)]: [None] when the key is absent. *)
Fixpoint get (d : t) (k : pystr) : option V :=
  match d with
  | [] => None
  | (k', v) :: r => if str_eqb k' k then Some v else get r k
  end.

(** [d[k]] *)
Definition getitem (d : t) (k : pystr) : result V :=
  of_option KeyError (get d k).

(** [d[k] = v]: an existing key keeps its place, a new one goes last. *)
Fixpoint set (d : t) (k : pystr) (v : V) : t :=
  match d with
  | [] => [(k, v)]
  | (k', v') :: r =>
      if str_eqb k' k then (k', v) :: r else (k', v') :: set r k v
  end.

Definition keys (d : t) : list pystr := List.map fst d.

(** [dict(items)] and dict comprehensions: items are stored in turn. *)
Definition of_items (items : list (pystr * V)) : t :=
  fold_left (fun d kv => set d (fst kv) (snd kv)) items [].

(** The invariant of a [dict]: no key twice. *)
Definition wf (d : t) : Prop := NoDup (keys d).

(** [d1 == d2]: same size, and every item of [d1] is in [d2]. *)
Definition eqb (veqb : V -> V -> bool) (d1 d2 : t) : bool :=
  (length d1 =? length d2)%nat
  && forallb (fun kv => match get d2 (fst kv) with
                        | Some v' => veqb (snd kv) v'
                        | None => false
                        end) d1.
End Dict.

End Dict.

(* ================================================================== *)
(** ** [json.dumps] and [json.loads]

    The values of a key token are JSON scalars.  [float] is left out: the
    development has no floating point. *)

Module Json.

Inductive scalar : Type :=
  | SNone
  | SBool (b : bool)
  | SInt (z : Z)
  | SStr (s : pystr).

(** [a == b] on scalars: a [bool] is the [int] 0 or 1. *)
Definition as_int (v : scalar) : option Z :=
  match v with
  | SBool b => Some (if b then 1%Z else 0%Z)
  | SInt z => Some z
  | _ => None
  end.

Definition scalar_eqb (a b : scalar) : bool :=
  match a, b with
  | SNone, SNone => true
  | SStr x, SStr y => str_eqb x y
  | _, _ =>
      match as_int a, as_int b with
      | Some x, Some y => Z.eqb x y
      | _, _ => false
      end
  end.

Definition pydict : Type := Dict.t scalar.

(** *** Writing *)

Definition hexdigit (d : N) : N := if d <? 10 then 48 + d else 87 + d.

(** ['{0:04x}'.format(n)] for [n < 0x10000] *)
Definition hex4 (n : N) : pystr :=
  [ hexdigit (N.land (N.shiftr n 12) 15);
    hexdigit (N.land (N.shiftr n 8) 15);
    hexdigit (N.land (N.shiftr n 4) 15);
    hexdigit (N.land n 15) ].

(** The replacement of one character by [encode_basestring_ascii]:
    printable ASCII other than the quote and the backslash stays, the rest
    is escaped, above the BMP as a surrogate pair. *)
Definition escape_char (c : N) : pystr :=
  if c =? 34 then [92; 34]
  else if c =? 92 then [92; 92]
  else if (32 <=? c) && (c <=? 126) then [c]
  else if c =? 8 then [92; 98]
  else if c =? 12 then [92; 102]
  else if c =? 10 then [92; 110]
  else if c =? 13 then [92; 114]
  else if c =? 9 then [92; 116]
  else if c <? 65536 then 92 :: 117 :: hex4 c
  else
    let n := c - 65536 in
    let s1 := N.lor 55296 (N.land (N.shiftr n 10) 1023) in
    let s2 := N.lor 56320 (N.land n 1023) in
    (92 :: 117 :: hex4 s1) ++ (92 :: 117 :: hex4 s2).

Definition escape (s : pystr) : pystr := concat (List.map escape_char s).

Definition encode_basestring_ascii (s : pystr) : pystr :=
  34 :: escape s ++ [34].

Fixpoint digits_of_uint (u : Decimal.uint) : pystr :=
  match u with
  | Decimal.Nil => []
  | Decimal.D0 r => 48 :: digits_of_uint r
  | Decimal.D1 r => 49 :: digits_of_uint r
  | Decimal.D2 r => 50 :: digits_of_uint r
  | Decimal.D3 r => 51 :: digits_of_uint r
  | Decimal.D4 r => 52 :: digits_of_uint r
  | Decimal.D5 r => 53 :: digits_of_uint r
  | Decimal.D6 r => 54 :: digits_of_uint r
  | Decimal.D7 r => 55 :: digits_of_uint r
  | Decimal.D8 r => 56 :: digits_of_uint r
  | Decimal.D9 r => 57 :: digits_of_uint r
  end.

(** [int.__repr__] *)
Definition repr_int (z : Z) : pystr :=
  match z with
  | Z0 => [48]
  | Zpos p => digits_of_uint (Pos.to_uint p)
  | Zneg p => 45 :: digits_of_uint (Pos.to_uint p)
  end.

Definition dumps_scalar (v : scalar) : pystr :=
  match v with
  | SNone => lit "null"
  | SBool true => lit "true"
  | SBool false => lit "false"
  | SInt z => repr_int z
  | SStr s => encode_basestring_ascii s
  end.

Definition dumps_item (kv : pystr * scalar) : pystr :=
  encode_basestring_ascii (fst kv) ++ lit ": " ++ dumps_scalar (snd kv).

(** [sep.join(parts)] *)
Fixpoint join (sep : pystr) (parts : list pystr) : pystr :=
  match parts with
  | [] => []
  | [p] => p
  | p :: ps => p ++ sep ++ join sep ps
  end.

(** [json.dumps(d)] with the defaults: [ensure_ascii=True] and the
    separators [', '] and [': ']. *)
Definition dumps (d : pydict) : pystr :=
  123 :: join (lit ", ") (List.map dumps_item d) ++ [125].

(** *** Reading *)

Definition is_ws (c : N) : bool :=
  (c =? 32) || (c =? 9) || (c =? 10) || (c =? 13).

Fixpoint skip_ws (s : pystr) : pystr :=
  match s with
  | c :: r => if is_ws c then skip_ws r else s
  | [] => []
  end.

Definition hexval (c : N) : option N :=
  if (48 <=? c) && (c <=? 57) then Some (c - 48)
  else if (97 <=? c) && (c <=? 102) then Some (c - 87)
  else if (65 <=? c) && (c <=? 70) then Some (c - 55)
  else None.

Definition hex4val (h1 h2 h3 h4 : N) : option N :=
  match hexval h1, hexval h2, hexval h3, hexval h4 with
  | Some d1, Some d2, Some d3, Some d4 =>
      Some (N.lor (N.shiftl (N.lor (N.shiftl (N.lor (N.shiftl d1 4) d2) 4) d3) 4) d4)
  | _, _, _, _ => None
  end.

Definition is_high (c : N) : bool := (55296 <=? c) && (c <=? 56319).
Definition is_low (c : N) : bool := (56320 <=? c) && (c <=? 57343).

Definition join_surrogates (hi lo : N) : N :=
  65536 + N.lor (N.shiftl (hi - 55296) 10) (lo - 56320).

(** The character after a backslash, other than [u]. *)
Definition backslash (e : N) : option N :=
  if (e =? 34) || (e =? 92) || (e =? 47) then Some e
  else if e =? 98 then Some 8
  else if e =? 102 then Some 12
  else if e =? 110 then Some 10
  else if e =? 114 then Some 13
  else if e =? 116 then Some 9
  else None.

(** What stands at the head of the text after a high surrogate escape. *)
Inductive ahead : Type :=
  | NoEscape
  | BadEscape
  | Unit (u : N).

Definition u_escape (s : pystr) : ahead :=
  match s with
  | b :: u :: h1 :: h2 :: h3 :: h4 :: _ =>
      if (b =? 92) && (u =? 117) then
        match hex4val h1 h2 h3 h4 with
        | Some v => Unit v
        | None => BadEscape
        end
      else NoEscape
  | _ => NoEscape
  end.

(** One character of a string body that is not the closing quote: the
    character and the text after it.  A high surrogate escape directly
    followed by a low surrogate escape is read as one character. *)
Definition scan_char (s : pystr) : option (N * pystr) :=
  match s with
  | [] => None
  | c :: r =>
      if c =? 92 then
        match r with
        | [] => None
        | e :: r1 =>
            if e =? 117 then
              match r1 with
              | h1 :: h2 :: h3 :: h4 :: r2 =>
                  match hex4val h1 h2 h3 h4 with
                  | None => None
                  | Some uni =>
                      if is_high uni then
                        match u_escape r2 with
                        | Unit uni2 =>
                            if is_low uni2
                            then Some (join_surrogates uni uni2, skipn 6 r2)
                            else Some (uni, r2)
                        | BadEscape => None
                        | NoEscape => Some (uni, r2)
                        end
                      else Some (uni, r2)
                  end
              | _ => None
              end
            else
              match backslash e with
              | Some ch => Some (ch, r1)
              | None => None
              end
        end
      else if c <? 32 then None
      else Some (c, r)
  end.

(** [scanstring]: from just after the opening quote to just after the
    closing one. *)
Fixpoint scanstring (fuel : nat) (s : pystr) : option (pystr * pystr) :=
  match fuel with
  | O => None
  | S f =>
      match s with
      | [] => None
      | c :: r =>
          if c =? 34 then Some ([], r)
          else
            match scan_char s with
            | None => None
            | Some (ch, rest) =>
                match scanstring f rest with
                | Some (str, rest') => Some (ch :: str, rest')
                | None => None
                end
            end
      end
  end.

Definition is_digit (c : N) : bool := (48 <=? c) && (c <=? 57).

Definition digit_cons (c : N) (u : Decimal.uint) : Decimal.uint :=
  if c =? 48 then Decimal.D0 u
  else if c =? 49 then Decimal.D1 u
  else if c =? 50 then Decimal.D2 u
  else if c =? 51 then Decimal.D3 u
  else if c =? 52 then Decimal.D4 u
  else if c =? 53 then Decimal.D5 u
  else if c =? 54 then Decimal.D6 u
  else if c =? 55 then Decimal.D7 u
  else if c =? 56 then Decimal.D8 u
  else Decimal.D9 u.

Fixpoint scan_digits (s : pystr) : Decimal.uint * pystr :=
  match s with
  | c :: r =>
      if is_digit c then
        let (u, rest) := scan_digits r in (digit_cons c u, rest)
      else (Decimal.Nil, s)
  | [] => (Decimal.Nil, [])
  end.

(** The integer part of the number pattern: ["0"], or a non-zero digit
    and more digits. *)
Definition scan_natural (s : pystr) : option (N * pystr) :=
  match s with
  | [] => None
  | c :: r =>
      if c =? 48 then Some (0, r)
      else if is_digit c then
        let (u, rest) := scan_digits s in Some (N.of_uint u, rest)
      else None
  end.

Definition starts_fraction (s : pystr) : bool :=
  match s with
  | c :: _ => (c =? 46) || (c =? 101) || (c =? 69)
  | [] => false
  end.

(** An [int] literal.  A literal that goes on with a fraction or an
    exponent is a [float] and not read here. *)
Definition match_number (s : pystr) : option (scalar * pystr) :=
  let signed (neg : bool) (body : pystr) :=
    match scan_natural body with
    | None => None
    | Some (n, rest) =>
        if starts_fraction rest then None
        else Some (SInt (if neg then Z.opp (Z.of_N n) else Z.of_N n), rest)
    end in
  match s with
  | c :: r => if c =? 45 then signed true r else signed false s
  | [] => None
  end.

(** [scan_once] on the scalar forms. *)
Definition scan_value (fuel : nat) (s : pystr) : option (scalar * pystr) :=
  match s with
  | [] => None
  | c :: r =>
      if c =? 34 then
        match scanstring fuel r with
        | Some (str, rest) => Some (SStr str, rest)
        | None => None
        end
      else if startswith s (lit "null") then Some (SNone, skipn 4 s)
      else if startswith s (lit "true") then Some (SBool true, skipn 4 s)
      else if startswith s (lit "false") then Some (SBool false, skipn 5 s)
      else match_number s
  end.

(** The member loop of the object reader; [s] stands at a key. *)
Fixpoint parse_members (fuel : nat) (s : pystr) (acc : pydict)
  : option (pydict * pystr) :=
  match fuel with
  | O => None
  | S f =>
      match s with
      | [] => None
      | q :: r =>
          if q =? 34 then
            match scanstring (length r) r with
            | None => None
            | Some (key, s1) =>
                match skip_ws s1 with
                | colon :: s2 =>
                    if colon =? 58 then
                      let s3 := skip_ws s2 in
                      match scan_value (length s3) s3 with
                      | None => None
                      | Some (v, s4) =>
                          let acc' := Dict.set acc key v in
                          match skip_ws s4 with
                          | d :: s5 =>
                              if d =? 125 then Some (acc', s5)
                              else if d =? 44 then
                                parse_members f (skip_ws s5) acc'
                              else None
                          | [] => None
                          end
                      end
                    else None
                | [] => None
                end
            end
          else None
      end
  end.

(** The object reader, from just after the opening brace. *)
Definition parse_object (s : pystr) : option (pydict * pystr) :=
  match skip_ws s with
  | [] => None
  | c :: r =>
      if c =? 125 then Some ([], r)
      else parse_members (length (c :: r)) (c :: r) []
  end.

(** [json.loads(s)] on a text that holds one object with scalar members,
    the form of a key token.  Any other text is answered with
    [JSONDecodeError] here, also one that the library would read as a list,
    a nested object, a [float] or a bare scalar. *)
Definition loads (s : pystr) : result pydict :=
  match skip_ws s with
  | [] => Raise JSONDecodeError
  | c :: r =>
      if c =? 123 then
        match parse_object r with
        | Some (d, rest) =>
            match skip_ws rest with
            | [] => Ok d
            | _ :: _ => Raise JSONDecodeError
            end
        | None => Raise JSONDecodeError
        end
      else Raise JSONDecodeError
  end.

(** *** Strings that a token can carry back

    [has_joined_pair s] holds when somewhere in [s] a high surrogate code
    point is directly followed by a low surrogate code point. *)

Fixpoint has_joined_pair (s : pystr) : bool :=
  match s with
  | c :: ((c' :: _) as r) => (is_high c && is_low c') || has_joined_pair r
  | _ => false
  end.

Definition str_ok (s : pystr) : Prop :=
  wf_str s /\ has_joined_pair s = false.

Definition scalar_ok (v : scalar) : Prop :=
  match v with
  | SStr s => str_ok s
  | _ => True
  end.

(** A [dict] of column names and scalars whose strings are [str_ok]. *)
Definition dict_ok (d : pydict) : Prop :=
  Dict.wf d /\ Forall (fun kv => str_ok (fst kv) /\ scalar_ok (snd kv)) d.

End Json.

(* ================================================================== *)
(** ** fields.py: [CompositeKey]

    [class CompositeKey(dict)]: the key token, a [dict] from the names of
    the key columns to their values in JSON form. *)

Module CompositeKey.
Import Json.

Definition t : Type := pydict.

(** [b64encode(json.dumps(value).encode('utf-8')).decode('utf-8')] *)
Definition encode (value : pydict) : result pystr :=
  octets <- Utf8.encode (dumps value) ;;
  Utf8.decode (Base64.b64encode octets).

(** [json.loads(b64decode(value.encode('utf-8')).decode('utf-8'))] *)
Definition decode (value : pystr) : result pydict :=
  octets <- Utf8.encode value ;;
  raw <- Base64.b64decode octets ;;
  text <- Utf8.decode raw ;;
  loads text.

Definition to_json_string (self : t) : pystr := dumps self.

Definition __str__ (self : t) : result pystr := encode self.

(** [sorted] on a list of [str]: insertion into an ascending list. *)
Fixpoint insert_sorted (k : pystr) (l : list pystr) : list pystr :=
  match l with
  | [] => [k]
  | h :: r => if str_ltb h k then h :: insert_sorted k r else k :: h :: r
  end.

Definition sorted (l : list pystr) : list pystr :=
  fold_right insert_sorted [] l.

Section Hash.
(** The built-in [hash] on tuples of scalars is the interpreter's. *)
Variable hash : list scalar -> Z.

(** [hash(tuple(self[key] for key in sorted(self.keys())))] *)
Definition __hash__ (self : t) : result Z :=
  values <- mapM (Dict.getitem self) (sorted (Dict.keys self)) ;;
  Ok (hash values).
End Hash.

(** [a == b], inherited from [dict]. *)
Definition __eq__ (a b : t) : bool := Dict.eqb scalar_eqb a b.

End CompositeKey.

(* ================================================================== *)
(** ** The Django objects the package works on *)

Module Django.
Import Json.

(** The field classes the package instantiates. *)
Inductive FieldClass : Type :=
  | CharField
  | IntegerField
  | DateTimeField
  | DateField
  | DecimalField
  | BooleanField
  | BigIntegerField
  | TextField
  | UUIDField
  | RawJSONField
  | ForeignKey
  | CompositeKeyField.

Definition FieldClass_eqb (a b : FieldClass) : bool :=
  match a, b with
  | CharField, CharField | IntegerField, IntegerField
  | DateTimeField, DateTimeField | DateField, DateField
  | DecimalField, DecimalField | BooleanField, BooleanField
  | BigIntegerField, BigIntegerField | TextField, TextField
  | UUIDField, UUIDField | RawJSONField, RawJSONField
  | ForeignKey, ForeignKey | CompositeKeyField, CompositeKeyField => true
  | _, _ => false
  end.

Inductive OnDelete : Type := PROTECT.

(** The [default] of a field: a value ([None] is [DValue SNone]) or
    [partial(f, None)] for a callable [f], named here. *)
Inductive FieldDefault : Type :=
  | DValue (v : scalar)
  | DPartial (f : pystr).

(** A field as constructed: its class and keyword arguments.  An argument
    that was not passed is [None]. *)
Record Field : Type := mkField {
  field_class : FieldClass;
  null : bool;
  default : FieldDefault;
  primary_key : bool;
  editable : bool;
  blank : bool;
  choices : option (list (pystr * pystr));
  max_length : option Z;
  to : option pystr;
  on_delete : option OnDelete;
  to_field : option pystr;
  db_column : option pystr
}.

Definition set_primary_key (f : Field) (b : bool) : Field :=
  mkField (field_class f) (null f) (default f) b (editable f) (blank f)
          (choices f) (max_length f) (to f) (on_delete f) (to_field f)
          (db_column f).

(** What an argument of [CompositeKeyField(...)] can be at run time. *)
Inductive pyobj : Type :=
  | ObjStr (s : pystr)
  | ObjField (name : option pystr) (f : Field).

(** [obj.db_column] and [obj.name]; a [str] has neither attribute. *)
Definition getattr_db_column (o : pyobj) : result (option pystr) :=
  match o with
  | ObjStr _ => Raise AttributeError
  | ObjField _ f => Ok (db_column f)
  end.

Definition getattr_name (o : pyobj) : result (option pystr) :=
  match o with
  | ObjStr _ => Raise AttributeError
  | ObjField n _ => Ok n
  end.

(** A field as [Model._meta] knows it, after [contribute_to_class]. *)
Record MetaField : Type := mkMetaField {
  mf_name : pystr;
  mf_attname : pystr;
  mf_column : option pystr;
  mf_db_column : option pystr;
  mf_class : FieldClass;
  mf_concrete : bool;
  mf_is_relation : bool;
  mf_choices : option (list (pystr * pystr));
  mf_key_fields : list pyobj
}.

(** [Model._meta]: [get_fields()] in order, and [pk]. *)
Record Options : Type := mkOptions {
  get_fields : list MetaField;
  pk : MetaField
}.

(** [opts.get_field(field_name)]: fields are entered in a map under their
    name and their attname, a later field replacing an earlier one. *)
Definition get_field (opts : Options) (field_name : option pystr)
  : result MetaField :=
  match field_name with
  | None => Raise FieldDoesNotExist
  | Some n =>
      of_option FieldDoesNotExist
        (fold_left
           (fun found f =>
              if str_eqb (mf_name f) n || str_eqb (mf_attname f) n
              then Some f else found)
           (get_fields opts) None)
  end.

(** [datetime.datetime], [datetime.date] and [datetime.time] by their
    attributes; the UTC offset is in whole seconds. *)
Record datetime : Type := mkDatetime {
  year : N; month : N; day : N;
  hour : N; minute : N; second : N; microsecond : N;
  utcoffset : option Z
}.

Record date : Type := mkDate { d_year : N; d_month : N; d_day : N }.

Record time : Type := mkTime {
  t_hour : N; t_minute : N; t_second : N; t_microsecond : N;
  t_utcoffset : option Z
}.

(** The Python values a record can hold in a column.  A [timedelta] is
    its length in microseconds; a [Decimal], a [UUID] and a lazy string
    ([Promise]) are kept as the text [str()] gives for them. *)
Inductive value : Type :=
  | VScalar (s : scalar)
  | VDateTime (d : datetime)
  | VDate (d : date)
  | VTime (t : time)
  | VTimedelta (microseconds : Z)
  | VDecimal (text : pystr)
  | VUUID (text : pystr)
  | VPromise (text : pystr).

(** A model instance: its attributes by name. *)
Definition Instance : Type := Dict.t value.

(** [field.value_from_object(obj)] is [getattr(obj, field.attname)]. *)
Definition value_from_object (f : MetaField) (obj : Instance) : result value :=
  of_option AttributeError (Dict.get obj (mf_attname f)).

(** *** Text forms from the standard library and [django.utils] *)

(** ['%0*d' % (width, n)] *)
Definition zero_pad (width : nat) (n : N) : pystr :=
  let digits := digits_of_uint (N.to_uint n) in
  repeat 48 (width - length digits) ++ digits.

(** The UTC offset as [+HH:MM], with [:SS] when it has seconds. *)
Definition format_offset (off : Z) : pystr :=
  let a := Z.to_N (Z.abs off) in
  (if (off <? 0)%Z then [45] else [43])
  ++ zero_pad 2 (a / 3600) ++ [58] ++ zero_pad 2 ((a mod 3600) / 60)
  ++ (if a mod 60 =? 0 then [] else 58 :: zero_pad 2 (a mod 60)).

Definition format_clock (h m s us : N) : pystr :=
  zero_pad 2 h ++ [58] ++ zero_pad 2 m ++ [58] ++ zero_pad 2 s
  ++ (if us =? 0 then [] else 46 :: zero_pad 6 us).

Definition format_tz (o : option Z) : pystr :=
  match o with
  | Some off => format_offset off
  | None => []
  end.

(** [date.isoformat()], [datetime.isoformat()], [time.isoformat()] *)
Definition date_isoformat (d : date) : pystr :=
  zero_pad 4 (d_year d) ++ [45] ++ zero_pad 2 (d_month d) ++ [45]
  ++ zero_pad 2 (d_day d).

Definition datetime_isoformat (d : datetime) : pystr :=
  zero_pad 4 (year d) ++ [45] ++ zero_pad 2 (month d) ++ [45]
  ++ zero_pad 2 (day d) ++ [84]
  ++ format_clock (hour d) (minute d) (second d) (microsecond d)
  ++ format_tz (utcoffset d).

Definition time_isoformat (t : time) : pystr :=
  format_clock (t_hour t) (t_minute t) (t_second t) (t_microsecond t)
  ++ format_tz (t_utcoffset t).

(** [django.utils.timezone.is_aware] *)
Definition is_aware (t : time) : bool :=
  match t_utcoffset t with Some _ => true | None => false end.

(** [django.utils.duration.duration_iso_string] *)
Definition duration_iso_string (duration : Z) : pystr :=
  let a := Z.to_N (Z.abs duration) in
  let microseconds := a mod 1000000 in
  let total_seconds := a / 1000000 in
  let days := total_seconds / 86400 in
  let seconds := total_seconds mod 86400 in
  let minutes := seconds / 60 in
  let hours := minutes / 60 in
  (if (duration <? 0)%Z then [45] else [])
  ++ [80] ++ digits_of_uint (N.to_uint days) ++ lit "DT"
  ++ zero_pad 2 hours ++ [72] ++ zero_pad 2 (minutes mod 60) ++ [77]
  ++ zero_pad 2 (seconds mod 60)
  ++ (if microseconds =? 0 then [] else 46 :: zero_pad 6 microseconds)
  ++ [83].

End Django.

(* ================================================================== *)
(** ** fields.py: [ForeignKey], [RawJSONField] *)

Module ForeignKey.
Import Django.

(** [self.db_column or super().get_attname()]; Django's own attname of a
    foreign key is the name with ["_id"] appended. *)
Definition get_attname (name : pystr) (self : Field) : option pystr :=
  or_str (db_column self) (Some (name ++ lit "_id")).

End ForeignKey.

Module RawJSONField.

Definition db_type : pystr := lit "json".

Section FromDb.
(** The value a column holds and what a decoder makes of it are Python
    objects of any kind; [models.JSONField.from_db_value] is Django's. *)
Variable obj : Type.
Variable expression connection : Type.
Variable super_from_db_value : obj -> expression -> connection -> result obj.

Definition from_db_value (value : obj) (e : expression) (c : connection)
  : result obj :=
  match super_from_db_value value e c with
  | Ok decoded => Ok decoded
  | Raise TypeError => Ok value
  | Raise other => Raise other
  end.
End FromDb.

End RawJSONField.

(* ================================================================== *)
(** ** fields.py: [CompositeKeyField] *)

Module CompositeKeyField.
Import Json Django.

(** The attributes set by [__init__] and [contribute_to_class]. *)
Record t : Type := mkCompositeKeyField {
  fields : list pyobj;
  columns : list (option pystr);
  model : Options
}.

(** [[field.db_column or field.name for field in fields]] *)
Definition column_of (field : pyobj) : result (option pystr) :=
  db <- getattr_db_column field ;;
  if truthy_str db then Ok db else getattr_name field.

(** [__init__], up to the call of [AutoField.__init__]. *)
Definition __init__ (fields : list pyobj) : result (list pyobj * list (option pystr)) :=
  columns <- mapM column_of fields ;;
  Ok (fields, columns).

(** [result[:23] + result[26:]]: microseconds cut down to milliseconds. *)
Definition cut_to_milliseconds (iso : pystr) : pystr :=
  slice_to 23 iso ++ slice_from 26 iso.

Definition to_json (v : value) : result scalar :=
  match v with
  | VDateTime d =>
      let result := datetime_isoformat d in
      let result :=
        if microsecond d =? 0 then result else cut_to_milliseconds result in
      let result :=
        if endswith result (lit "+00:00")
        then drop_last 6 result ++ lit "Z" else result in
      Ok (SStr result)
  | VDate d => Ok (SStr (date_isoformat d))
  | VTime t =>
      if is_aware t then Raise ValueError
      else
        let result := time_isoformat t in
        Ok (SStr (if t_microsecond t =? 0 then result else slice_to 12 result))
  | VTimedelta d => Ok (SStr (duration_iso_string d))
  | VDecimal text | VUUID text | VPromise text => Ok (SStr text)
  | VScalar s => Ok s
  end.

(** The dict comprehension of [__get__], one column at a time.
    [get_field(None)] finds no field. *)
Definition key_item (self : t) (instance : Instance) (column : option pystr)
  : result (pystr * scalar) :=
  match column with
  | None => Raise FieldDoesNotExist
  | Some c =>
      f <- get_field (model self) (Some c) ;;
      v <- value_from_object f instance ;;
      j <- to_json v ;;
      Ok (c, j)
  end.

(** [__get__] on an instance: the key token of the record. *)
Definition __get__ (self : t) (instance : Instance) : result CompositeKey.t :=
  items <- mapM (key_item self instance) (columns self) ;;
  Ok (Dict.of_items items).

Definition to_python (value : option (pystr + CompositeKey.t))
  : result (option CompositeKey.t) :=
  match value with
  | None => Ok None
  | Some (inr key) => Ok (Some key)
  | Some (inl text) => fmap Some (CompositeKey.decode text)
  end.

Definition get_prep_value := to_python.

Definition bulk_related_objects (objs : list Instance) : list Instance := [].

(** *** [contribute_to_class]

    The part of [cls._meta] it changes: the private fields and [pk]. *)

Record ClassMeta : Type := mkClassMeta {
  local_fields : list MetaField;
  private_fields : list MetaField;
  meta_pk : option MetaField
}.

(** The pseudo-field as [_meta] lists it: not concrete, its column the
    first key column (for the default ordering). *)
Definition as_meta_field (fields : list pyobj) (column : option pystr)
                         (name : pystr) : MetaField :=
  mkMetaField name name column None Django.CompositeKeyField false false None
              fields.

(** [self.columns[0]] needs a first column; [add_field(self, private=True)]
    appends to the private fields; [setup_pk] takes the field as [pk] when
    the class has none yet. *)
Definition contribute_to_class (fields : list pyobj)
    (columns : list (option pystr)) (cls : ClassMeta) (name : pystr)
  : result ClassMeta :=
  match columns with
  | [] => Raise IndexError
  | column :: _ =>
      let self := as_meta_field fields column name in
      Ok (mkClassMeta (local_fields cls) (private_fields cls ++ [self])
                      (match meta_pk cls with
                       | Some p => Some p
                       | None => Some self
                       end))
  end.

(** *** [delete], as installed on the model class *)

Inductive signal : Type := pre_delete | post_delete.

(** The table of the model and the signals sent so far. *)
Record World : Type := mkWorld {
  rows : list Instance;
  sent : list (signal * Instance * pystr)
}.

Definition send (s : signal) (inst : Instance) (using_ : pystr) (w : World)
  : World :=
  mkWorld (rows w) (sent w ++ [(s, inst, using_)]).

Section Backend.
(** [router.db_for_write] and the database's own comparison of a stored
    cell with a bound parameter (after the field prepared it) are not
    part of the package. *)
Variable db_for_write : Instance -> pystr.
Variable db_exact : MetaField -> value -> scalar -> bool.

(** [Manager.filter] called with the token as keyword arguments: every
    keyword names a field and the conditions are joined with AND. *)
Definition resolve (opts : Options) (kw : pystr * scalar)
  : result (MetaField * scalar) :=
  match get_field opts (Some (fst kw)) with
  | Ok f => Ok (f, snd kw)
  | Raise _ => Raise FieldError
  end.

Definition matches (conds : list (MetaField * scalar)) (row : Instance) : bool :=
  forallb (fun c => match Dict.get row (mf_attname (fst c)) with
                    | Some cell => db_exact (fst c) cell (snd c)
                    | None => false
                    end) conds.

(** [query._raw_delete(using)] on the filtered query set. *)
Definition raw_delete (conds : list (MetaField * scalar)) (w : World) : World :=
  mkWorld (List.filter (fun row => negb (matches conds row)) (rows w)) (sent w).

(** [setattr(inst, column, None)] for every key column. *)
Definition clear_columns (self : t) (inst : Instance) : Instance :=
  fold_left (fun i column =>
               match column with
               | Some c => Dict.set i c (VScalar SNone)
               | None => i
               end) (columns self) inst.

(** The outcome, the instance and the world after the call. *)
Definition delete (self : t) (inst : Instance) (using_ : option pystr)
                  (w : World) : result unit * Instance * World :=
  let using_ := match using_ with
                | Some (c :: r) => c :: r
                | _ => db_for_write inst
                end in
  let w := send pre_delete inst using_ w in
  match __get__ self inst with
  | Raise e => (Raise e, inst, w)
  | Ok key =>
      match mapM (resolve (model self)) key with
      | Raise e => (Raise e, inst, w)
      | Ok conds =>
          let w := raw_delete conds w in
          let inst := clear_columns self inst in
          (Ok tt, inst, send post_delete inst using_ w)
      end
  end.
End Backend.

End CompositeKeyField.

(* ================================================================== *)
(** ** fields.py: the [exact] lookup registered on [CompositeKeyField] *)

Module Exact.
Import Json Django.


Record Col : Type := mkCol { alias : pystr; target : MetaField }.

(** A lookup instance: the lookup class by its [lookup_name]. *)
Record Lookup : Type := mkLookup {
  lookup_name : pystr;
  lhs : Col;
  rhs : scalar
}.

Inductive Connector : Type := AND | OR.

#[warnings="-register-all"]
Inductive Where : Type :=
  | WLookup (l : Lookup)
  | WNode (connector : Connector) (negated : bool) (children : list Where).

(** [WhereNode()] and [node.add(data, conn_type)] for a lookup [data]. *)
Definition WhereNode : Where := WNode AND false [].

Definition add (node : Where) (data : Lookup) (conn_type : Connector) : Where :=
  match node with
  | WNode c n children =>
      match c, conn_type with
      | AND, AND | OR, OR => WNode c n (children ++ [WLookup data])
      | _, _ => WNode conn_type n [WNode c n children; WLookup data]
      end
  | WLookup l => WNode conn_type false [WLookup l; WLookup data]
  end.

Section Compiler.
(** [WhereNode.as_sql(compiler, connection)] is Django's. *)
Variable SQL : Type.
Variable where_as_sql : Where -> SQL.

(** [Exact.as_sql] for the pseudo-field [self] used under the table alias
    [lhs_alias] against the token [rhs]. *)
Definition as_sql (self : CompositeKeyField.t) (lhs_alias : pystr) (rhs : CompositeKey.t)
  : result SQL :=
  fields <- mapM (get_field (CompositeKeyField.model self))
                 (CompositeKeyField.columns self) ;;
  lookups <- mapM (fun fc : MetaField * option pystr =>
                     match snd fc with
                     | Some column =>
                         v <- Dict.getitem rhs column ;;
                         Ok (mkLookup (lit "exact")
                                      (mkCol lhs_alias (fst fc)) v)
                     | None => Raise KeyError
                     end)
                  (combine fields (CompositeKeyField.columns self)) ;;
  let value_constraint :=
    fold_left (fun node lookup => add node lookup AND) lookups WhereNode in
  Ok (where_as_sql value_constraint).
End Compiler.

(** The meaning of a constraint on a row. *)
Section Meaning.
Variable db_exact : MetaField -> value -> scalar -> bool.

Definition lookup_holds (row : Instance) (l : Lookup) : bool :=
  match Dict.get row (mf_attname (target (lhs l))) with
  | Some cell => db_exact (target (lhs l)) cell (rhs l)
  | None => false
  end.

Fixpoint holds (row : Instance) (w : Where) : bool :=
  match w with
  | WLookup l => lookup_holds row l
  | WNode c n children =>
      let r := match c with
               | AND => forallb (holds row) children
               | OR => existsb (holds row) children
               end in
      if n then negb r else r
  end.
End Meaning.

End Exact.

(* ================================================================== *)
(** ** The SQLAlchemy objects read by the package *)

Module SQLAlchemy.
Import Json.

(** [column.type]: an instance of one of the classes below, with the
    attributes the package reads.  [Text] and [Enum] are subclasses of
    [String]; [OtherType] is any class that is not a key of
    [SA_TYPE_TO_MODEL]. *)
Inductive SAType : Type :=
  | String (length : option Z)
  | Text (length : option Z)
  | Enum (enums : list pystr) (length : option Z)
  | Integer
  | BigInteger
  | DateTime
  | Date
  | DECIMAL
  | Boolean
  | UUID
  | JSON
  | OtherType (class_name : pystr).

(** [isinstance(t, types.String)], [isinstance(t, types.Enum)] *)
Definition isinstance_String (t : SAType) : bool :=
  match t with
  | String _ | Text _ | Enum _ _ => true
  | _ => false
  end.

Definition isinstance_Enum (t : SAType) : bool :=
  match t with
  | Enum _ _ => true
  | _ => false
  end.

(** [t.length] of a string type *)
Definition type_length (t : SAType) : option Z :=
  match t with
  | String l | Text l | Enum _ l => l
  | _ => None
  end.

Definition type_enums (t : SAType) : list pystr :=
  match t with
  | Enum e _ => e
  | _ => []
  end.

(** The [arg] of a column default: a plain value, a member of an
    [enum.Enum] (with its [value]) or a callable. *)
Inductive DefaultArg : Type :=
  | ArgScalar (v : scalar)
  | ArgEnum (member_value : scalar)
  | ArgCallable (f : pystr).

Record ColumnDefault : Type := mkColumnDefault { arg : DefaultArg }.

(** A column.  [foreign_keys] lists, in iteration order, the column each
    foreign key of this column refers to. *)
#[warnings="-register-all"]
Inductive Column : Type := mkColumn {
  table_name : pystr;
  name : pystr;
  type_ : SAType;
  nullable : bool;
  default : option ColumnDefault;
  primary_key : bool;
  foreign_keys : list Column
}.

Record Table : Type := mkTable {
  tname : pystr;
  tcolumns : list Column
}.

(** [a is b] on columns: a table holds one column object per name. *)
Definition column_is (a b : Column) : bool :=
  str_eqb (table_name a) (table_name b) && str_eqb (name a) (name b).

End SQLAlchemy.

(* ================================================================== *)
(** ** __init__.py: tables to models *)

Module Init.
Import Json Django SQLAlchemy.

(** [SA_TYPE_TO_MODEL[type(t)]]: [None] stands for [KeyError]. *)
Definition SA_TYPE_TO_MODEL (t : SAType) : option FieldClass :=
  match t with
  | String _ => Some CharField
  | Integer => Some IntegerField
  | DateTime => Some DateTimeField
  | Date => Some DateField
  | DECIMAL => Some DecimalField
  | Boolean => Some BooleanField
  | BigInteger => Some BigIntegerField
  | Text _ => Some TextField
  | Enum _ _ => Some CharField
  | UUID => Some UUIDField
  | JSON => Some RawJSONField
  | OtherType _ => None
  end.

(** Truth value of a scalar and of a length. *)
Definition truthy (v : scalar) : bool :=
  match v with
  | SNone => false
  | SBool b => b
  | SInt z => negb (Z.eqb z 0)
  | SStr s => match s with [] => false | _ :: _ => true end
  end.

Definition truthy_length (l : option Z) : bool :=
  match l with
  | Some n => negb (Z.eqb n 0)
  | None => false
  end.

Definition arg_truthy (a : DefaultArg) : bool :=
  match a with
  | ArgScalar v => truthy v
  | ArgEnum _ | ArgCallable _ => true
  end.

(** [default and default.arg], then the member's value for an enum member
    and [partial(default, None)] for a callable. *)
Definition _convert_default (default : option ColumnDefault) : FieldDefault :=
  match default with
  | None => DValue SNone
  | Some d =>
      let default := arg d in
      if arg_truthy default then
        match default with
        | ArgEnum v => DValue v
        | ArgCallable f => DPartial f
        | ArgScalar v => DValue v
        end
      else
        match default with
        | ArgScalar v | ArgEnum v => DValue v
        | ArgCallable f => DPartial f
        end
  end.

Section Names.
(** [str.capitalize] is the interpreter's. *)
Variable capitalize : pystr -> pystr.

(** [''.join(part.capitalize() for part in table.name.split('_'))] *)
Definition _generate_model_name (table_name : pystr) : pystr :=
  concat (List.map capitalize (split 95 table_name)).

(** The column at the end of the chain of first foreign keys. *)
Fixpoint referred_column (col : Column) : Column :=
  match col with
  | mkColumn _ _ _ _ _ _ fks =>
      match fks with
      | [] => col
      | target :: _ => referred_column target
      end
  end.

Definition _column_as_field (column : Column) (pk_column : option Column)
  : result (pystr * Field) :=
  let name := SQLAlchemy.name column in
  field_class <- of_option KeyError (SA_TYPE_TO_MODEL (type_ column)) ;;
  let primary_key :=
    SQLAlchemy.primary_key column
    || match pk_column with
       | Some p => column_is column p
       | None => false
       end in
  let choices :=
    if isinstance_Enum (type_ column)
    then Some (List.map (fun i => (i, i)) (type_enums (type_ column)))
    else None in
  let string_case :=
    if isinstance_String (type_ column) then
      if truthy_length (type_length (type_ column))
      then (field_class, type_length (type_ column))
      else (TextField, None)
    else (field_class, None) in
  let field_class := fst string_case in
  let max_length := snd string_case in
  let kwargs (cls : FieldClass) (to : option pystr)
             (on_delete : option OnDelete) (to_field db_column : option pystr) :=
    mkField cls (nullable column) (_convert_default (SQLAlchemy.default column))
            primary_key (negb primary_key) (nullable column)
            choices max_length to on_delete to_field db_column in
  match foreign_keys column with
  | [] => Ok (name, kwargs field_class None None None None)
  | _ :: _ =>
      let referred := referred_column column in
      let name :=
        if endswith name (lit "_id") then drop_last 3 name
        else name ++ lit "_obj" in
      let related_model_name := _generate_model_name (table_name referred) in
      Ok (name,
          kwargs ForeignKey
                 (Some (lit "sqlalchemy_django_admin." ++ related_model_name))
                 (Some PROTECT)
                 (Some (SQLAlchemy.name referred))
                 (Some (SQLAlchemy.name column)))
  end.

(** What [table_as_model] puts in the class namespace. *)
Record Meta : Type := mkMeta {
  db_table : pystr;
  managed : bool;
  app_label : pystr;
  verbose_name : pystr;
  verbose_name_plural : pystr
}.

Inductive Attr : Type :=
  | AttrField (f : Field)
  | AttrCompositeKey (fields : list pyobj) (columns : list (option pystr))
  | AttrMeta (m : Meta)
  | AttrStr (str_template : option pystr) (model_name : pystr)
  | AttrModule (m : pystr).

(** The class handed to [type(model_name, (models.Model,), attrs)]. *)
Record Model : Type := mkModel {
  model_name : pystr;
  attrs : Dict.t Attr
}.

Definition attr_primary (a : Attr) : bool :=
  match a with
  | AttrField f => Django.primary_key f
  | AttrCompositeKey _ _ => true
  | _ => false
  end.

(** [field.primary_key = False] on the field objects of the key, which
    are the objects held in [attrs]. *)
Definition clear_primary (a : Attr) : Attr :=
  match a with
  | AttrField f => AttrField (set_primary_key f false)
  | other => other
  end.

(** [field.db_column or field_name] *)
Definition primary_column (item : pystr * Attr) : pystr :=
  match snd item with
  | AttrField f =>
      match or_str (db_column f) (Some (fst item)) with
      | Some c => c
      | None => fst item
      end
  | _ => fst item
  end.

Definition table_as_model (table : Table) (name name_plural : option pystr)
    (str_template : option pystr) (pk_column : option Column)
  : result Model :=
  let model_name := _generate_model_name (tname table) in
  items <- mapM (fun column => _column_as_field column pk_column)
                (tcolumns table) ;;
  let attrs : Dict.t Attr :=
    Dict.of_items (List.map (fun nf => (fst nf, AttrField (snd nf))) items) in
  let primary_fields := List.filter (fun kv => attr_primary (snd kv)) attrs in
  attrs <-
    (if (1 <? length primary_fields)%nat then
       let primary_columns := List.map primary_column primary_fields in
       let attrs := List.map (fun kv => (fst kv, clear_primary (snd kv))) attrs in
       '(fields, columns) <-
          CompositeKeyField.__init__ (List.map ObjStr primary_columns) ;;
       Ok (Dict.set attrs (lit "id") (AttrCompositeKey fields columns))
     else Ok attrs) ;;
  let verbose_name :=
    match or_str name (Some model_name) with
    | Some n => n
    | None => model_name
    end in
  let verbose_name_plural :=
    match or_str name_plural (Some (verbose_name ++ lit "s")) with
    | Some n => n
    | None => verbose_name ++ lit "s"
    end in
  let meta := mkMeta (tname table) false (lit "sqlalchemy_django_admin")
                     verbose_name verbose_name_plural in
  let attrs := Dict.set attrs (lit "Meta") (AttrMeta meta) in
  let attrs := Dict.set attrs (lit "__str__") (AttrStr str_template model_name) in
  let attrs := Dict.set attrs (lit "__module__")
                        (AttrModule (lit "sqlalchemy_django_admin")) in
  Ok (mkModel model_name attrs).
End Names.

End Init.

(* ================================================================== *)
(** ** admin.py: [ModelAdmin] *)

Module Admin.
Import Django.

(** An option of the admin class is a tuple or a list of names. *)
Inductive pyseq (A : Type) : Type :=
  | Tuple (items : list A)
  | PyList (items : list A).

Arguments Tuple {A} items.
Arguments PyList {A} items.

Definition seq_items {A : Type} (s : pyseq A) : list A :=
  match s with
  | Tuple l | PyList l => l
  end.

(** [s == ('__str__',)]: a list never equals a tuple. *)
Definition is_default_list_display (s : pyseq pystr) : bool :=
  match s with
  | Tuple [n] => str_eqb n (lit "__str__")
  | _ => false
  end.

Record ModelAdmin : Type := mkModelAdmin {
  opts : Options;
  list_display : pyseq pystr;
  search_fields : pyseq pystr;
  list_filter : pyseq pystr
}.

Definition _model_fields (self : ModelAdmin) : list MetaField :=
  List.filter mf_concrete (get_fields (opts self)).

Definition raw_id_fields (self : ModelAdmin) : list pystr :=
  List.map mf_name (List.filter mf_is_relation (get_fields (opts self))).

(** [f.db_column if f.is_relation else f.name]; [db_column] may be [None]. *)
Definition display_name (f : MetaField) : option pystr :=
  if mf_is_relation f then mf_db_column f else Some (mf_name f).

(** [super().get_list_display(request)] returns [self.list_display]. *)
Definition get_list_display (self : ModelAdmin) : pyseq (option pystr) :=
  if is_default_list_display (list_display self)
  then PyList (List.map display_name (firstn 4 (_model_fields self)))
  else match list_display self with
       | Tuple l => Tuple (List.map Some l)
       | PyList l => PyList (List.map Some l)
       end.

Definition seq_truthy {A : Type} (s : pyseq A) : bool :=
  match seq_items s with [] => false | _ :: _ => true end.

Definition get_search_fields (self : ModelAdmin) : pyseq pystr :=
  if seq_truthy (search_fields self) then search_fields self
  else PyList [lit "=pk"].

Definition has_choices (f : MetaField) : bool :=
  match mf_choices f with
  | Some (_ :: _) => true
  | _ => false
  end.

Definition get_list_filter (self : ModelAdmin) : pyseq pystr :=
  if seq_truthy (list_filter self) then list_filter self
  else PyList (List.map mf_name
                 (List.filter
                    (fun f => has_choices f
                              || FieldClass_eqb (mf_class f) BooleanField)
                    (_model_fields self))).

(** [get_fields(request, obj)]: [fields] is what Django's own
    [get_fields] returned, [has_obj] whether an object is being changed.
    A [str] among [pk.fields] has no [name]. *)
Definition get_fields (self : ModelAdmin) (fields : list pystr) (has_obj : bool)
  : result (list pystr) :=
  if negb has_obj then Ok fields
  else
    primary_fields <-
      (if FieldClass_eqb (mf_class (pk (opts self))) CompositeKeyField
       then mapM getattr_name (mf_key_fields (pk (opts self)))
       else Ok [Some (mf_name (pk (opts self)))]) ;;
    Ok (List.filter
          (fun field =>
             negb (existsb (fun p => match p with
                                     | Some n => str_eqb n field
                                     | None => false
                                     end) primary_fields))
          fields).

End Admin.

(* ================================================================== *)
(** ** Notions used to state the properties *)

Module Notions.
Import Json.

(** The two halves written for a character above the BMP. *)
Definition high_half (c : N) : N :=
  N.lor 55296 (N.land (N.shiftr (c - 65536) 10) 1023).

Definition low_half (c : N) : N :=
  N.lor 56320 (N.land (c - 65536) 1023).

(** The text after a high surrogate escape does not complete a pair. *)
Definition tail_ok (tail : pystr) : Prop :=
  match u_escape tail with
  | Unit v => is_low v = false
  | NoEscape => True
  | BadEscape => False
  end.

(** The text after a written value starts with a comma or the closing
    brace. *)
Definition value_end (t : pystr) : Prop :=
  exists c r, t = c :: r /\ (c = 44 \/ c = 125).

(** One step of [dict(items)]. *)
Definition store (d : pydict) (kv : pystr * scalar) : pydict :=
  Dict.set d (fst kv) (snd kv).

(** An item whose strings can be carried back. *)
Definition item_ok (kv : pystr * scalar) : Prop :=
  str_ok (fst kv) /\ scalar_ok (snd kv).

(** The class the type table gives to a string type. *)
Definition string_class (t : SQLAlchemy.SAType) : Django.FieldClass :=
  match t with
  | SQLAlchemy.Text _ => Django.TextField
  | _ => Django.CharField
  end.

(** The [exact] lookup of a field against a value, under a table alias. *)
Definition exact_on (lhs_alias : pystr) (fv : Django.MetaField * scalar)
  : Exact.Lookup :=
  Exact.mkLookup (lit "exact") (Exact.mkCol lhs_alias (fst fv)) (snd fv).

End Notions.

(* ================================================================== *)
(** ** Sample data *)

Module Examples.
Import Json Django SQLAlchemy Admin.

(** The key of the record with [a = 1] and [b = 'x'], columns in both
    orders. *)
Definition key_a1_bx : pydict := [(lit "a", SInt 1); (lit "b", SStr (lit "x"))].

(** The string of the two code points U+D83D U+DE00 is written as the
    escapes of a surrogate pair and read back as the one code point
    U+1F600. *)
Definition key_surrogates : pydict := [(lit "a", SStr [55357; 56832])].

Definition key_b_then_a : pydict := [(lit "b", SStr (lit "x")); (lit "a", SInt 1)].

(** A column [user_id] that refers to [auth_user.id]. *)
Definition auth_user_id : Column :=
  mkColumn (lit "auth_user") (lit "id") Integer false None true [].

Definition order_user_id : Column :=
  mkColumn (lit "order") (lit "user_id") Integer false None false [auth_user_id].

(** A [String(10)] column. *)
Definition name_varchar_10 : Column :=
  mkColumn (lit "person") (lit "name") (String (Some 10%Z)) false None false [].

(** Three string columns with a declared length that do not become a
    [CharField] of that length: one with a foreign key, one of type [Text],
    one of length zero. *)
Definition country_code : Column :=
  mkColumn (lit "country") (lit "code") (String (Some 2%Z)) false None true [].

Definition city_country : Column :=
  mkColumn (lit "city") (lit "country") (String (Some 2%Z)) false None false
           [country_code].

Definition note_text_100 : Column :=
  mkColumn (lit "note") (lit "body") (Text (Some 100%Z)) false None false [].

Definition tag_varchar_0 : Column :=
  mkColumn (lit "tag") (lit "label") (String (Some 0%Z)) false None false [].

(** Fields as [_meta] lists them: a plain column, a foreign key, and the
    admin of a model with five concrete fields. *)
Definition plain_field (n : String.string) (cls : FieldClass) : MetaField :=
  mkMetaField (lit n) (lit n) (Some (lit n)) None cls true false None [].

Definition relation_field (n attname : String.string) : MetaField :=
  mkMetaField (lit n) (lit attname) (Some (lit attname)) (Some (lit attname))
              ForeignKey true true None [].

Definition order_admin : ModelAdmin :=
  mkModelAdmin
    (mkOptions [plain_field "id" IntegerField; relation_field "user" "user_id";
                plain_field "total" DecimalField; plain_field "paid" BooleanField;
                plain_field "note" TextField]
               (plain_field "id" IntegerField))
    (Tuple [lit "__str__"]) (Tuple []) (Tuple []).

(** A base conversion that reads JSON text and cannot take another
    object, as [json.loads] cannot. *)
Definition loads_text_only (value : pystr + Json.pydict) (e c : unit)
  : result (pystr + Json.pydict) :=
  match value with
  | inl text => fmap inr (Json.loads text)
  | inr _ => Raise TypeError
  end.

(** A model with the key columns [a] and [b]. *)
Definition two_columns : Options :=
  mkOptions [plain_field "a" IntegerField; plain_field "b" CharField]
            (plain_field "a" IntegerField).

Definition key_on_a_b : CompositeKeyField.t :=
  CompositeKeyField.mkCompositeKeyField [] [Some (lit "a"); Some (lit "b")] two_columns.

(** A table of readings keyed by device and time, and two readings of the
    same device that are 333 microseconds apart. *)
Definition reading_opts : Options :=
  mkOptions
    [plain_field "device" IntegerField;
     plain_field "at" DateTimeField;
     mkMetaField (lit "id") (lit "id") (Some (lit "device")) None
                 CompositeKeyField false false None []]
    (mkMetaField (lit "id") (lit "id") (Some (lit "device")) None
                 CompositeKeyField false false None []).

Definition reading_key : CompositeKeyField.t :=
  CompositeKeyField.mkCompositeKeyField [] [Some (lit "device"); Some (lit "at")] reading_opts.

Definition reading_1 : Instance :=
  [(lit "device", VScalar (SInt 7));
   (lit "at", VDateTime (mkDatetime 2020 1 2 3 4 5 123456 None))].

Definition reading_2 : Instance :=
  [(lit "device", VScalar (SInt 7));
   (lit "at", VDateTime (mkDatetime 2020 1 2 3 4 5 123789 None))].

Definition reading_token : CompositeKey.t :=
  [(lit "device", SInt 7); (lit "at", SStr (lit "2020-01-02T03:04:05.123"))].

(** A table whose primary key is the pair of its two columns. *)
Definition membership : Table :=
  mkTable (lit "membership")
    [mkColumn (lit "membership") (lit "person") Integer false None true [];
     mkColumn (lit "membership") (lit "club") Integer false None true []].

End Examples.

(* ================================================================== *)
(** ** Further notions and sample data *)

Module More.
Import Json Django.

(** A character a token is made of: the base64 alphabet and the pad. *)
Definition is_b64_char (c : N) : bool :=
  match Base64.table_a2b c with
  | Some _ => true
  | None => c =? Base64.BASE64_PAD
  end.

(** Two scalars that are the same Python object in kind and content. *)
Definition scalar_same (a b : scalar) : bool :=
  match a, b with
  | SNone, SNone => true
  | SBool x, SBool y => Bool.eqb x y
  | SInt x, SInt y => Z.eqb x y
  | SStr x, SStr y => str_eqb x y
  | _, _ => false
  end.

(** A database that compares a stored scalar with a parameter by
    equality, and matches nothing else. *)
Definition db_equal (f : MetaField) (cell : value) (v : scalar) : bool :=
  match cell with
  | VScalar s => scalar_same s v
  | _ => false
  end.

(** A token as it may arrive with line breaks and blanks in it. *)
Definition token_with_blanks : pystr := lit "eyJhIj
 ogMX0=".

(** A table with one primary key column and two more columns. *)
Definition person_table : SQLAlchemy.Table :=
  SQLAlchemy.mkTable (lit "club_person")
    [SQLAlchemy.mkColumn (lit "club_person") (lit "id") SQLAlchemy.Integer
                         false None true [];
     SQLAlchemy.mkColumn (lit "club_person") (lit "name")
                         (SQLAlchemy.String (Some 40%Z)) false None false [];
     SQLAlchemy.mkColumn (lit "club_person") (lit "joined") SQLAlchemy.Date
                         true None false []].

(** Two readings with scalar key values, and the admin of a model whose
    key is the pair [device], [slot]. *)
Definition slot_opts : Options :=
  mkOptions
    [Examples.plain_field "device" IntegerField;
     Examples.plain_field "slot" IntegerField;
     Examples.plain_field "note" TextField]
    (mkMetaField (lit "id") (lit "id") (Some (lit "device")) None
                 CompositeKeyField false false None
                 [ObjField (Some (lit "device")) 
                    (mkField IntegerField false (DValue SNone) false false
                             false None None None None None None);
                  ObjField (Some (lit "slot"))
                    (mkField IntegerField false (DValue SNone) false false
                             false None None None None None None)]).

Definition slot_key : CompositeKeyField.t :=
  CompositeKeyField.mkCompositeKeyField
    [] [Some (lit "device"); Some (lit "slot")] slot_opts.

Definition slot_7_1 : Instance :=
  [(lit "device", VScalar (SInt 7)); (lit "slot", VScalar (SInt 1));
   (lit "note", VScalar (SStr (lit "x")))].

(** A field object given by its name and its attributes. *)
Definition as_field (nf : option pystr * Field) : pyobj :=
  ObjField (fst nf) (snd nf).

Definition slot_7_2 : Instance :=
  [(lit "device", VScalar (SInt 7)); (lit "slot", VScalar (SInt 2));
   (lit "note", VScalar (SNone))].

(** [r] is reached from [c] by following the first foreign key of each
    column on the way. *)
Inductive refers_to : SQLAlchemy.Column -> SQLAlchemy.Column -> Prop :=
  | refers_here (c : SQLAlchemy.Column) : refers_to c c
  | refers_on (c target : SQLAlchemy.Column) (others : list SQLAlchemy.Column)
              (r : SQLAlchemy.Column) :
      SQLAlchemy.foreign_keys c = target :: others ->
      refers_to target r -> refers_to c r.

(** The primary flag a column gives its field. *)
Definition column_primary (pk_column : option SQLAlchemy.Column)
                          (c : SQLAlchemy.Column) : bool :=
  SQLAlchemy.primary_key c
  || match pk_column with
     | Some p => SQLAlchemy.column_is c p
     | None => false
     end.

(** A table with a column of a type the type table does not list. *)
Definition place_table : SQLAlchemy.Table :=
  SQLAlchemy.mkTable (lit "place")
    [SQLAlchemy.mkColumn (lit "place") (lit "id") SQLAlchemy.Integer
                         false None true [];
     SQLAlchemy.mkColumn (lit "place") (lit "spot")
                         (SQLAlchemy.OtherType (lit "Geometry")) true None
                         false []].

(** The admin of the model keyed by [device] and [slot]. *)
Definition slot_admin : Admin.ModelAdmin :=
  Admin.mkModelAdmin slot_opts (Admin.Tuple [lit "__str__"]) (Admin.Tuple [])
                     (Admin.Tuple []).

End More.

(* ################################################################## *)
(** * Properties *)

(** ** Bounded checks *)

Lemma all_from_spec (fuel : nat) (p : N -> bool) :
  forall i, all_from fuel i p = true ->
  forall x, i <= x -> x < i + N.of_nat fuel -> p x = true.
Proof.
  induction fuel as [|f IH]; intros i H x Hlo Hhi.
  - lia.
  - cbn [all_from] in H. apply andb_true_iff in H. destruct H as [Hi Hr].
    destruct (N.eq_dec x i) as [->|Hne]; [exact Hi|].
    apply (IH (N.succ i) Hr); lia.
Qed.

Lemma all_below_spec (n : N) (p : N -> bool) :
  all_below n p = true -> forall x, x < n -> p x = true.
Proof.
  unfold all_below. intros H x Hx.
  eapply all_from_spec; [exact H|lia|lia].
Qed.

Lemma all_below2_spec (n m : N) (p : N -> N -> bool) :
  all_below n (fun x => all_below m (p x)) = true ->
  forall x y, x < n -> y < m -> p x y = true.
Proof.
  intros H x y Hx Hy.
  apply (@all_below_spec m (p x)); [|exact Hy].
  apply (@all_below_spec n (fun x => all_below m (p x))); assumption.
Qed.

(** ** Base64 *)

Module Base64Facts.
Import Base64.

(** *** Table and bit identities *)

Lemma table_a2b_b2a (i : N) : i < 64 -> table_a2b (table_b2a i) = Some i.
Proof.
  intro H.
  assert (E : (match table_a2b (table_b2a i) with
               | Some j => j =? i | None => false end) = true).
  { apply (@all_below_spec 64
             (fun i => match table_a2b (table_b2a i) with
                       | Some j => j =? i | None => false end));
      [vm_compute; reflexivity | exact H]. }
  destruct (table_a2b (table_b2a i)) as [j|]; [|discriminate].
  apply N.eqb_eq in E. now subst.
Qed.

Lemma table_b2a_not_pad (i : N) : i < 64 -> (table_b2a i =? BASE64_PAD) = false.
Proof.
  intro H.
  apply (@all_below_spec 64 (fun i => negb (table_b2a i =? BASE64_PAD)))
    in H; [|vm_compute; reflexivity].
  now apply negb_true_iff in H.
Qed.

Lemma table_b2a_ascii (i : N) : i < 64 -> table_b2a i < 128.
Proof.
  intro H.
  apply (@all_below_spec 64 (fun i => table_b2a i <? 128))
    in H; [|vm_compute; reflexivity].
  now apply N.ltb_lt in H.
Qed.

Ltac by_octets2 P :=
  let H := fresh in
  match goal with
  | Ha : ?a < 256, Hb : ?b < 256 |- _ =>
      pose proof (@all_below2_spec 256 256 P) as H;
      specialize (H ltac:(vm_compute; reflexivity) a b Ha Hb);
      cbv beta in H
  end.

Lemma sextet1_lt (a : N) : a < 256 -> N.shiftr a 2 < 64.
Proof.
  intro H.
  apply (@all_below_spec 256 (fun a => N.shiftr a 2 <? 64))
    in H; [|vm_compute; reflexivity].
  now apply N.ltb_lt in H.
Qed.

Lemma sextet2_lt (a b : N) :
  a < 256 -> b < 256 -> N.lor (N.shiftl (N.land a 3) 4) (N.shiftr b 4) < 64.
Proof.
  intros Ha Hb.
  by_octets2 (fun a b => N.lor (N.shiftl (N.land a 3) 4) (N.shiftr b 4) <? 64).
  now apply N.ltb_lt.
Qed.

Lemma sextet3_lt (b c : N) :
  b < 256 -> c < 256 -> N.lor (N.shiftl (N.land b 15) 2) (N.shiftr c 6) < 64.
Proof.
  intros Ha Hb.
  by_octets2 (fun b c => N.lor (N.shiftl (N.land b 15) 2) (N.shiftr c 6) <? 64).
  now apply N.ltb_lt.
Qed.

Lemma sextet4_lt (c : N) : c < 256 -> N.land c 63 < 64.
Proof.
  intro H.
  apply (@all_below_spec 256 (fun c => N.land c 63 <? 64))
    in H; [|vm_compute; reflexivity].
  now apply N.ltb_lt in H.
Qed.

Lemma octet1_back (a b : N) :
  a < 256 -> b < 256 ->
  N.land (N.lor (N.shiftl (N.shiftr a 2) 2)
                (N.shiftr (N.lor (N.shiftl (N.land a 3) 4) (N.shiftr b 4)) 4))
         255 = a.
Proof.
  intros Ha Hb.
  by_octets2 (fun a b =>
    N.land (N.lor (N.shiftl (N.shiftr a 2) 2)
                  (N.shiftr (N.lor (N.shiftl (N.land a 3) 4) (N.shiftr b 4)) 4))
           255 =? a).
  now apply N.eqb_eq.
Qed.

Lemma nibble_kept (a b : N) :
  a < 256 -> b < 256 ->
  N.land (N.lor (N.shiftl (N.land a 3) 4) (N.shiftr b 4)) 15 = N.shiftr b 4.
Proof.
  intros Ha Hb.
  by_octets2 (fun a b =>
    N.land (N.lor (N.shiftl (N.land a 3) 4) (N.shiftr b 4)) 15 =? N.shiftr b 4).
  now apply N.eqb_eq.
Qed.

Lemma octet2_back (b c : N) :
  b < 256 -> c < 256 ->
  N.land (N.lor (N.shiftl (N.shiftr b 4) 4)
                (N.shiftr (N.lor (N.shiftl (N.land b 15) 2) (N.shiftr c 6)) 2))
         255 = b.
Proof.
  intros Ha Hb.
  by_octets2 (fun b c =>
    N.land (N.lor (N.shiftl (N.shiftr b 4) 4)
                  (N.shiftr (N.lor (N.shiftl (N.land b 15) 2) (N.shiftr c 6)) 2))
           255 =? b).
  now apply N.eqb_eq.
Qed.

Lemma pair_kept (b c : N) :
  b < 256 -> c < 256 ->
  N.land (N.lor (N.shiftl (N.land b 15) 2) (N.shiftr c 6)) 3 = N.shiftr c 6.
Proof.
  intros Ha Hb.
  by_octets2 (fun b c =>
    N.land (N.lor (N.shiftl (N.land b 15) 2) (N.shiftr c 6)) 3 =? N.shiftr c 6).
  now apply N.eqb_eq.
Qed.

Lemma octet3_back (c : N) :
  c < 256 -> N.land (N.lor (N.shiftl (N.shiftr c 6) 6) (N.land c 63)) 255 = c.
Proof.
  intro H.
  apply (@all_below_spec 256
    (fun c => N.land (N.lor (N.shiftl (N.shiftr c 6) 6) (N.land c 63)) 255 =? c))
    in H; [|vm_compute; reflexivity].
  now apply N.eqb_eq in H.
Qed.

(** *** Decoding undoes encoding *)

Lemma list_ind_by3 (A : Type) (P : list A -> Prop) :
  P [] ->
  (forall a, P [a]) ->
  (forall a b, P [a; b]) ->
  (forall a b c rest, P rest -> P (a :: b :: c :: rest)) ->
  forall l, P l.
Proof.
  intros H0 H1 H2 H3.
  fix IH 1. intros [|a [|b [|c rest]]].
  - exact H0.
  - apply H1.
  - apply H2.
  - apply H3, IH.
Qed.

Lemma a2b_after_sextet (i : N) (rest : pybytes) (q : quad) (lc pads : N) :
  i < 64 ->
  a2b_loop (table_b2a i :: rest) q lc pads =
  match q with
  | Q0 => a2b_loop rest Q1 i 0
  | Q1 => fmap (cons (N.land (N.lor (N.shiftl lc 2) (N.shiftr i 4)) 255))
               (a2b_loop rest Q2 (N.land i 15) 0)
  | Q2 => fmap (cons (N.land (N.lor (N.shiftl lc 4) (N.shiftr i 2)) 255))
               (a2b_loop rest Q3 (N.land i 3) 0)
  | Q3 => fmap (cons (N.land (N.lor (N.shiftl lc 6) i) 255))
               (a2b_loop rest Q0 0 0)
  end.
Proof.
  intro H. cbn [a2b_loop].
  rewrite (table_b2a_not_pad H), (table_a2b_b2a H). reflexivity.
Qed.

Lemma b64decode_b64encode (data : pybytes) :
  Forall is_octet data -> b64decode (b64encode data) = Ok data.
Proof.
  unfold b64decode, b64encode, a2b_base64.
  induction data as [|a|a b|a b c rest IH] using list_ind_by3; intro Hall.
  - reflexivity.
  - inversion Hall as [|? ? Ha _]; subst. unfold is_octet in Ha.
    assert (H0 : (0 < 256)) by lia.
    cbn [b2a_base64].
    rewrite (a2b_after_sextet _ _ _ _ (sextet1_lt Ha)).
    replace (N.shiftl (N.land a 3) 4)
      with (N.lor (N.shiftl (N.land a 3) 4) (N.shiftr 0 4))
      by (cbn [N.shiftr]; apply N.lor_0_r).
    rewrite (a2b_after_sextet _ _ _ _ (sextet2_lt Ha H0)).
    rewrite (octet1_back Ha H0). reflexivity.
  - inversion Hall as [|? ? Ha Hall']; subst.
    inversion Hall' as [|? ? Hb _]; subst. unfold is_octet in Ha, Hb.
    assert (H0 : (0 < 256)) by lia.
    cbn [b2a_base64].
    rewrite (a2b_after_sextet _ _ _ _ (sextet1_lt Ha)).
    rewrite (a2b_after_sextet _ _ _ _ (sextet2_lt Ha Hb)).
    replace (N.shiftl (N.land b 15) 2)
      with (N.lor (N.shiftl (N.land b 15) 2) (N.shiftr 0 6))
      by (cbn [N.shiftr]; apply N.lor_0_r).
    rewrite (a2b_after_sextet _ _ _ _ (sextet3_lt Hb H0)).
    rewrite (octet1_back Ha Hb), (nibble_kept Ha Hb), (octet2_back Hb H0).
    reflexivity.
  - inversion Hall as [|? ? Ha Hall']; subst.
    inversion Hall' as [|? ? Hb Hall'']; subst.
    inversion Hall'' as [|? ? Hc Hrest]; subst.
    unfold is_octet in Ha, Hb, Hc.
    cbn [b2a_base64].
    rewrite (a2b_after_sextet _ _ _ _ (sextet1_lt Ha)).
    rewrite (a2b_after_sextet _ _ _ _ (sextet2_lt Ha Hb)).
    rewrite (a2b_after_sextet _ _ _ _ (sextet3_lt Hb Hc)).
    rewrite (a2b_after_sextet _ _ _ _ (sextet4_lt Hc)).
    rewrite (octet1_back Ha Hb), (nibble_kept Ha Hb), (octet2_back Hb Hc),
      (pair_kept Hb Hc), (octet3_back Hc).
    rewrite (IH Hrest). reflexivity.
Qed.

Lemma b64encode_ascii (data : pybytes) :
  Forall is_octet data -> Forall (fun c => c < 128) (b64encode data).
Proof.
  unfold b64encode.
  induction data as [|a|a b|a b c rest IH] using list_ind_by3; intro Hall.
  - constructor.
  - inversion Hall as [|? ? Ha _]; subst. unfold is_octet in Ha.
    assert (H0 : (0 < 256)) by lia.
    cbn [b2a_base64]. repeat apply Forall_cons; try apply Forall_nil.
    + apply table_b2a_ascii, (sextet1_lt Ha).
    + apply table_b2a_ascii.
      replace (N.shiftl (N.land a 3) 4)
        with (N.lor (N.shiftl (N.land a 3) 4) (N.shiftr 0 4))
        by (cbn [N.shiftr]; apply N.lor_0_r).
      apply (sextet2_lt Ha H0).
    + unfold BASE64_PAD; lia.
    + unfold BASE64_PAD; lia.
  - inversion Hall as [|? ? Ha Hall']; subst.
    inversion Hall' as [|? ? Hb _]; subst. unfold is_octet in Ha, Hb.
    assert (H0 : (0 < 256)) by lia.
    cbn [b2a_base64]. repeat apply Forall_cons; try apply Forall_nil.
    + apply table_b2a_ascii, (sextet1_lt Ha).
    + apply table_b2a_ascii, (sextet2_lt Ha Hb).
    + apply table_b2a_ascii.
      replace (N.shiftl (N.land b 15) 2)
        with (N.lor (N.shiftl (N.land b 15) 2) (N.shiftr 0 6))
        by (cbn [N.shiftr]; apply N.lor_0_r).
      apply (sextet3_lt Hb H0).
    + unfold BASE64_PAD; lia.
  - inversion Hall as [|? ? Ha Hall']; subst.
    inversion Hall' as [|? ? Hb Hall'']; subst.
    inversion Hall'' as [|? ? Hc Hrest]; subst.
    unfold is_octet in Ha, Hb, Hc.
    cbn [b2a_base64]. repeat apply Forall_cons.
    + apply table_b2a_ascii, (sextet1_lt Ha).
    + apply table_b2a_ascii, (sextet2_lt Ha Hb).
    + apply table_b2a_ascii, (sextet3_lt Hb Hc).
    + apply table_b2a_ascii, (sextet4_lt Hc).
    + apply IH, Hrest.
Qed.

End Base64Facts.

(** ** UTF-8 on ASCII text *)

Module Utf8Facts.
Import Utf8.

Lemma encode_ascii (s : pystr) : is_ascii s -> encode s = Ok s.
Proof.
  unfold encode, fmap.
  induction 1 as [|c s Hc Hs IH]; [reflexivity|].
  cbn [mapM]. unfold encode_char at 1.
  apply N.ltb_lt in Hc. rewrite Hc. cbn [bind].
  destruct (mapM encode_char s) as [bs|e]; cbn [bind] in *; [|discriminate].
  injection IH as <-. reflexivity.
Qed.

Lemma decode_ascii (b : pybytes) : is_ascii b -> decode b = Ok b.
Proof.
  induction 1 as [|c s Hc Hs IH]; [reflexivity|].
  cbn [decode]. apply N.ltb_lt in Hc. rewrite Hc, IH. reflexivity.
Qed.

Lemma ascii_octets (s : list N) : is_ascii s -> Forall Base64.is_octet s.
Proof.
  apply Forall_impl. unfold Base64.is_octet. intros; lia.
Qed.

End Utf8Facts.

(** ** Strings and dicts *)

Module DictFacts.

Lemma str_eqb_eq (a b : pystr) : str_eqb a b = true <-> a = b.
Proof.
  revert b. induction a as [|x a IH]; intros [|y b]; cbn [str_eqb];
    try (split; [discriminate|congruence]); [split; reflexivity|].
  rewrite andb_true_iff, N.eqb_eq, IH. split.
  - intros [-> ->]. reflexivity.
  - intro E. injection E as -> ->. split; reflexivity.
Qed.

Lemma str_eqb_refl (a : pystr) : str_eqb a a = true.
Proof. now apply str_eqb_eq. Qed.

Lemma str_eqb_neq (a b : pystr) : a <> b -> str_eqb a b = false.
Proof.
  intro H. destruct (str_eqb a b) eqn:E; [|reflexivity].
  apply str_eqb_eq in E. contradiction.
Qed.

Section Facts.
Variable V : Type.
Implicit Types (d : Dict.t V) (k : pystr) (v : V).

Lemma set_absent d k v :
  ~ In k (Dict.keys d) -> Dict.set d k v = d ++ [(k, v)].
Proof.
  induction d as [|[k' v'] d IH]; intro H; [reflexivity|].
  cbn [Dict.set Dict.keys List.map fst In app] in *.
  rewrite str_eqb_neq by (intro E; apply H; left; exact E).
  rewrite IH by (intro Hin; apply H; right; exact Hin). reflexivity.
Qed.

Lemma get_present d k v :
  Dict.wf d -> In (k, v) d -> Dict.get d k = Some v.
Proof.
  unfold Dict.wf.
  induction d as [|[k' v'] d IH]; intros Hnd Hin; [contradiction|].
  cbn [Dict.keys List.map fst] in Hnd. inversion Hnd as [|? ? Hk Hnd']; subst.
  cbn [Dict.get]. destruct Hin as [E | Hin].
  - injection E as -> ->. rewrite str_eqb_refl. reflexivity.
  - rewrite str_eqb_neq; [apply IH; assumption|].
    intros ->. apply Hk. change (In k (List.map fst d)).
    apply in_map_iff. exists (k, v). split; [reflexivity|exact Hin].
Qed.

Lemma get_in d k v : Dict.get d k = Some v -> In (k, v) d.
Proof.
  induction d as [|[k' v'] d IH]; [discriminate|].
  cbn [Dict.get]. destruct (str_eqb k' k) eqn:E.
  - apply str_eqb_eq in E. subst. intro H. injection H as ->. left. reflexivity.
  - intro H. right. apply IH, H.
Qed.

Lemma in_keys_get d k :
  In k (Dict.keys d) -> exists v, Dict.get d k = Some v.
Proof.
  induction d as [|[k0 v0] d IH]; [contradiction|].
  cbn [Dict.keys List.map fst In Dict.get].
  destruct (str_eqb k0 k) eqn:E; [intros _; eexists; reflexivity|].
  intros [Hk|Hin]; [|apply IH, Hin].
  subst k0. rewrite str_eqb_refl in E. discriminate.
Qed.

Lemma fold_set_fresh (items : list (pystr * V)) :
  forall d,
    NoDup (Dict.keys (d ++ items)) ->
    fold_left (fun d kv => Dict.set d (fst kv) (snd kv)) items d = d ++ items.
Proof.
  induction items as [|[k v] items IH]; intros d Hnd.
  - cbn [fold_left]. now rewrite app_nil_r.
  - cbn [fold_left fst snd].
    assert (Hk : ~ In k (Dict.keys d)).
    { unfold Dict.keys in *. rewrite map_app in Hnd. cbn [List.map fst] in Hnd.
      apply NoDup_remove_2 in Hnd. intro Hin. apply Hnd.
      apply in_or_app. left. exact Hin. }
    rewrite set_absent by exact Hk.
    replace (d ++ (k, v) :: items) with ((d ++ [(k, v)]) ++ items)
      by (rewrite <- app_assoc; reflexivity).
    apply IH. rewrite <- app_assoc. exact Hnd.
Qed.

Lemma of_items_wf (items : list (pystr * V)) :
  NoDup (List.map fst items) -> Dict.of_items items = items.
Proof. intro H. unfold Dict.of_items. now rewrite fold_set_fresh. Qed.
End Facts.

End DictFacts.

(** ** JSON: reading what was written *)

Module JsonFacts.
Import Json Notions.

Ltac ncases :=
  repeat match goal with
    | |- context [N.eqb ?a ?b] => destruct (N.eqb_spec a b)
    | |- context [N.ltb ?a ?b] => destruct (N.ltb_spec a b)
    | |- context [N.leb ?a ?b] => destruct (N.leb_spec a b)
    end; cbn [andb orb negb] in *.

(** *** Escapes *)

Lemma hex4val_hex4 (n : N) :
  n < 65536 ->
  hex4val (hexdigit (N.land (N.shiftr n 12) 15))
          (hexdigit (N.land (N.shiftr n 8) 15))
          (hexdigit (N.land (N.shiftr n 4) 15))
          (hexdigit (N.land n 15)) = Some n.
Proof.
  intro H.
  pose (p := fun n =>
    match hex4val (hexdigit (N.land (N.shiftr n 12) 15))
                  (hexdigit (N.land (N.shiftr n 8) 15))
                  (hexdigit (N.land (N.shiftr n 4) 15))
                  (hexdigit (N.land n 15)) with
    | Some m => m =? n
    | None => false
    end).
  assert (E : p n = true).
  { apply (@all_below_spec 65536 p); [vm_compute; reflexivity | exact H]. }
  unfold p in E.
  destruct (hex4val _ _ _ _) as [m|]; [|discriminate].
  apply N.eqb_eq in E. now subst.
Qed.

Lemma lor_surrogate_base (x : N) :
  x < 1024 -> N.lor 55296 x = 55296 + x /\ N.lor 56320 x = 56320 + x.
Proof.
  intro H.
  pose (p := fun x =>
    (N.lor 55296 x =? 55296 + x) && (N.lor 56320 x =? 56320 + x)).
  assert (E : p x = true).
  { apply (@all_below_spec 1024 p); [vm_compute; reflexivity | exact H]. }
  unfold p in E. apply andb_true_iff in E. destruct E as [E1 E2].
  split; now apply N.eqb_eq.
Qed.

Lemma halves_spec (c : N) :
  65536 <= c -> c <= 1114111 ->
  high_half c < 65536 /\ is_high (high_half c) = true /\
  low_half c < 65536 /\ is_low (low_half c) = true /\
  join_surrogates (high_half c) (low_half c) = c.
Proof.
  intros Hlo Hhi. unfold high_half, low_half.
  set (n := c - 65536).
  assert (Hn : n < 1048576) by (unfold n; lia).
  assert (Hq : N.shiftr n 10 < 1024).
  { rewrite N.shiftr_div_pow2. apply N.Div0.div_lt_upper_bound.
    change (2 ^ 10) with 1024. lia. }
  assert (Hh : N.land (N.shiftr n 10) 1023 = N.shiftr n 10).
  { change 1023 with (N.ones 10). rewrite N.land_ones.
    apply N.mod_small. exact Hq. }
  assert (Hl : N.land n 1023 < 1024).
  { change 1023 with (N.ones 10). rewrite N.land_ones.
    apply N.mod_upper_bound. discriminate. }
  rewrite Hh.
  destruct (lor_surrogate_base Hq) as [-> _].
  destruct (lor_surrogate_base Hl) as [_ ->].
  assert (J : N.lor (N.shiftl (N.shiftr n 10) 10) (N.land n 1023) = n).
  { rewrite <- N.ldiff_ones_r. change 1023 with (N.ones 10).
    apply N.lor_ldiff_and. }
  unfold is_high, is_low, join_surrogates.
  replace (55296 + N.shiftr n 10 - 55296) with (N.shiftr n 10) by lia.
  replace (56320 + N.land n 1023 - 56320) with (N.land n 1023) by lia.
  rewrite J.
  repeat split; try lia.
  - ncases; try reflexivity; lia.
  - ncases; try reflexivity; lia.
Qed.

Lemma high_not_low (c : N) : is_high c = true -> is_low c = false.
Proof. unfold is_high, is_low. ncases; intros; try reflexivity; try discriminate; lia. Qed.

Lemma u_escape_head (b : N) (t : pystr) :
  (b =? 92) = false -> u_escape (b :: t) = NoEscape.
Proof.
  intro H. destruct t as [|u [|h1 [|h2 [|h3 [|h4 t]]]]]; try reflexivity.
  unfold u_escape. rewrite H. reflexivity.
Qed.

Lemma u_escape_second (u : N) (t : pystr) :
  (u =? 117) = false -> u_escape (92 :: u :: t) = NoEscape.
Proof.
  intro H. destruct t as [|h1 [|h2 [|h3 [|h4 t]]]]; try reflexivity.
  unfold u_escape. rewrite H. reflexivity.
Qed.

Lemma u_escape_hex (n : N) (t : pystr) :
  n < 65536 -> u_escape (92 :: 117 :: hex4 n ++ t) = Unit n.
Proof.
  intro H. unfold hex4. cbn [app]. unfold u_escape.
  change ((92 =? 92) && (117 =? 117)) with true. cbv iota.
  rewrite (hex4val_hex4 H). reflexivity.
Qed.

Lemma scan_char_u (h1 h2 h3 h4 : N) (r2 : pystr) :
  scan_char (92 :: 117 :: h1 :: h2 :: h3 :: h4 :: r2) =
  match hex4val h1 h2 h3 h4 with
  | None => None
  | Some uni =>
      if is_high uni then
        match u_escape r2 with
        | Unit uni2 =>
            if is_low uni2
            then Some (join_surrogates uni uni2, skipn 6 r2)
            else Some (uni, r2)
        | BadEscape => None
        | NoEscape => Some (uni, r2)
        end
      else Some (uni, r2)
  end.
Proof. reflexivity. Qed.

Lemma scan_char_lit (c : N) (r : pystr) :
  (c =? 92) = false -> (c <? 32) = false -> scan_char (c :: r) = Some (c, r).
Proof. intros H1 H2. unfold scan_char. rewrite H1, H2. reflexivity. Qed.

Lemma scan_char_escape (c : N) (tail : pystr) :
  c <= 1114111 ->
  (is_high c = true -> tail_ok tail) ->
  scan_char (escape_char c ++ tail) = Some (c, tail).
Proof.
  intros Hc Hok. unfold escape_char.
  destruct (N.eqb_spec c 34) as [->|H34]; [reflexivity|].
  destruct (N.eqb_spec c 92) as [->|H92]; [reflexivity|].
  destruct ((32 <=? c) && (c <=? 126)) eqn:Hp.
  { cbn [app]. apply scan_char_lit.
    - now apply N.eqb_neq.
    - apply andb_true_iff in Hp. destruct Hp as [Hp _].
      apply N.leb_le in Hp. apply N.ltb_ge. exact Hp. }
  destruct (N.eqb_spec c 8) as [->|H8]; [reflexivity|].
  destruct (N.eqb_spec c 12) as [->|H12]; [reflexivity|].
  destruct (N.eqb_spec c 10) as [->|H10]; [reflexivity|].
  destruct (N.eqb_spec c 13) as [->|H13]; [reflexivity|].
  destruct (N.eqb_spec c 9) as [->|H9]; [reflexivity|].
  destruct (N.ltb_spec c 65536) as [Hb|Ha].
  - unfold hex4. cbn [app]. rewrite scan_char_u, (hex4val_hex4 Hb).
    destruct (is_high c) eqn:Hh; [|reflexivity].
    specialize (Hok eq_refl). unfold tail_ok in Hok.
    destruct (u_escape tail) as [| |v]; [reflexivity|contradiction|].
    rewrite Hok. reflexivity.
  - cbv zeta.
    change (N.lor 55296 (N.land (N.shiftr (c - 65536) 10) 1023))
      with (high_half c).
    change (N.lor 56320 (N.land (c - 65536) 1023)) with (low_half c).
    destruct (halves_spec Ha Hc) as (H1 & H2 & H3 & H4 & H5).
    rewrite <- app_assoc.
    change ((92 :: 117 :: hex4 (high_half c)) ++
            (92 :: 117 :: hex4 (low_half c)) ++ tail)
      with (92 :: 117 :: hex4 (high_half c) ++
            (92 :: 117 :: hex4 (low_half c) ++ tail)).
    unfold hex4 at 1. cbn [app].
    rewrite scan_char_u, (hex4val_hex4 H1), H2, (u_escape_hex _ H3), H4, H5.
    reflexivity.
Qed.

Lemma escape_char_head (c : N) :
  exists h t, escape_char c = h :: t /\ (h =? 34) = false /\
              (h = 92 \/ (h = c /\ (c =? 92) = false)).
Proof.
  unfold escape_char.
  destruct (N.eqb_spec c 34) as [->|H34]; [eexists _, _; repeat split; auto|].
  destruct (N.eqb_spec c 92) as [->|H92]; [eexists _, _; repeat split; auto|].
  destruct ((32 <=? c) && (c <=? 126)) eqn:Hp.
  { exists c, []. split; [reflexivity|]. split; [now apply N.eqb_neq|].
    right. split; reflexivity. }
  destruct (c =? 8); [eexists _, _; repeat split; auto|].
  destruct (c =? 12); [eexists _, _; repeat split; auto|].
  destruct (c =? 10); [eexists _, _; repeat split; auto|].
  destruct (c =? 13); [eexists _, _; repeat split; auto|].
  destruct (c =? 9); [eexists _, _; repeat split; auto|].
  destruct (c <? 65536); eexists _, _; repeat split; auto.
Qed.

Lemma tail_ok_escape (s : pystr) (rest : pystr) :
  wf_str s ->
  match s with c :: _ => is_low c = false | [] => True end ->
  tail_ok (escape s ++ 34 :: rest).
Proof.
  intros Hwf Hhd. unfold tail_ok.
  destruct s as [|c s'].
  - cbn [escape List.map concat app]. rewrite u_escape_head; [exact I|reflexivity].
  - inversion Hwf as [|? ? Hc _]; subst.
    unfold escape. cbn [List.map concat]. fold (escape s').
    rewrite <- app_assoc. generalize (escape s' ++ 34 :: rest). intro t.
    unfold escape_char.
    destruct (N.eqb_spec c 34) as [->|H34];
      [cbn [app]; rewrite u_escape_second; [exact I|reflexivity]|].
    destruct (N.eqb_spec c 92) as [->|H92];
      [cbn [app]; rewrite u_escape_second; [exact I|reflexivity]|].
    destruct ((32 <=? c) && (c <=? 126)) eqn:Hp.
    { cbn [app]. rewrite u_escape_head; [exact I|now apply N.eqb_neq]. }
    destruct (c =? 8);
      [cbn [app]; rewrite u_escape_second; [exact I|reflexivity]|].
    destruct (c =? 12);
      [cbn [app]; rewrite u_escape_second; [exact I|reflexivity]|].
    destruct (c =? 10);
      [cbn [app]; rewrite u_escape_second; [exact I|reflexivity]|].
    destruct (c =? 13);
      [cbn [app]; rewrite u_escape_second; [exact I|reflexivity]|].
    destruct (c =? 9);
      [cbn [app]; rewrite u_escape_second; [exact I|reflexivity]|].
    destruct (N.ltb_spec c 65536) as [Hb|Ha].
    + change ((92 :: 117 :: hex4 c) ++ t) with (92 :: 117 :: hex4 c ++ t).
      rewrite (u_escape_hex _ Hb). exact Hhd.
    + cbv zeta.
      change (N.lor 55296 (N.land (N.shiftr (c - 65536) 10) 1023))
        with (high_half c).
      change (N.lor 56320 (N.land (c - 65536) 1023)) with (low_half c).
      destruct (halves_spec Ha Hc) as (H1 & H2 & H3 & H4 & H5).
      rewrite <- app_assoc.
      change ((92 :: 117 :: hex4 (high_half c)) ++
              (92 :: 117 :: hex4 (low_half c)) ++ t)
        with (92 :: 117 :: hex4 (high_half c) ++
              ((92 :: 117 :: hex4 (low_half c)) ++ t)).
      rewrite (u_escape_hex _ H1). apply high_not_low, H2.
Qed.

Lemma scanstring_cons (f : nat) (h : N) (t : pystr) :
  (h =? 34) = false ->
  scanstring (S f) (h :: t) =
  match scan_char (h :: t) with
  | None => None
  | Some (ch, rest) =>
      match scanstring f rest with
      | Some (str, rest') => Some (ch :: str, rest')
      | None => None
      end
  end.
Proof. intro H. cbn [scanstring]. rewrite H. reflexivity. Qed.

Lemma has_joined_pair_cons (c : N) (s : pystr) :
  has_joined_pair (c :: s) = false ->
  has_joined_pair s = false /\
  (is_high c = true ->
   match s with c' :: _ => is_low c' = false | [] => True end).
Proof.
  destruct s as [|c' s']; [intros _; split; [reflexivity|intros _; exact I]|].
  cbn [has_joined_pair]. intro H. apply orb_false_iff in H.
  destruct H as [H1 H2]. split; [exact H2|].
  intro Hh. rewrite Hh in H1. exact H1.
Qed.

(** The body of a written string, up to its closing quote, reads back as
    the string. *)
Lemma scanstring_escape (s : pystr) :
  str_ok s ->
  forall (fuel : nat) (rest : pystr),
    (length s < fuel)%nat ->
    scanstring fuel (escape s ++ 34 :: rest) = Some (s, rest).
Proof.
  intros [Hwf Hnp]. induction s as [|c s IH]; intros fuel rest Hf.
  - destruct fuel as [|f]; [inversion Hf|]. reflexivity.
  - destruct fuel as [|f]; [inversion Hf|].
    inversion Hwf as [|? ? Hc Hwf']; subst.
    destruct (has_joined_pair_cons _ _ Hnp) as [Hnp' Hnext].
    unfold escape. cbn [List.map concat]. fold (escape s).
    rewrite <- app_assoc.
    destruct (escape_char_head c) as (h & t & E & Hq & _).
    assert (Hsc : scan_char (escape_char c ++ escape s ++ 34 :: rest)
                  = Some (c, escape s ++ 34 :: rest)).
    { apply scan_char_escape; [exact Hc|].
      intro Hh. apply tail_ok_escape; [exact Hwf'|exact (Hnext Hh)]. }
    rewrite E in *. cbn [app] in *.
    rewrite (scanstring_cons _ _ _ Hq), Hsc.
    rewrite (IH Hwf' Hnp'); [reflexivity|cbn [length] in Hf; lia].
Qed.

Lemma length_escape (s : pystr) : (length s <= length (escape s))%nat.
Proof.
  induction s as [|c s IH]; [apply Nat.le_refl|].
  unfold escape. cbn [List.map concat]. fold (escape s).
  rewrite length_app. destruct (escape_char_head c) as (h & t & E & _).
  rewrite E. cbn [length]. lia.
Qed.

(** *** Integers *)

Lemma scan_digits_nondigit (tail : pystr) :
  match tail with c :: _ => is_digit c = false | [] => True end ->
  scan_digits tail = (Decimal.Nil, tail).
Proof.
  destruct tail as [|c r]; [reflexivity|]. intro H.
  cbn [scan_digits]. rewrite H. reflexivity.
Qed.

Lemma scan_digits_digits (u : Decimal.uint) (tail : pystr) :
  match tail with c :: _ => is_digit c = false | [] => True end ->
  scan_digits (digits_of_uint u ++ tail) = (u, tail).
Proof.
  intro H.
  induction u as [|u IH|u IH|u IH|u IH|u IH|u IH|u IH|u IH|u IH|u IH];
    [exact (scan_digits_nondigit tail H)|..];
    cbn [digits_of_uint app scan_digits];
    match goal with
    | |- context [is_digit ?c] => change (is_digit c) with true
    end;
    cbv iota; rewrite IH; reflexivity.
Qed.

Lemma to_uint_head (p : positive) :
  match Pos.to_uint p with
  | Decimal.Nil | Decimal.D0 _ => False
  | _ => True
  end.
Proof.
  assert (E : Pos.to_uint p = Decimal.unorm (Pos.to_uint p)).
  { rewrite <- DecimalPos.Unsigned.to_of, DecimalPos.Unsigned.of_to.
    reflexivity. }
  pose proof (DecimalPos.Unsigned.to_uint_nonzero p) as Hnz.
  pose proof (DecimalFacts.nzhead_nonzero (Pos.to_uint p)) as Hh.
  unfold Decimal.unorm in E.
  destruct (Decimal.nzhead (Pos.to_uint p)) eqn:En;
    try (rewrite E; exact I).
  - exfalso. apply Hnz. exact E.
  - exfalso. apply (Hh u). reflexivity.
Qed.

Lemma digits_pos_head (p : positive) :
  exists c r, digits_of_uint (Pos.to_uint p) = c :: r /\
              is_digit c = true /\ (c =? 48) = false.
Proof.
  pose proof (to_uint_head p) as H.
  destruct (Pos.to_uint p); try contradiction;
    cbn [digits_of_uint]; eexists _, _; repeat split.
Qed.

Lemma value_end_facts (t : pystr) :
  value_end t ->
  starts_fraction t = false /\ skip_ws t = t /\
  match t with c :: _ => is_digit c = false | [] => True end.
Proof.
  intros (c & r & -> & [-> | ->]); repeat split.
Qed.

Lemma scan_natural_pos (p : positive) (tail : pystr) :
  value_end tail ->
  scan_natural (digits_of_uint (Pos.to_uint p) ++ tail) = Some (N.pos p, tail).
Proof.
  intro Hend. destruct (value_end_facts Hend) as (_ & _ & Hnd).
  pose proof (scan_digits_digits (Pos.to_uint p) tail Hnd) as Hs.
  destruct (digits_pos_head p) as (c & r & E & Hd & Hz).
  rewrite E in *. cbn [app] in *. unfold scan_natural.
  rewrite Hz, Hd, Hs. unfold N.of_uint.
  rewrite DecimalPos.Unsigned.of_to. reflexivity.
Qed.

Lemma match_number_repr (z : Z) (tail : pystr) :
  value_end tail ->
  match_number (repr_int z ++ tail) = Some (SInt z, tail).
Proof.
  intro Hend. destruct (value_end_facts Hend) as (Hfr & _ & _).
  destruct z as [|p|p]; unfold repr_int.
  - cbn [app]. unfold match_number. change (48 =? 45) with false. cbv iota.
    unfold scan_natural. change (48 =? 48) with true. cbv iota.
    rewrite Hfr. reflexivity.
  - pose proof (scan_natural_pos p Hend) as Hs.
    destruct (digits_pos_head p) as (c & r & E & Hd & Hz).
    rewrite E in *. cbn [app] in *. unfold match_number.
    assert (H45 : (c =? 45) = false).
    { unfold is_digit in Hd. apply andb_true_iff in Hd. destruct Hd as [Hd _].
      apply N.leb_le in Hd. apply N.eqb_neq. lia. }
    rewrite H45, Hs, Hfr. reflexivity.
  - cbn [app]. unfold match_number. change (45 =? 45) with true. cbv iota.
    rewrite (scan_natural_pos p Hend), Hfr. reflexivity.
Qed.

Lemma repr_int_head (z : Z) :
  exists c r, repr_int z = c :: r /\ (is_digit c = true \/ c = 45).
Proof.
  destruct z as [|p|p]; unfold repr_int.
  - eexists _, _; split; [reflexivity|left; reflexivity].
  - destruct (digits_pos_head p) as (c & r & E & Hd & _).
    exists c, r. split; [exact E|left; exact Hd].
  - eexists _, _; split; [reflexivity|right; reflexivity].
Qed.

(** *** Scalars and members *)

Lemma skip_ws_head (c : N) (r : pystr) :
  is_ws c = false -> skip_ws (c :: r) = c :: r.
Proof. intro H. cbn [skip_ws]. rewrite H. reflexivity. Qed.

Lemma dumps_scalar_head (v : scalar) :
  exists c r, dumps_scalar v = c :: r /\ is_ws c = false.
Proof.
  destruct v as [|[|]|z|s]; try (eexists _, _; split; reflexivity).
  destruct (repr_int_head z) as (c & r & E & H).
  exists c, r. split; [exact E|].
  unfold is_ws, is_digit in *. destruct H as [H | ->]; [|reflexivity].
  apply andb_true_iff in H. destruct H as [H1 H2].
  apply N.leb_le in H1. ncases; try reflexivity; lia.
Qed.

Lemma scan_value_dumps (v : scalar) (tail : pystr) (fuel : nat) :
  scalar_ok v -> value_end tail ->
  match v with SStr s => (length s < fuel)%nat | _ => True end ->
  scan_value fuel (dumps_scalar v ++ tail) = Some (v, tail).
Proof.
  intros Hok Hend Hf.
  destruct v as [|[|]|z|s]; try reflexivity.
  - cbn [dumps_scalar].
    pose proof (match_number_repr z Hend) as Hm.
    destruct (repr_int_head z) as (c & r & E & H).
    rewrite E in *. cbn [app] in *. unfold scan_value.
    assert (Hc : (c =? 34) = false /\ (c =? 110) = false /\
                 (c =? 116) = false /\ (c =? 102) = false).
    { unfold is_digit in H. destruct H as [H | ->]; [|repeat split].
      apply andb_true_iff in H. destruct H as [H1 H2].
      apply N.leb_le in H1. apply N.leb_le in H2.
      repeat split; apply N.eqb_neq; lia. }
    destruct Hc as (H34 & H110 & H116 & H102).
    rewrite H34.
    change (lit "null") with [110; 117; 108; 108].
    change (lit "true") with [116; 114; 117; 101].
    change (lit "false") with [102; 97; 108; 115; 101].
    cbn [startswith]. rewrite H110, H116, H102. cbn [andb]. exact Hm.
  - cbn [dumps_scalar scalar_ok] in *. unfold encode_basestring_ascii.
    cbn [app]. rewrite <- app_assoc. cbn [app].
    unfold scan_value. change (34 =? 34) with true. cbv iota.
    rewrite (@scanstring_escape s Hok fuel tail Hf). reflexivity.
Qed.

(** One turn of the member loop on a written member. *)
Lemma parse_members_step (k : pystr) (v : scalar) (d : N) (s5 : pystr)
      (f : nat) (acc : pydict) :
  str_ok k -> scalar_ok v -> d = 44 \/ d = 125 ->
  parse_members (S f) (dumps_item (k, v) ++ d :: s5) acc =
  if d =? 125 then Some (Dict.set acc k v, s5)
  else parse_members f (skip_ws s5) (Dict.set acc k v).
Proof.
  intros Hk Hv Hd.
  assert (Hend : value_end (d :: s5)) by (exists d, s5; split; [reflexivity|exact Hd]).
  unfold dumps_item, encode_basestring_ascii. cbn [fst snd app].
  repeat rewrite <- app_assoc. cbn [app].
  cbn [parse_members]. change (34 =? 34) with true. cbv iota.
  rewrite (@scanstring_escape k Hk).
  2:{ rewrite length_app. pose proof (length_escape k). cbn [length]. lia. }
  change (lit ": " ++ dumps_scalar v ++ d :: s5)
    with (58 :: 32 :: dumps_scalar v ++ d :: s5).
  rewrite skip_ws_head by reflexivity.
  change (58 =? 58) with true. cbv iota. cbv zeta.
  assert (Hsk : skip_ws (32 :: dumps_scalar v ++ d :: s5)
                = dumps_scalar v ++ d :: s5).
  { cbn [skip_ws]. change (is_ws 32) with true. cbv iota.
    destruct (dumps_scalar_head v) as (c & r & E & Hw).
    rewrite E. cbn [app]. apply skip_ws_head, Hw. }
  rewrite Hsk.
  rewrite (@scan_value_dumps v (d :: s5) _ Hv Hend).
  2:{ destruct v as [| | |s]; try exact I.
      cbn [dumps_scalar]. unfold encode_basestring_ascii.
      cbn [app length]. rewrite !length_app.
      pose proof (length_escape s). lia. }
  destruct (value_end_facts Hend) as (_ & -> & _).
  destruct Hd as [-> | ->]; reflexivity.
Qed.

Lemma dumps_item_head (kv : pystr * scalar) :
  exists r, dumps_item kv = 34 :: r.
Proof. unfold dumps_item, encode_basestring_ascii. eexists. reflexivity. Qed.

Lemma join_head (items : list (pystr * scalar)) :
  items <> [] ->
  exists r, join (lit ", ") (List.map dumps_item items) = 34 :: r.
Proof.
  destruct items as [|kv [|kv2 more]]; [congruence|..]; intros _;
    cbn [List.map join]; destruct (dumps_item_head kv) as [r ->];
    eexists; reflexivity.
Qed.

Lemma parse_members_dumps (items : list (pystr * scalar)) :
  items <> [] -> Forall item_ok items ->
  forall (fuel : nat) (acc : pydict) (tail : pystr),
    (length items <= fuel)%nat ->
    parse_members fuel
      (join (lit ", ") (List.map dumps_item items) ++ 125 :: tail) acc
    = Some (fold_left store items acc, tail).
Proof.
  induction items as [|[k v] items IH]; [congruence|].
  intros _ Hall fuel acc tail Hf.
  inversion Hall as [|? ? [Hk Hv] Hall']; subst. cbn [fst snd] in *.
  destruct fuel as [|f]; [inversion Hf|].
  destruct items as [|kv2 more].
  - cbn [List.map join].
    rewrite (@parse_members_step k v 125 tail f acc Hk Hv (or_intror eq_refl)).
    reflexivity.
  - assert (Hne : kv2 :: more <> []) by discriminate.
    change (join (lit ", ") (List.map dumps_item ((k, v) :: kv2 :: more)))
      with (dumps_item (k, v) ++ lit ", " ++
            join (lit ", ") (List.map dumps_item (kv2 :: more))).
    repeat rewrite <- app_assoc.
    change (lit ", " ++
            join (lit ", ") (List.map dumps_item (kv2 :: more)) ++ 125 :: tail)
      with (44 :: 32 ::
            (join (lit ", ") (List.map dumps_item (kv2 :: more)) ++ 125 :: tail)).
    rewrite (@parse_members_step k v 44 _ f acc Hk Hv (or_introl eq_refl)).
    change (44 =? 125) with false. cbv iota.
    assert (Hsk : skip_ws (32 ::
                    (join (lit ", ") (List.map dumps_item (kv2 :: more))
                     ++ 125 :: tail))
                  = join (lit ", ") (List.map dumps_item (kv2 :: more))
                    ++ 125 :: tail).
    { cbn [skip_ws]. change (is_ws 32) with true. cbv iota.
      destruct (join_head Hne) as [r ->]. reflexivity. }
    rewrite Hsk.
    rewrite (IH Hne Hall' f (Dict.set acc k v) tail);
      [reflexivity|cbn [length] in *; lia].
Qed.

Lemma length_join (items : list (pystr * scalar)) :
  (length items <= length (join (lit ", ") (List.map dumps_item items)))%nat.
Proof.
  induction items as [|kv [|kv2 more] IH]; [apply Nat.le_refl|..];
    destruct (dumps_item_head kv) as [r E].
  - cbn [List.map join]. rewrite E. cbn [length]. lia.
  - change (join (lit ", ") (List.map dumps_item (kv :: kv2 :: more)))
      with (dumps_item kv ++ lit ", " ++
            join (lit ", ") (List.map dumps_item (kv2 :: more))).
    rewrite E, !length_app. cbn [length] in *. lia.
Qed.

(** [json.loads] gives back the [dict] that [json.dumps] wrote. *)
Lemma loads_dumps (d : pydict) : dict_ok d -> loads (dumps d) = Ok d.
Proof.
  intros [Hwf Hall]. unfold dumps, loads.
  rewrite skip_ws_head by reflexivity.
  change (123 =? 123) with true. cbv iota.
  destruct d as [|kv d'].
  - reflexivity.
  - assert (Hne : kv :: d' <> []) by discriminate.
    unfold parse_object.
    destruct (join_head Hne) as [r E].
    assert (Hsk : skip_ws (join (lit ", ") (List.map dumps_item (kv :: d')) ++ [125])
                  = join (lit ", ") (List.map dumps_item (kv :: d')) ++ [125]).
    { rewrite E. reflexivity. }
    rewrite Hsk.
    assert (Hlen : (length (kv :: d')
                    <= length (join (lit ", ") (List.map dumps_item (kv :: d'))
                               ++ [125%N]))%nat).
    { rewrite length_app. pose proof (length_join (kv :: d')). lia. }
    revert Hlen. rewrite E. cbn [app]. change (34 =? 125) with false. cbv iota.
    change (34 :: r ++ [125]) with ((34 :: r) ++ [125]). rewrite <- E.
    intro Hlen.
    rewrite (@parse_members_dumps (kv :: d') Hne Hall _ [] [] Hlen).
    cbn [skip_ws].
    change (fold_left store (kv :: d') []) with (Dict.of_items (kv :: d')).
    rewrite DictFacts.of_items_wf by exact Hwf. reflexivity.
Qed.

(** *** What is written is ASCII *)

Lemma hexdigit_ascii (x : N) : hexdigit (N.land x 15) < 128.
Proof.
  assert (H : N.land x 15 < 16).
  { change 15 with (N.ones 4). rewrite N.land_ones.
    apply N.mod_upper_bound. discriminate. }
  unfold hexdigit. destruct (N.ltb_spec (N.land x 15) 10); lia.
Qed.

Lemma hex4_ascii (n : N) : Utf8.is_ascii (hex4 n).
Proof.
  unfold hex4, Utf8.is_ascii. repeat apply Forall_cons;
    try apply hexdigit_ascii. apply Forall_nil.
Qed.

Lemma escape_char_ascii (c : N) : Utf8.is_ascii (escape_char c).
Proof.
  unfold escape_char, Utf8.is_ascii.
  destruct (c =? 34); [repeat constructor|].
  destruct (c =? 92); [repeat constructor|].
  destruct ((32 <=? c) && (c <=? 126)) eqn:Hp.
  { apply andb_true_iff in Hp. destruct Hp as [_ Hp]. apply N.leb_le in Hp.
    apply Forall_cons; [lia|apply Forall_nil]. }
  destruct (c =? 8); [repeat constructor|].
  destruct (c =? 12); [repeat constructor|].
  destruct (c =? 10); [repeat constructor|].
  destruct (c =? 13); [repeat constructor|].
  destruct (c =? 9); [repeat constructor|].
  destruct (c <? 65536).
  - apply Forall_cons; [lia|]. apply Forall_cons; [lia|]. apply hex4_ascii.
  - cbv zeta. apply Forall_app. split;
      (apply Forall_cons; [lia|]; apply Forall_cons; [lia|]; apply hex4_ascii).
Qed.

Lemma escape_ascii (s : pystr) : Utf8.is_ascii (escape s).
Proof.
  unfold escape. induction s as [|c s IH]; [apply Forall_nil|].
  cbn [List.map concat]. apply Forall_app. split;
    [apply escape_char_ascii|exact IH].
Qed.

Lemma string_ascii (s : pystr) : Utf8.is_ascii (encode_basestring_ascii s).
Proof.
  unfold encode_basestring_ascii. apply Forall_cons; [lia|].
  apply Forall_app. split; [apply escape_ascii|].
  apply Forall_cons; [lia|apply Forall_nil].
Qed.

Lemma digits_ascii (u : Decimal.uint) : Utf8.is_ascii (digits_of_uint u).
Proof.
  induction u; cbn [digits_of_uint]; try apply Forall_nil;
    (apply Forall_cons; [lia|assumption]).
Qed.

Ltac ascii_lit :=
  unfold Utf8.is_ascii;
  repeat first [apply Forall_nil | apply Forall_cons; [reflexivity|]].

Lemma dumps_scalar_ascii (v : scalar) : Utf8.is_ascii (dumps_scalar v).
Proof.
  destruct v as [|[|]|[|p|p]|s]; cbn [dumps_scalar repr_int];
    try (ascii_lit; fail).
  - apply digits_ascii.
  - apply Forall_cons; [lia|apply digits_ascii].
  - apply string_ascii.
Qed.

Lemma dumps_ascii (d : pydict) : Utf8.is_ascii (dumps d).
Proof.
  unfold dumps. apply Forall_cons; [lia|]. apply Forall_app. split;
    [|apply Forall_cons; [lia|apply Forall_nil]].
  induction d as [|kv [|kv2 more] IH]; [apply Forall_nil|..].
  - cbn [List.map join]. unfold dumps_item.
    repeat (apply Forall_app; split);
      [apply string_ascii| |apply dumps_scalar_ascii].
    ascii_lit.
  - change (join (lit ", ") (List.map dumps_item (kv :: kv2 :: more)))
      with (dumps_item kv ++ lit ", " ++
            join (lit ", ") (List.map dumps_item (kv2 :: more))).
    apply Forall_app. split; [|apply Forall_app; split; [|exact IH]].
    + unfold dumps_item.
      repeat (apply Forall_app; split);
        [apply string_ascii| |apply dumps_scalar_ascii].
      ascii_lit.
    + ascii_lit.
Qed.

End JsonFacts.

(** ** The key token *)

Unset Implicit Arguments.

Module CompositeKeyFacts.
Import Json CompositeKey Examples.

(** *** Encoding and decoding *)

Lemma encode_ok (x : pydict) :
  encode x = Ok (Base64.b64encode (dumps x)).
Proof.
  unfold encode.
  rewrite (Utf8Facts.encode_ascii (JsonFacts.dumps_ascii x)). cbn [bind].
  apply Utf8Facts.decode_ascii, Base64Facts.b64encode_ascii,
    Utf8Facts.ascii_octets, JsonFacts.dumps_ascii.
Qed.

Lemma decode_encoded (x : pydict) :
  decode (Base64.b64encode (dumps x)) = loads (dumps x).
Proof.
  pose proof (JsonFacts.dumps_ascii x) as Ha.
  pose proof (Utf8Facts.ascii_octets Ha) as Ho.
  unfold decode.
  rewrite (Utf8Facts.encode_ascii (Base64Facts.b64encode_ascii Ho)). cbn [bind].
  rewrite (Base64Facts.b64decode_b64encode Ho). cbn [bind].
  rewrite (Utf8Facts.decode_ascii Ha). reflexivity.
Qed.




(** *** Order of the keys, equality and hash *)

Lemma str_ltb_irrefl (a : pystr) : str_ltb a a = false.
Proof.
  induction a as [|x a IH]; [reflexivity|].
  cbn [str_ltb]. rewrite N.ltb_irrefl. exact IH.
Qed.

Lemma str_ltb_asym (a b : pystr) : str_ltb a b = true -> str_ltb b a = false.
Proof.
  revert b. induction a as [|x a IH]; intros [|y b]; cbn [str_ltb];
    try reflexivity; try discriminate.
  destruct (N.ltb_spec x y), (N.ltb_spec y x); try reflexivity;
    try discriminate; try lia. apply IH.
Qed.

Lemma str_ltb_total (a b : pystr) :
  str_ltb a b = false -> str_ltb b a = false -> a = b.
Proof.
  revert b. induction a as [|x a IH]; intros [|y b]; cbn [str_ltb];
    try reflexivity; try discriminate.
  destruct (N.ltb_spec x y), (N.ltb_spec y x); try discriminate.
  intros H1 H2. assert (x = y) by lia. subst. f_equal. now apply IH.
Qed.

Lemma str_ltb_trans (a b c : pystr) :
  str_ltb a b = true -> str_ltb b c = true -> str_ltb a c = true.
Proof.
  revert b c. induction a as [|x a IH]; intros [|y b] [|z c]; cbn [str_ltb];
    try reflexivity; try discriminate.
  destruct (N.ltb_spec x y), (N.ltb_spec y x), (N.ltb_spec y z),
    (N.ltb_spec z y), (N.ltb_spec x z), (N.ltb_spec z x);
    try reflexivity; try discriminate; try lia.
  apply IH.
Qed.

Lemma str_ltb_between (h a b : pystr) :
  str_ltb h a = false -> str_ltb h b = true -> str_ltb a b = true.
Proof.
  intros Hha Hhb. destruct (str_ltb a b) eqn:Eab; [reflexivity|].
  destruct (str_ltb b a) eqn:Eba.
  - rewrite (str_ltb_trans h b a Hhb Eba) in Hha. discriminate.
  - rewrite (str_ltb_total a b Eab Eba) in Hha. congruence.
Qed.

Lemma insert_sorted_comm (a b : pystr) (l : list pystr) :
  insert_sorted a (insert_sorted b l) = insert_sorted b (insert_sorted a l).
Proof.
  assert (Base : forall t,
    (if str_ltb b a then b :: a :: t else a :: b :: t) =
    (if str_ltb a b then a :: b :: t else b :: a :: t)).
  { intro t. destruct (str_ltb b a) eqn:Eba, (str_ltb a b) eqn:Eab;
      try reflexivity.
    - rewrite (str_ltb_asym b a Eba) in Eab. discriminate.
    - rewrite (str_ltb_total a b Eab Eba). reflexivity. }
  induction l as [|h r IH].
  - cbn [insert_sorted]. apply Base.
  - cbn [insert_sorted].
    destruct (str_ltb h b) eqn:Ehb, (str_ltb h a) eqn:Eha;
      cbn [insert_sorted]; rewrite ?Ehb, ?Eha.
    + f_equal. exact IH.
    + rewrite (str_ltb_between h a b Eha Ehb). cbn [insert_sorted].
      rewrite ?Ehb. reflexivity.
    + rewrite (str_ltb_between h b a Ehb Eha). cbn [insert_sorted].
      rewrite ?Eha. reflexivity.
    + destruct (str_ltb b a) eqn:Eba, (str_ltb a b) eqn:Eab;
        cbn [insert_sorted]; rewrite ?Ehb, ?Eha; try reflexivity.
      * rewrite (str_ltb_asym b a Eba) in Eab. discriminate.
      * rewrite (str_ltb_total a b Eab Eba). reflexivity.
Qed.

(** [sorted] depends on the elements only, not on their order. *)
Lemma sorted_perm (l1 l2 : list pystr) :
  Permutation l1 l2 -> sorted l1 = sorted l2.
Proof.
  unfold sorted. induction 1 as [|x l l' _ IH|x y l|l l' l'' _ IH1 _ IH2];
    cbn [fold_right].
  - reflexivity.
  - now rewrite IH.
  - apply insert_sorted_comm.
  - now rewrite IH1.
Qed.

Lemma insert_sorted_perm (k : pystr) (l : list pystr) :
  Permutation (k :: l) (insert_sorted k l).
Proof.
  induction l as [|h r IH]; cbn [insert_sorted]; [apply Permutation_refl|].
  destruct (str_ltb h k); [|apply Permutation_refl].
  eapply perm_trans; [apply perm_swap|]. apply perm_skip, IH.
Qed.

Lemma sorted_is_perm (l : list pystr) : Permutation l (sorted l).
Proof.
  unfold sorted. induction l as [|k l IH]; cbn [fold_right];
    [apply Permutation_refl|].
  eapply perm_trans; [apply perm_skip, IH|apply insert_sorted_perm].
Qed.

Lemma scalar_eqb_refl (v : scalar) : scalar_eqb v v = true.
Proof.
  destruct v as [|b|z|s]; cbn [scalar_eqb as_int].
  - reflexivity.
  - apply Z.eqb_refl.
  - apply Z.eqb_refl.
  - apply DictFacts.str_eqb_refl.
Qed.

Lemma wf_perm (a b : t) : Dict.wf a -> Permutation a b -> Dict.wf b.
Proof.
  unfold Dict.wf, Dict.keys. intros Hwf Hp.
  eapply Permutation_NoDup; [|exact Hwf]. apply Permutation_map, Hp.
Qed.

Lemma get_perm (a b : t) (k : pystr) :
  Dict.wf a -> Permutation a b -> Dict.get a k = Dict.get b k.
Proof.
  intros Hwf Hp. pose proof (wf_perm a b Hwf Hp) as Hwfb.
  destruct (Dict.get a k) as [v|] eqn:Ea.
  - symmetry. apply DictFacts.get_present; [exact Hwfb|].
    eapply Permutation_in; [exact Hp|]. apply DictFacts.get_in, Ea.
  - destruct (Dict.get b k) as [v|] eqn:Eb; [|reflexivity].
    apply DictFacts.get_in in Eb.
    apply (Permutation_in _ (Permutation_sym Hp)) in Eb.
    rewrite (@DictFacts.get_present _ a k v Hwf Eb) in Ea. discriminate.
Qed.

Lemma eq_perm (a b : t) :
  Dict.wf a -> Permutation a b -> __eq__ a b = true.
Proof.
  intros Hwf Hp. pose proof (wf_perm a b Hwf Hp) as Hwfb.
  unfold __eq__, Dict.eqb. apply andb_true_iff. split.
  - apply Nat.eqb_eq, Permutation_length, Hp.
  - apply forallb_forall. intros [k v] Hin. cbn [fst snd].
    rewrite (@DictFacts.get_present _ b k v Hwfb (Permutation_in _ Hp Hin)).
    apply scalar_eqb_refl.
Qed.

Lemma values_of_keys (a : t) (ks : list pystr) :
  incl ks (Dict.keys a) ->
  exists vs, mapM (Dict.getitem a) ks = Ok vs.
Proof.
  induction ks as [|k ks IH]; intro Hin; [exists []; reflexivity|].
  destruct IH as [vs Hvs]; [intros x Hx; apply Hin; right; exact Hx|].
  assert (Hk : In k (Dict.keys a)) by (apply Hin; left; reflexivity).
  destruct (@DictFacts.in_keys_get _ a k Hk) as [v' Hg].
  exists (v' :: vs). cbn [mapM]. unfold Dict.getitem at 1.
  rewrite Hg. cbn [of_option bind]. rewrite Hvs. reflexivity.
Qed.

Lemma mapM_ext_getitem (a b : t) (ks : list pystr) :
  (forall k, Dict.get a k = Dict.get b k) ->
  mapM (Dict.getitem a) ks = mapM (Dict.getitem b) ks.
Proof.
  intro H. induction ks as [|k ks IH]; [reflexivity|].
  cbn [mapM]. unfold Dict.getitem at 1 3. rewrite H, IH. reflexivity.
Qed.

(** C2.  Two tokens holding the same column-name/value pairs, inserted in
    whatever order, compare equal, and [__hash__] returns the same value for
    both. *)
Theorem same_pairs_equal_and_same_hash (hash : list scalar -> Z) (a b : t) :
  Dict.wf a -> Permutation a b ->
  __eq__ a b = true /\
  exists h, __hash__ hash a = Ok h /\ __hash__ hash b = Ok h.
Proof.
  intros Hwf Hp. split; [apply eq_perm; assumption|].
  assert (Hk : sorted (Dict.keys a) = sorted (Dict.keys b)).
  { apply sorted_perm. unfold Dict.keys. apply Permutation_map, Hp. }
  destruct (values_of_keys a (sorted (Dict.keys a))) as [vs Hvs].
  { intros k Hin. eapply Permutation_in; [|exact Hin].
    apply Permutation_sym, sorted_is_perm. }
  exists (hash vs). unfold __hash__. rewrite <- Hk.
  rewrite <- (mapM_ext_getitem a b _ (fun k => get_perm a b k Hwf Hp)).
  rewrite Hvs. split; reflexivity.
Qed.

Lemma same_pairs_equal_and_same_hash_witness :
  __eq__ key_a1_bx key_b_then_a = true /\
  exists h, __hash__ (fun vs => Z.of_nat (length vs)) key_a1_bx = Ok h /\
            __hash__ (fun vs => Z.of_nat (length vs)) key_b_then_a = Ok h.
Proof.
  apply (same_pairs_equal_and_same_hash _ key_a1_bx key_b_then_a).
  - unfold Dict.wf. cbn. repeat constructor; cbn; intuition discriminate.
  - apply perm_swap.
Defined.

End CompositeKeyFacts.

(** ** Columns to fields *)

Module InitFacts.
Import Json Django SQLAlchemy Init Notions Examples.

Lemma startswith_app (s p : pystr) :
  startswith s p = true -> exists r, s = p ++ r.
Proof.
  revert s. induction p as [|x p IH]; intros s H.
  - exists s. reflexivity.
  - destruct s as [|c s]; [discriminate|]. cbn [startswith] in H.
    apply andb_true_iff in H. destruct H as [Hc Hs].
    apply N.eqb_eq in Hc. subst c.
    destruct (IH s Hs) as [r ->]. exists r. reflexivity.
Qed.

(** A name that ends with a suffix is the rest followed by the suffix. *)
Lemma endswith_drop_last (s suffix : pystr) :
  endswith s suffix = true -> drop_last (length suffix) s ++ suffix = s.
Proof.
  unfold endswith, drop_last. intro H.
  destruct (startswith_app _ _ H) as [r Hr].
  assert (Hs : s = rev r ++ suffix).
  { rewrite <- (rev_involutive s), Hr, rev_app_distr, rev_involutive.
    reflexivity. }
  rewrite Hs at 1 2. rewrite length_app, Nat.add_sub.
  rewrite firstn_app, firstn_all, Nat.sub_diag. cbn [firstn].
  rewrite app_nil_r. symmetry. exact Hs.
Qed.

(** C5.  A column that has foreign keys (and a type the table knows)
    becomes a field exposed under the column name without its trailing
    ["_id"] when the name ends in ["_id"], under the column name followed by
    ["_obj"] otherwise; its [db_column] is the column name as it is. *)
Theorem foreign_key_field_name (capitalize : pystr -> pystr)
    (column : Column) (pk_column : option Column) (cls : FieldClass) :
  foreign_keys column <> [] ->
  SA_TYPE_TO_MODEL (type_ column) = Some cls ->
  exists exposed f,
    _column_as_field capitalize column pk_column = Ok (exposed, f) /\
    (if endswith (name column) (lit "_id")
     then exposed ++ lit "_id" = name column
     else exposed = name column ++ lit "_obj") /\
    db_column f = Some (name column) /\
    field_class f = ForeignKey.
Proof.
  intros Hfk Hcls. unfold _column_as_field. rewrite Hcls.
  cbn [of_option bind].
  destruct (foreign_keys column) as [|fk fks]; [congruence|].
  eexists _, _. split; [reflexivity|]. split; [|split; reflexivity].
  destruct (endswith (name column) (lit "_id")) eqn:E; [|reflexivity].
  apply (endswith_drop_last (name column) (lit "_id") E).
Qed.

Lemma foreign_key_field_name_witness :
  exists exposed f,
    _column_as_field (fun s => s) order_user_id None = Ok (exposed, f) /\
    (if endswith (name order_user_id) (lit "_id")
     then exposed ++ lit "_id" = name order_user_id
     else exposed = name order_user_id ++ lit "_obj") /\
    db_column f = Some (name order_user_id) /\
    field_class f = ForeignKey.
Proof.
  apply (foreign_key_field_name (fun s => s) order_user_id None IntegerField).
  - discriminate.
  - reflexivity.
Defined.

(** C6 (as amended).  For every column whose type is a [String] (its
    subclasses [Text] and [Enum] included): when the declared length is a
    number other than zero, the field has [max_length] equal to it, and is a
    [CharField] for [String] and [Enum] and a [TextField] for [Text]; when
    the length is [None] or zero, the field has no [max_length] and is a
    [TextField].  A column with foreign keys gets the class [ForeignKey] in
    both cases, with the same [max_length]. *)
Theorem string_column_field (capitalize : pystr -> pystr)
    (column : Column) (pk_column : option Column) :
  isinstance_String (type_ column) = true ->
  exists exposed f,
    _column_as_field capitalize column pk_column = Ok (exposed, f) /\
    max_length f =
      (if truthy_length (type_length (type_ column))
       then type_length (type_ column) else None) /\
    field_class f =
      match foreign_keys column with
      | _ :: _ => ForeignKey
      | [] => if truthy_length (type_length (type_ column))
              then string_class (type_ column) else TextField
      end.
Proof.
  intro Hs. unfold _column_as_field.
  destruct (type_ column) as [l|l|e l| | | | | | | | |c] eqn:Et;
    try discriminate; cbn [SA_TYPE_TO_MODEL of_option bind isinstance_String
                           type_length string_class];
    destruct (foreign_keys column) as [|fk fks];
    destruct (truthy_length l); cbn [fst snd];
    eexists _, _; repeat split.
Qed.

Lemma string_column_field_witness :
  exists exposed f,
    _column_as_field (fun s => s) name_varchar_10 None = Ok (exposed, f) /\
    max_length f = Some 10%Z /\ field_class f = CharField.
Proof.
  apply (string_column_field (fun s => s) name_varchar_10 None). reflexivity.
Defined.

(** C6, as stated, fails on three string columns with a declared length:
    one with a foreign key becomes a [ForeignKey], one of type [Text]
    stays a [TextField], one of length zero becomes a [TextField] without
    [max_length]. *)
Lemma string_column_not_charfield :
  (exists exposed f,
     _column_as_field (fun s => s) city_country None = Ok (exposed, f) /\
     field_class f = ForeignKey /\ max_length f = Some 2%Z) /\
  (exists exposed f,
     _column_as_field (fun s => s) note_text_100 None = Ok (exposed, f) /\
     field_class f = TextField /\ max_length f = Some 100%Z) /\
  (exists exposed f,
     _column_as_field (fun s => s) tag_varchar_0 None = Ok (exposed, f) /\
     field_class f = TextField /\ max_length f = None).
Proof. repeat split; eexists _, _; repeat split. Qed.


End InitFacts.

(** ** The admin list and the JSON field *)

Module AdminFacts.
Import Django Admin Examples.



Lemma order_admin_list_display :
  get_list_display order_admin =
  PyList [Some (lit "id"); Some (lit "user_id"); Some (lit "total");
          Some (lit "paid")].
Proof. reflexivity. Qed.

(** An explicit [list_display] is returned as it is. *)
Lemma explicit_list_display (self : ModelAdmin) :
  is_default_list_display (list_display self) = false ->
  seq_items (get_list_display self)
  = List.map Some (seq_items (list_display self)).
Proof.
  intro H. unfold get_list_display. rewrite H.
  destruct (list_display self); reflexivity.
Qed.

End AdminFacts.

Module RawJSONFieldFacts.
Import RawJSONField Examples.



(** A successful conversion is returned, any other exception goes on. *)
Lemma from_db_value_other (obj expression connection : Type)
    (super_from_db_value : obj -> expression -> connection -> result obj)
    (value : obj) (e : expression) (c : connection) :
  (forall decoded, super_from_db_value value e c = Ok decoded ->
     from_db_value super_from_db_value value e c = Ok decoded) /\
  (forall x, super_from_db_value value e c = Raise x -> x <> TypeError ->
     from_db_value super_from_db_value value e c = Raise x).
Proof.
  unfold from_db_value. split.
  - intros decoded ->. reflexivity.
  - intros x -> Hx. destruct x; try reflexivity. congruence.
Qed.

End RawJSONFieldFacts.

(** ** The composite key field *)

Module CompositeKeyFieldFacts.
Import Json Django CompositeKeyField Exact Notions Examples.

Lemma mapM_cons_inv (A B : Type) (f : A -> result B) (x : A) (l : list A)
      (r : list B) :
  mapM f (x :: l) = Ok r ->
  exists y ys, f x = Ok y /\ mapM f l = Ok ys /\ r = y :: ys.
Proof.
  cbn [mapM]. destruct (f x) as [y|e]; cbn [bind]; [|discriminate].
  destruct (mapM f l) as [ys|e]; cbn [bind]; [|discriminate].
  intro H. injection H as <-. exists y, ys. repeat split.
Qed.

Lemma mapM_length (A B : Type) (f : A -> result B) (l : list A) :
  forall r, mapM f l = Ok r -> length r = length l.
Proof.
  induction l as [|x l IH]; intros r H.
  - injection H as <-. reflexivity.
  - destruct (mapM_cons_inv _ _ f x l r H) as (y & ys & _ & Hys & ->).
    cbn [length]. f_equal. apply IH, Hys.
Qed.

(** *** The [exact] lookup *)

Lemma lookups_of_columns (lhs_alias : pystr) (rhs : CompositeKey.t)
      (cols : list pystr) :
  forall fields values,
    length fields = length cols ->
    mapM (Dict.getitem rhs) cols = Ok values ->
    mapM (fun fc : MetaField * option pystr =>
            match snd fc with
            | Some column =>
                v <- Dict.getitem rhs column ;;
                Ok (mkLookup (lit "exact") (mkCol lhs_alias (fst fc)) v)
            | None => Raise KeyError
            end)
         (combine fields (List.map Some cols))
    = Ok (List.map (exact_on lhs_alias) (combine fields values)).
Proof.
  induction cols as [|c cols IH]; intros fields values Hlen Hv.
  - destruct fields; [|discriminate]. reflexivity.
  - destruct fields as [|f fields]; [discriminate|].
    destruct (mapM_cons_inv _ _ _ _ _ _ Hv) as (v & vs & Hc & Hvs & ->).
    cbn [List.map combine mapM snd fst]. rewrite Hc. cbn [bind].
    rewrite (IH fields vs); [reflexivity| |exact Hvs].
    cbn [length] in Hlen. now injection Hlen.
Qed.

Lemma fold_add_and (lookups : list Lookup) :
  forall children,
    fold_left (fun node lookup => add node lookup AND) lookups
              (WNode AND false children)
    = WNode AND false (children ++ List.map WLookup lookups).
Proof.
  induction lookups as [|l ls IH]; intro children; cbn [fold_left List.map].
  - now rewrite app_nil_r.
  - cbn [add]. rewrite IH, <- app_assoc. reflexivity.
Qed.

Lemma holds_conjunction (db_exact : MetaField -> value -> scalar -> bool)
      (row : Instance) (lookups : list Lookup) :
  holds db_exact row (WNode AND false (List.map WLookup lookups))
  = forallb (lookup_holds db_exact row) lookups.
Proof.
  cbn [holds]. induction lookups as [|l ls IH]; [reflexivity|].
  cbn [List.map forallb holds]. now rewrite IH.
Qed.



(** *** [contribute_to_class] *)

(** On a class that has no primary key yet, the pseudo-field becomes
    [pk]; it is not concrete and not a relation. *)
Lemma contribute_sets_pk (fields : list pyobj) (column : option pystr)
      (columns : list (option pystr)) (cls : ClassMeta) (name : pystr) :
  meta_pk cls = None ->
  exists cls',
    contribute_to_class fields (column :: columns) cls name = Ok cls' /\
    meta_pk cls' = Some (as_meta_field fields column name) /\
    mf_concrete (as_meta_field fields column name) = false /\
    local_fields cls' = local_fields cls.
Proof.
  intro H. eexists. split; [reflexivity|]. cbn [meta_pk local_fields].
  rewrite H. repeat split.
Qed.

(** *** [delete] *)

Lemma forallb_false (A : Type) (p : A -> bool) (l : list A) :
  forallb p l = false <-> exists x, In x l /\ p x = false.
Proof.
  induction l as [|a l IH]; cbn [forallb In].
  - split; [discriminate|intros (x & [] & _)].
  - rewrite andb_false_iff, IH. split.
    + intros [H|(x & Hin & Hx)].
      * exists a. split; [left; reflexivity|exact H].
      * exists x. split; [right; exact Hin|exact Hx].
    + intros (x & [->|Hin] & Hx); [left; exact Hx|].
      right. exists x. split; assumption.
Qed.

(** What [delete] does by design: once the token of the record is built
    and its columns resolved, the rows that stay are those that fail at
    least one of the per-column conditions; both signals are sent and the
    key attributes of the instance are set to [None]. *)
Lemma delete_removes_rows_matching_all
      (db_for_write : Instance -> pystr)
      (db_exact : MetaField -> value -> scalar -> bool)
      (self : t) (inst : Instance) (using_ : option pystr) (w : World)
      (key : CompositeKey.t) (conds : list (MetaField * scalar)) :
  __get__ self inst = Ok key ->
  mapM (resolve (model self)) key = Ok conds ->
  exists inst' w',
    delete db_for_write db_exact self inst using_ w = (Ok tt, inst', w') /\
    inst' = clear_columns self inst /\
    forall row,
      In row (rows w') <->
      In row (rows w) /\
      exists c, In c conds /\
        match Dict.get row (mf_attname (fst c)) with
        | Some cell => db_exact (fst c) cell (snd c)
        | None => false
        end = false.
Proof.
  intros Hkey Hconds. unfold delete. rewrite Hkey, Hconds.
  eexists _, _. split; [reflexivity|]. split; [reflexivity|].
  intro row. cbn [rows send raw_delete]. rewrite filter_In.
  unfold matches. rewrite negb_true_iff, forallb_false. reflexivity.
Qed.

Lemma reading_tokens :
  __get__ reading_key reading_1 = Ok reading_token /\
  __get__ reading_key reading_2 = Ok reading_token.
Proof. split; vm_compute; reflexivity. Qed.

(** C3, at the failing input.  [to_json] keeps three of the six digits of
    the microseconds, so the two readings have the same token and [delete]
    issues the same filter for both: whatever the database makes of the
    comparison, deleting the first reading and deleting the second leave
    the same rows, and so [delete] cannot remove, for each of them, exactly
    the rows that carry its own key values. *)
Theorem delete_loses_microseconds
    (db_for_write : Instance -> pystr)
    (db_exact : MetaField -> value -> scalar -> bool)
    (using_ : option pystr) (w : World) :
  reading_1 <> reading_2 /\
  rows (snd (delete db_for_write db_exact reading_key reading_1 using_ w))
  = rows (snd (delete db_for_write db_exact reading_key reading_2 using_ w)) /\
  ~ (rows (snd (delete db_for_write db_exact reading_key reading_1 using_
                       (mkWorld [reading_1; reading_2] [])))
     = [reading_2] /\
     rows (snd (delete db_for_write db_exact reading_key reading_2 using_
                       (mkWorld [reading_1; reading_2] [])))
     = [reading_1]).
Proof.
  destruct reading_tokens as [H1 H2].
  assert (Hsame : forall w0,
    rows (snd (delete db_for_write db_exact reading_key reading_1 using_ w0))
    = rows (snd (delete db_for_write db_exact reading_key reading_2 using_ w0))).
  { intro w0. unfold delete. rewrite H1, H2.
    destruct (mapM (resolve (model reading_key)) reading_token); reflexivity. }
  split; [discriminate|]. split; [apply Hsame|].
  intros [Ha Hb]. rewrite Hsame, Hb in Ha. discriminate.
Qed.

End CompositeKeyFieldFacts.

(** ** Tables with a composite primary key *)

Module TableFacts.
Import Json Django SQLAlchemy Init Examples.

Lemma init_of_names_raises (names : list pystr) :
  names <> [] ->
  CompositeKeyField.__init__ (List.map ObjStr names) = Raise AttributeError.
Proof. destruct names as [|n names]; [congruence|]. reflexivity. Qed.

(** Whenever more than one field made from the columns is primary,
    [table_as_model] ends in the [AttributeError] of
    [CompositeKeyField.__init__], which is handed column names and reads
    [db_column] from each. *)
Lemma composite_key_raises (capitalize : pystr -> pystr) (table : Table)
      (name name_plural str_template : option pystr)
      (pk_column : option Column) (items : list (pystr * Field)) :
  mapM (fun column => _column_as_field capitalize column pk_column)
       (tcolumns table) = Ok items ->
  (1 < length (List.filter
                 (fun kv : pystr * Attr => attr_primary (snd kv))
                 (Dict.of_items
                    (List.map (fun nf => (fst nf, AttrField (snd nf))) items))))%nat ->
  table_as_model capitalize table name name_plural str_template pk_column
  = Raise AttributeError.
Proof.
  intros Hitems Hmany. unfold table_as_model. rewrite Hitems. cbn [bind].
  apply Nat.ltb_lt in Hmany. rewrite Hmany.
  rewrite init_of_names_raises; [reflexivity|].
  apply Nat.ltb_lt in Hmany.
  destruct (List.filter _ _); [inversion Hmany|discriminate].
Qed.

Lemma count_primary_set (d : Dict.t Attr) (k : pystr) (a : Attr) :
  attr_primary a = false ->
  (length (List.filter (fun kv : pystr * Attr => attr_primary (snd kv))
                       (Dict.set d k a))
   <= length (List.filter (fun kv : pystr * Attr => attr_primary (snd kv)) d))%nat.
Proof.
  intro Ha. induction d as [|[k' a'] d IH]; cbn [Dict.set List.filter snd].
  - rewrite Ha. apply Nat.le_refl.
  - destruct (str_eqb k' k); cbn [List.filter snd].
    + rewrite Ha. destruct (attr_primary a'); cbn [length]; lia.
    + destruct (attr_primary a'); cbn [length]; lia.
Qed.

(** A model that [table_as_model] does return has at most one primary
    attribute. *)
Lemma returned_model_one_primary (capitalize : pystr -> pystr) (table : Table)
      (name name_plural str_template : option pystr)
      (pk_column : option Column) (m : Model) :
  table_as_model capitalize table name name_plural str_template pk_column
  = Ok m ->
  (length (List.filter (fun kv : pystr * Attr => attr_primary (snd kv))
                       (attrs m)) <= 1)%nat.
Proof.
  unfold table_as_model.
  destruct (mapM _ (tcolumns table)) as [items|e]; cbn [bind]; [|discriminate].
  set (attrs0 := Dict.of_items
                   (List.map (fun nf => (fst nf, AttrField (snd nf))) items)).
  destruct (1 <? length (List.filter (fun kv => attr_primary (snd kv)) attrs0))%nat
    eqn:Hmany.
  - rewrite init_of_names_raises; [discriminate|].
    apply Nat.ltb_lt in Hmany.
    destruct (List.filter _ attrs0); [inversion Hmany|discriminate].
  - cbn [bind]. intro H. injection H as <-. cbn [attrs].
    apply Nat.ltb_ge in Hmany.
    eapply Nat.le_trans; [apply count_primary_set; reflexivity|].
    eapply Nat.le_trans; [apply count_primary_set; reflexivity|].
    eapply Nat.le_trans; [apply count_primary_set; reflexivity|].
    exact Hmany.
Qed.

(** C10, at the failing input.  Both columns give a primary field, and
    [table_as_model] raises [AttributeError] instead of returning a model
    with the composite key field ["id"]. *)
Theorem composite_primary_key_raises (capitalize : pystr -> pystr)
    (name name_plural str_template : option pystr) :
  (exists person club,
     mapM (fun column => _column_as_field capitalize column None)
          (tcolumns membership)
     = Ok [(lit "person", person); (lit "club", club)] /\
     Django.primary_key person = true /\ Django.primary_key club = true) /\
  table_as_model capitalize membership name name_plural str_template None
  = Raise AttributeError.
Proof.
  split.
  - eexists _, _. split; [reflexivity|]. split; reflexivity.
  - eapply composite_key_raises; [reflexivity|].
    cbn. apply Nat.lt_succ_diag_r.
Qed.

End TableFacts.

(** ** More on the key token *)

Module TokenMore.
Import Json CompositeKey Examples More.

Lemma table_b2a_b64_char (i : N) :
  i < 64 -> is_b64_char (Base64.table_b2a i) = true.
Proof.
  intro H. unfold is_b64_char. now rewrite (Base64Facts.table_a2b_b2a H).
Qed.

Lemma b2a_base64_shape (data : pybytes) :
  Forall Base64.is_octet data ->
  Forall (fun c => is_b64_char c = true) (Base64.b2a_base64 data) /\
  (length (Base64.b2a_base64 data) mod 4 = 0)%nat.
Proof.
  induction data as [|a|a b|a b c rest IH] using Base64Facts.list_ind_by3;
    intro Hall.
  - split; [constructor|reflexivity].
  - inversion Hall as [|? ? Ha _]; subst. unfold Base64.is_octet in Ha.
    assert (H0 : 0 < 256) by lia.
    split; [|reflexivity]. cbn [Base64.b2a_base64].
    repeat apply Forall_cons; try apply Forall_nil; try reflexivity.
    + apply table_b2a_b64_char, (Base64Facts.sextet1_lt Ha).
    + apply table_b2a_b64_char.
      replace (N.shiftl (N.land a 3) 4)
        with (N.lor (N.shiftl (N.land a 3) 4) (N.shiftr 0 4))
        by (cbn [N.shiftr]; apply N.lor_0_r).
      apply (Base64Facts.sextet2_lt Ha H0).
  - inversion Hall as [|? ? Ha Hall']; subst.
    inversion Hall' as [|? ? Hb _]; subst.
    unfold Base64.is_octet in Ha, Hb.
    assert (H0 : 0 < 256) by lia.
    split; [|reflexivity]. cbn [Base64.b2a_base64].
    repeat apply Forall_cons; try apply Forall_nil; try reflexivity.
    + apply table_b2a_b64_char, (Base64Facts.sextet1_lt Ha).
    + apply table_b2a_b64_char, (Base64Facts.sextet2_lt Ha Hb).
    + apply table_b2a_b64_char.
      replace (N.shiftl (N.land b 15) 2)
        with (N.lor (N.shiftl (N.land b 15) 2) (N.shiftr 0 6))
        by (cbn [N.shiftr]; apply N.lor_0_r).
      apply (Base64Facts.sextet3_lt Hb H0).
  - inversion Hall as [|? ? Ha Hall']; subst.
    inversion Hall' as [|? ? Hb Hall'']; subst.
    inversion Hall'' as [|? ? Hc Hrest]; subst.
    unfold Base64.is_octet in Ha, Hb, Hc.
    destruct (IH Hrest) as [IH1 IH2].
    split.
    + cbn [Base64.b2a_base64]. repeat apply Forall_cons; try exact IH1.
      * apply table_b2a_b64_char, (Base64Facts.sextet1_lt Ha).
      * apply table_b2a_b64_char, (Base64Facts.sextet2_lt Ha Hb).
      * apply table_b2a_b64_char, (Base64Facts.sextet3_lt Hb Hc).
      * apply table_b2a_b64_char, (Base64Facts.sextet4_lt Hc).
    + cbn [Base64.b2a_base64 length].
      change (S (S (S (S (length (Base64.b2a_base64 rest))))))
        with (4 + length (Base64.b2a_base64 rest))%nat.
      rewrite <- Nat.Div0.add_mod_idemp_l. exact IH2.
Qed.


(** X2.  Two different dicts never get the same token, as long as their
    strings have no joined surrogate pair; the order of the columns counts,
    so two keys that compare equal can have different tokens. *)
Theorem different_keys_different_tokens (x y : pydict) :
  dict_ok x -> dict_ok y -> x <> y -> encode x <> encode y.
Proof.
  intros Hx Hy Hne Heq. apply Hne.
  rewrite !CompositeKeyFacts.encode_ok in Heq.
  apply (f_equal (fun r => bind r decode)) in Heq. cbn [bind] in Heq.
  rewrite !CompositeKeyFacts.decode_encoded in Heq.
  rewrite (JsonFacts.loads_dumps Hx), (JsonFacts.loads_dumps Hy) in Heq.
  congruence.
Qed.

Lemma different_keys_different_tokens_witness :
  __eq__ key_a1_bx key_b_then_a = true /\
  encode key_a1_bx <> encode key_b_then_a.
Proof.
  split; [reflexivity|].
  apply (different_keys_different_tokens key_a1_bx key_b_then_a).
  - split.
    + unfold Dict.wf. cbn. repeat constructor; cbn; intuition discriminate.
    + repeat constructor; cbn; try discriminate.
  - split.
    + unfold Dict.wf. cbn. repeat constructor; cbn; intuition discriminate.
    + repeat constructor; cbn; try discriminate.
  - discriminate.
Defined.

(** A comprehension stops at the first element that raises. *)
Lemma mapM_raises (A B : Type) (f : A -> result B) (e : exn) (l : list A) :
  (forall x, In x l -> f x = Raise e \/ exists y, f x = Ok y) ->
  (exists x, In x l /\ f x = Raise e) ->
  mapM f l = Raise e.
Proof.
  induction l as [|a l IH]; intros Hall (x & Hin & Hx); [contradiction|].
  cbn [mapM]. destruct (Hall a (or_introl eq_refl)) as [Ha|[y Ha]];
    rewrite Ha; cbn [bind]; [reflexivity|].
  rewrite IH; [reflexivity| |].
  - intros z Hz. apply Hall. right. exact Hz.
  - destruct Hin as [->|Hin]; [congruence|]. exists x. split; assumption.
Qed.

Lemma encode_char_outcome (c : N) :
  Utf8.encode_char c = Raise UnicodeError \/
  exists y, Utf8.encode_char c = Ok y.
Proof.
  unfold Utf8.encode_char.
  destruct (c <? 128); [right; eexists; reflexivity|].
  destruct (c <? 2048); [right; eexists; reflexivity|].
  destruct (c <? 65536); [|right; eexists; reflexivity].
  destruct (Utf8.is_surrogate c); [left|right; eexists]; reflexivity.
Qed.

Lemma encode_char_surrogate (c : N) :
  Utf8.is_surrogate c = true -> Utf8.encode_char c = Raise UnicodeError.
Proof.
  intro H. unfold Utf8.encode_char. rewrite H.
  unfold Utf8.is_surrogate in H. apply andb_true_iff in H.
  destruct H as [H1 H2]. apply N.leb_le in H1. apply N.leb_le in H2.
  destruct (N.ltb_spec c 128); [lia|].
  destruct (N.ltb_spec c 2048); [lia|].
  destruct (N.ltb_spec c 65536); [reflexivity|lia].
Qed.

(** X3.  [CompositeKey.decode] raises a Unicode error on every text that
    holds a surrogate code point, before any base64 or JSON reading. *)
Theorem decode_rejects_surrogates (value : pystr) :
  Exists (fun c => Utf8.is_surrogate c = true) value ->
  decode value = Raise UnicodeError.
Proof.
  intro H. unfold decode, Utf8.encode, fmap.
  rewrite (mapM_raises _ _ Utf8.encode_char UnicodeError value);
    [reflexivity| |].
  - intros c _. apply encode_char_outcome.
  - apply Exists_exists in H. destruct H as (c & Hin & Hc).
    exists c. split; [exact Hin|apply encode_char_surrogate, Hc].
Qed.

Lemma decode_rejects_surrogates_witness :
  decode (lit "eyJh" ++ [56832]) = Raise UnicodeError.
Proof.
  apply (decode_rejects_surrogates (lit "eyJh" ++ [56832])).
  apply Exists_exists. exists 56832. split; [|reflexivity].
  cbn. intuition.
Defined.

Lemma a2b_loop_skips (s : pybytes) :
  forall q lc pads,
    Base64.a2b_loop s q lc pads
    = Base64.a2b_loop (List.filter is_b64_char s) q lc pads.
Proof.
  induction s as [|c s IH]; intros q lc pads; [reflexivity|].
  cbn [List.filter]. unfold is_b64_char at 1.
  destruct (Base64.table_a2b c) as [v|] eqn:Ev.
  - cbn [Base64.a2b_loop]. rewrite Ev.
    destruct (c =? Base64.BASE64_PAD).
    + destruct (2 <=? Base64.quad_index q); [|apply IH].
      destruct (4 <=? Base64.quad_index q + (pads + 1)); [reflexivity|apply IH].
    + destruct q; rewrite IH; reflexivity.
  - destruct (c =? Base64.BASE64_PAD) eqn:Ep.
    + cbn [Base64.a2b_loop]. rewrite Ep.
      destruct (2 <=? Base64.quad_index q); [|apply IH].
      destruct (4 <=? Base64.quad_index q + (pads + 1)); [reflexivity|apply IH].
    + cbn [Base64.a2b_loop]. rewrite Ep, Ev. apply IH.
Qed.

Lemma filter_ascii (p : N -> bool) (s : list N) :
  Utf8.is_ascii s -> Utf8.is_ascii (List.filter p s).
Proof.
  unfold Utf8.is_ascii. rewrite !Forall_forall. intros H c Hc.
  apply filter_In in Hc. apply H, Hc.
Qed.

(** X4.  In an ASCII text, [CompositeKey.decode] ignores every character
    that is neither of the base64 alphabet nor the pad: blanks and line
    breaks inside a token do not change what it decodes to. *)
Theorem decode_ignores_other_characters (value : pystr) :
  Utf8.is_ascii value ->
  decode value = decode (List.filter is_b64_char value).
Proof.
  intro Ha. unfold decode.
  rewrite (Utf8Facts.encode_ascii Ha).
  rewrite (Utf8Facts.encode_ascii (filter_ascii is_b64_char value Ha)).
  cbn [bind]. unfold Base64.b64decode, Base64.a2b_base64.
  rewrite a2b_loop_skips. reflexivity.
Qed.

Lemma decode_ignores_other_characters_witness :
  decode token_with_blanks = decode (lit "eyJhIjogMX0=") /\
  decode token_with_blanks = Ok [(lit "a", SInt 1)].
Proof.
  split; [|reflexivity].
  apply (decode_ignores_other_characters token_with_blanks).
  unfold Utf8.is_ascii.
  repeat (apply Forall_cons; [reflexivity|]). apply Forall_nil.
Defined.

End TokenMore.

(** ** More on the composite key field *)

Module FieldMore.
Import Json Django CompositeKeyField Exact Notions Examples More.

(** *** [__init__] and [contribute_to_class] *)

(** X5.  [CompositeKeyField.__init__] on a list of field objects keeps the
    list and takes, for each field, its [db_column] when that is a non-empty
    string and its name otherwise; as soon as the list holds a [str] it
    raises [AttributeError]. *)
Theorem init_takes_fields_only (l : list (option pystr * Field))
    (s : pystr) (rest : list pyobj) :
  __init__ (List.map as_field l)
  = Ok (List.map as_field l,
        List.map (fun nf => or_str (db_column (snd nf)) (fst nf)) l) /\
  __init__ (List.map as_field l ++ ObjStr s :: rest) = Raise AttributeError.
Proof.
  unfold __init__. split.
  - assert (H : mapM column_of (List.map as_field l)
                = Ok (List.map (fun nf => or_str (db_column (snd nf)) (fst nf)) l)).
    { induction l as [|[n f] l IH]; [reflexivity|].
      cbn [List.map mapM]. rewrite IH.
      unfold column_of, as_field, or_str. cbn [getattr_db_column fst snd bind].
      destruct (truthy_str (db_column f)); reflexivity. }
    rewrite H. reflexivity.
  - assert (H : mapM column_of (List.map as_field l ++ ObjStr s :: rest)
                = Raise AttributeError).
    { induction l as [|[n f] l IH]; [reflexivity|].
      cbn [List.map app mapM]. rewrite IH.
      unfold column_of, as_field. cbn [getattr_db_column fst snd bind].
      destruct (truthy_str (db_column f)); reflexivity. }
    rewrite H. reflexivity.
Qed.


(** *** [to_json] *)

(** X7.  [to_json] raises for a timezone-aware [time] only, and then a
    [ValueError]; it returns a scalar unchanged and turns every other value
    into a string. *)
Theorem to_json_outcome (v : value) :
  (forall s, v = VScalar s -> to_json v = Ok s) /\
  (forall e, to_json v = Raise e ->
     e = ValueError /\ exists t, v = VTime t /\ is_aware t = true) /\
  (forall t, v = VTime t -> is_aware t = true -> to_json v = Raise ValueError) /\
  (forall j, to_json v = Ok j -> (forall s, v <> VScalar s) ->
     exists text, j = SStr text).
Proof.
  split; [intros s ->; reflexivity|]. split; [|split].
  - intros e H.
    destruct v as [s|d|d|tm|us|tx|tx|tx]; cbn [to_json] in H;
      try discriminate.
    destruct (is_aware tm) eqn:Ea; [|discriminate].
    injection H as <-. split; [reflexivity|].
    exists tm. split; [reflexivity|exact Ea].
  - intros tm -> Ht. cbn [to_json]. rewrite Ht. reflexivity.
  - intros j H Hns.
    destruct v as [s|d|d|tm|us|tx|tx|tx]; cbn [to_json] in H;
      try (injection H as <-; eexists; reflexivity).
    + exfalso. apply (Hns s). reflexivity.
    + destruct (is_aware tm); [discriminate|].
      injection H as <-. eexists. reflexivity.
Qed.

Lemma startswith_prefix (p r : pystr) : startswith (p ++ r) p = true.
Proof.
  induction p as [|c p IH]; [reflexivity|].
  cbn [app startswith]. now rewrite N.eqb_refl, IH.
Qed.

Lemma endswith_suffix (p suffix : pystr) : endswith (p ++ suffix) suffix = true.
Proof. unfold endswith. rewrite rev_app_distr. apply startswith_prefix. Qed.

Lemma drop_last_suffix (p suffix : pystr) :
  drop_last (length suffix) (p ++ suffix) = p.
Proof.
  unfold drop_last. rewrite length_app, Nat.add_sub.
  rewrite firstn_app, firstn_all, Nat.sub_diag. cbn [firstn].
  apply app_nil_r.
Qed.

(** X8.  For a [datetime] at UTC with no microseconds, [to_json] gives the
    ISO text of the date and the clock time followed by ["Z"] in place of
    the offset ["+00:00"]. *)
Theorem to_json_utc_ends_in_z (y mo d h mi s : N) :
  to_json (VDateTime (mkDatetime y mo d h mi s 0 (Some 0%Z)))
  = Ok (SStr (date_isoformat (mkDate y mo d) ++ [84]
              ++ zero_pad 2 h ++ [58] ++ zero_pad 2 mi ++ [58]
              ++ zero_pad 2 s ++ lit "Z")).
Proof.
  cbn [to_json microsecond]. change (0 =? 0) with true. cbv iota.
  set (text := date_isoformat (mkDate y mo d) ++ [84]
               ++ zero_pad 2 h ++ [58] ++ zero_pad 2 mi ++ [58]
               ++ zero_pad 2 s).
  assert (E : datetime_isoformat (mkDatetime y mo d h mi s 0 (Some 0%Z))
              = text ++ lit "+00:00").
  { unfold text. unfold datetime_isoformat, date_isoformat, format_clock.
    cbn [year month day hour minute second microsecond utcoffset
         d_year d_month d_day format_tz].
    change (0 =? 0) with true. cbv iota.
    change (format_offset 0) with (lit "+00:00").
    repeat rewrite <- app_assoc. cbn [app]. reflexivity. }
  rewrite E, endswith_suffix.
  change 6%nat with (length (lit "+00:00")).
  rewrite drop_last_suffix. unfold text.
  repeat rewrite <- app_assoc. reflexivity.
Qed.

(** *** [__get__], [delete] and the lookup together *)

Lemma key_items_spec (self : t) (inst : Instance) (cols : list pystr) :
  forall items,
    mapM (key_item self inst) (List.map Some cols) = Ok items ->
    exists fields,
      mapM (get_field (model self)) (List.map Some cols) = Ok fields /\
      List.map fst items = cols /\
      mapM (resolve (model self)) items
      = Ok (combine fields (List.map snd items)) /\
      length fields = length cols /\
      Forall2 (fun f j => exists v, value_from_object f inst = Ok v /\
                                    to_json v = Ok j)
              fields (List.map snd items).
Proof.
  induction cols as [|c cols IH]; intros items H.
  - injection H as <-. exists []. repeat split. constructor.
  - cbn [List.map] in H.
    destruct (CompositeKeyFieldFacts.mapM_cons_inv _ _ _ _ _ _ H)
      as (it & its & Hit & Hits & ->).
    destruct (IH its Hits) as (fields & Hf & Hk & Hr & Hl & Hv).
    unfold key_item in Hit.
    destruct (get_field (model self) (Some c)) as [f|e] eqn:Ef;
      cbn [bind] in Hit; [|discriminate].
    destruct (value_from_object f inst) as [v|e] eqn:Ev;
      cbn [bind] in Hit; [|discriminate].
    destruct (to_json v) as [j|e] eqn:Ej; cbn [bind] in Hit; [|discriminate].
    injection Hit as <-.
    exists (f :: fields). cbn [List.map mapM fst snd combine length].
    rewrite Ef, Hf. cbn [bind]. unfold resolve at 1. cbn [fst snd].
    rewrite Ef, Hr, Hk, Hl. cbn [bind]. repeat split.
    constructor; [|exact Hv]. exists v. split; assumption.
Qed.

Lemma getitem_own_keys (items l : list (pystr * scalar)) :
  Dict.wf items -> incl l items ->
  mapM (Dict.getitem items) (List.map fst l) = Ok (List.map snd l).
Proof.
  intros Hwf. induction l as [|[k v] l IH]; intro Hin; [reflexivity|].
  cbn [List.map mapM fst snd]. unfold Dict.getitem at 1.
  rewrite (@DictFacts.get_present _ items k v Hwf (Hin _ (or_introl eq_refl))).
  cbn [of_option bind]. rewrite IH; [reflexivity|].
  intros x Hx. apply Hin. right. exact Hx.
Qed.

(** The run of [delete] for a record whose token can be built. *)
Lemma delete_run (db_for_write : Instance -> pystr)
      (db_exact : MetaField -> value -> scalar -> bool)
      (self : t) (inst : Instance) (cols : list pystr) (key : CompositeKey.t) :
  columns self = List.map Some cols -> NoDup cols ->
  __get__ self inst = Ok key ->
  exists fields,
    mapM (get_field (model self)) (columns self) = Ok fields /\
    Dict.keys key = cols /\
    mapM (Dict.getitem key) cols = Ok (List.map snd key) /\
    length fields = length cols /\
    Forall2 (fun f j => exists v, value_from_object f inst = Ok v /\
                                  to_json v = Ok j)
            fields (List.map snd key) /\
    forall using_ w,
      delete db_for_write db_exact self inst using_ w
      = (Ok tt, clear_columns self inst,
         mkWorld (List.filter
                    (fun row => negb (matches db_exact
                                        (combine fields (List.map snd key)) row))
                    (rows w))
                 ((sent w ++ [(pre_delete, inst,
                               match using_ with
                               | Some (c :: r) => c :: r
                               | _ => db_for_write inst
                               end)])
                  ++ [(post_delete, clear_columns self inst,
                       match using_ with
                       | Some (c :: r) => c :: r
                       | _ => db_for_write inst
                       end)])).
Proof.
  intros Hcols Hnd Hget. unfold __get__ in Hget. rewrite Hcols in Hget.
  destruct (mapM (key_item self inst) (List.map Some cols)) as [items|e] eqn:Hi;
    cbn [bind] in Hget; [|discriminate].
  injection Hget as <-.
  destruct (key_items_spec self inst cols items Hi)
    as (fields & Hf & Hk & Hr & Hl & Hv).
  assert (Hwf : NoDup (List.map fst items)) by (rewrite Hk; exact Hnd).
  rewrite (@DictFacts.of_items_wf _ items Hwf).
  exists fields. rewrite Hcols. split; [exact Hf|]. split; [exact Hk|].
  split.
  { rewrite <- Hk. apply getitem_own_keys; [exact Hwf|apply incl_refl]. }
  split; [exact Hl|]. split; [exact Hv|].
  intros using_ w. unfold delete, __get__. rewrite Hcols, Hi. cbn [bind].
  rewrite (@DictFacts.of_items_wf _ items Hwf), Hr. reflexivity.
Qed.

(** X9.  When [__get__] returns the token of a record, the keys of the
    token are the key columns in their order (these being distinct), and
    the value under each column is [to_json] of the record's value for the
    field of that column. *)
Theorem token_has_the_key_columns (self : t) (inst : Instance)
    (cols : list pystr) (key : CompositeKey.t) :
  columns self = List.map Some cols -> NoDup cols ->
  __get__ self inst = Ok key ->
  Dict.keys key = cols /\ Dict.wf key /\
  exists fields,
    mapM (get_field (model self)) (columns self) = Ok fields /\
    Forall2 (fun f j => exists v, value_from_object f inst = Ok v /\
                                  to_json v = Ok j)
            fields (List.map snd key).
Proof.
  intros Hcols Hnd Hget.
  destruct (delete_run (fun _ => []) (fun _ _ _ => true) self inst cols key
              Hcols Hnd Hget) as (fields & Hf & Hk & _ & _ & Hv & _).
  split; [exact Hk|]. split; [unfold Dict.wf; rewrite Hk; exact Hnd|].
  exists fields. split; assumption.
Qed.

Lemma token_has_the_key_columns_witness :
  Dict.keys reading_token = [lit "device"; lit "at"] /\ Dict.wf reading_token /\
  exists fields,
    mapM (get_field (model reading_key)) (columns reading_key) = Ok fields /\
    Forall2 (fun f j => exists v, value_from_object f reading_1 = Ok v /\
                                  to_json v = Ok j)
            fields (List.map snd reading_token).
Proof.
  apply (token_has_the_key_columns reading_key reading_1
           [lit "device"; lit "at"] reading_token).
  - reflexivity.
  - repeat constructor; cbn; intuition discriminate.
  - vm_compute. reflexivity.
Defined.

Lemma matches_is_holds (db_exact : MetaField -> value -> scalar -> bool)
      (lhs_alias : pystr) (row : Instance) (conds : list (MetaField * scalar)) :
  matches db_exact conds row
  = holds db_exact row
      (WNode AND false (List.map WLookup (List.map (exact_on lhs_alias) conds))).
Proof.
  rewrite CompositeKeyFieldFacts.holds_conjunction. unfold matches.
  induction conds as [|c conds IH]; [reflexivity|].
  cbn [List.map forallb]. rewrite IH. reflexivity.
Qed.



(** X11.  What [delete] does in every case: it sends [pre_delete] for the
    record first, with the given database alias or the router's when none
    (or an empty one) is given; it never adds a row.  When it raises, the
    table and the record are as before and nothing else was sent; when it
    returns, [post_delete] was sent last, for the record with its key
    attributes cleared. *)
Theorem delete_effects
    (db_for_write : Instance -> pystr)
    (db_exact : MetaField -> value -> scalar -> bool)
    (self : t) (inst : Instance) (using_ : option pystr) (w : World) :
  let alias_ := match using_ with
                | Some (c :: r) => c :: r
                | _ => db_for_write inst
                end in
  let out := delete db_for_write db_exact self inst using_ w in
  let w' := snd out in
  let inst' := snd (fst out) in
  incl (rows w') (rows w) /\
  (length (rows w') <= length (rows w))%nat /\
  match fst (fst out) with
  | Raise e =>
      inst' = inst /\ rows w' = rows w /\
      sent w' = sent w ++ [(pre_delete, inst, alias_)]
  | Ok _ =>
      inst' = clear_columns self inst /\
      sent w' = sent w ++ [(pre_delete, inst, alias_);
                           (post_delete, inst', alias_)]
  end.
Proof.
  cbv zeta. unfold delete.
  destruct (__get__ self inst) as [key|e];
    [destruct (mapM (resolve (model self)) key) as [conds|e]|];
    cbn [fst snd send raw_delete rows sent].
  - split; [intros r Hr; apply filter_In in Hr; apply Hr|].
    split; [apply filter_length_le|].
    split; [reflexivity|]. rewrite <- app_assoc. reflexivity.
  - split; [apply incl_refl|]. split; [apply Nat.le_refl|]. repeat split.
  - split; [apply incl_refl|]. split; [apply Nat.le_refl|]. repeat split.
Qed.

Section DictSet.
Variable V : Type.

Lemma get_set_same (d : Dict.t V) (k : pystr) (v : V) :
  Dict.get (Dict.set d k v) k = Some v.
Proof.
  induction d as [|[k' v'] d IH]; cbn [Dict.set Dict.get].
  - now rewrite DictFacts.str_eqb_refl.
  - destruct (str_eqb k' k) eqn:E; cbn [Dict.get]; rewrite E;
      [reflexivity|exact IH].
Qed.

Lemma get_set_other (d : Dict.t V) (k n : pystr) (v : V) :
  k <> n -> Dict.get (Dict.set d k v) n = Dict.get d n.
Proof.
  intro Hne. induction d as [|[k' v'] d IH]; cbn [Dict.set Dict.get].
  - now rewrite (DictFacts.str_eqb_neq Hne).
  - destruct (str_eqb k' k) eqn:E; cbn [Dict.get].
    + apply DictFacts.str_eqb_eq in E. subst k'.
      now rewrite (DictFacts.str_eqb_neq Hne).
    + rewrite IH. reflexivity.
Qed.

Lemma keys_set (d : Dict.t V) (k : pystr) (v : V) :
  forall n, In n (Dict.keys (Dict.set d k v)) <-> n = k \/ In n (Dict.keys d).
Proof.
  intro n. induction d as [|[k' v'] d IH];
    cbn [Dict.set Dict.keys List.map fst In].
  - intuition congruence.
  - destruct (str_eqb k' k) eqn:E; cbn [Dict.keys List.map fst In].
    + apply DictFacts.str_eqb_eq in E. subst k'. intuition congruence.
    + unfold Dict.keys in IH. rewrite IH. intuition congruence.
Qed.
End DictSet.

Lemma clear_fold (cols : list (option pystr)) :
  forall (inst : Instance) (n : pystr),
    Dict.get (fold_left (fun i column =>
                           match column with
                           | Some c => Dict.set i c (VScalar SNone)
                           | None => i
                           end) cols inst) n
    = if existsb (fun column => match column with
                                | Some c => str_eqb c n
                                | None => false
                                end) cols
      then Some (VScalar SNone) else Dict.get inst n.
Proof.
  induction cols as [|[c|] cols IH]; intros inst n;
    cbn [fold_left existsb orb]; [reflexivity| |apply IH].
  rewrite IH. destruct (existsb _ cols); [now rewrite orb_true_r|].
  rewrite orb_false_r. destruct (str_eqb c n) eqn:E.
  - apply DictFacts.str_eqb_eq in E. subst. apply get_set_same.
  - apply get_set_other. intro H. subst.
    rewrite DictFacts.str_eqb_refl in E. discriminate.
Qed.

(** X12.  After a [delete] that returned, the record left in the caller's
    hands has [None] under every key column and every other attribute as it
    was; it is this cleared record that [post_delete] is sent for. *)
Theorem delete_clears_the_key
    (db_for_write : Instance -> pystr)
    (db_exact : MetaField -> value -> scalar -> bool)
    (self : t) (inst inst' : Instance) (using_ : option pystr) (w w' : World) :
  delete db_for_write db_exact self inst using_ w = (Ok tt, inst', w') ->
  (forall c, In (Some c) (columns self) ->
             Dict.get inst' c = Some (VScalar SNone)) /\
  (forall n, ~ In (Some n) (columns self) ->
             Dict.get inst' n = Dict.get inst n) /\
  exists alias_, last (sent w') (pre_delete, inst, []) = (post_delete, inst', alias_).
Proof.
  unfold delete.
  destruct (__get__ self inst) as [key|e]; [|discriminate].
  destruct (mapM (resolve (model self)) key) as [conds|e]; [|discriminate].
  intro H. injection H as <- <-. unfold clear_columns. split; [|split].
  - intros c Hin. rewrite clear_fold.
    replace (existsb _ (columns self)) with true; [reflexivity|].
    symmetry. apply existsb_exists. exists (Some c).
    split; [exact Hin|apply DictFacts.str_eqb_refl].
  - intros n Hn. rewrite clear_fold.
    replace (existsb _ (columns self)) with false; [reflexivity|].
    symmetry. apply not_true_is_false. intro Hex.
    apply existsb_exists in Hex. destruct Hex as ([c|] & Hin & Hc);
      [|discriminate].
    apply DictFacts.str_eqb_eq in Hc. subst. contradiction.
  - eexists. unfold send. cbn [sent]. apply last_last.
Qed.

Lemma delete_clears_the_key_witness :
  (forall c, In (Some c) (columns slot_key) ->
             Dict.get [(lit "device", VScalar SNone); (lit "slot", VScalar SNone);
                       (lit "note", VScalar (SStr (lit "x")))] c
             = Some (VScalar SNone)) /\
  (forall n, ~ In (Some n) (columns slot_key) ->
             Dict.get [(lit "device", VScalar SNone); (lit "slot", VScalar SNone);
                       (lit "note", VScalar (SStr (lit "x")))] n
             = Dict.get slot_7_1 n) /\
  exists alias_,
    last (sent (mkWorld [slot_7_2]
                  [(pre_delete, slot_7_1, lit "default");
                   (post_delete,
                    [(lit "device", VScalar SNone); (lit "slot", VScalar SNone);
                     (lit "note", VScalar (SStr (lit "x")))], lit "default")]))
         (pre_delete, slot_7_1, [])
    = (post_delete,
       [(lit "device", VScalar SNone); (lit "slot", VScalar SNone);
        (lit "note", VScalar (SStr (lit "x")))], alias_).
Proof.
  apply (delete_clears_the_key (fun _ => lit "default") db_equal slot_key
           slot_7_1 _ None (mkWorld [slot_7_1; slot_7_2] []) _).
  reflexivity.
Defined.

Lemma key_items_exist (self : t) (inst : Instance) (cols : list pystr) :
  forall fields,
    mapM (get_field (model self)) (List.map Some cols) = Ok fields ->
    Forall (fun f => exists s, Dict.get inst (mf_attname f) = Some (VScalar s))
           fields ->
    exists items, mapM (key_item self inst) (List.map Some cols) = Ok items.
Proof.
  induction cols as [|c cols IH]; intros fields Hf Hs.
  - exists []. reflexivity.
  - cbn [List.map] in Hf.
    destruct (CompositeKeyFieldFacts.mapM_cons_inv _ _ _ _ _ _ Hf)
      as (f & fs & Hc & Hfs & ->).
    inversion Hs as [|? ? (s & Hg) Hs']; subst.
    destruct (IH fs Hfs Hs') as (items & Hi).
    exists ((c, s) :: items). cbn [List.map mapM]. unfold key_item at 1.
    rewrite Hc. cbn [bind]. unfold value_from_object. rewrite Hg.
    cbn [of_option bind to_json]. rewrite Hi. reflexivity.
Qed.

Lemma in_combine_forall2 (A B : Type) (R : A -> B -> Prop) (l : list A)
      (l' : list B) :
  Forall2 R l l' ->
  (forall a b, In (a, b) (combine l l') -> R a b) /\
  (forall a, In a l -> exists b, In (a, b) (combine l l')).
Proof.
  induction 1 as [|a b l l' Hab _ [IH1 IH2]]; cbn [combine In].
  - split; [intros ? ? []|intros ? []].
  - split.
    + intros x y [E|Hin]; [injection E as <- <-; exact Hab|apply IH1, Hin].
    + intros x [->|Hin]; [exists b; left; reflexivity|].
      destruct (IH2 x Hin) as (y & Hy). exists y. right. exact Hy.
Qed.


Lemma scalar_same_eq (a b : scalar) : scalar_same a b = true <-> a = b.
Proof.
  destruct a as [|x|x|x], b as [|y|y|y]; cbn [scalar_same];
    try (split; [discriminate|congruence]).
  - split; reflexivity.
  - rewrite Bool.eqb_true_iff. split; congruence.
  - rewrite Z.eqb_eq. split; congruence.
  - rewrite DictFacts.str_eqb_eq. split; congruence.
Qed.

Lemma db_equal_spec (f : MetaField) (cell : value) (v : scalar) :
  db_equal f cell v = true <-> cell = VScalar v.
Proof.
  destruct cell; cbn [db_equal]; try (split; [discriminate|congruence]).
  rewrite scalar_same_eq. split; congruence.
Qed.


Lemma get_field_outcome (opts : Options) (c : option pystr) :
  get_field opts c = Raise FieldDoesNotExist \/ exists f, get_field opts c = Ok f.
Proof.
  unfold get_field. destruct c as [n|]; [|left; reflexivity].
  destruct (fold_left _ _ _) as [f|]; cbn [of_option];
    [right; exists f; reflexivity|left; reflexivity].
Qed.

Lemma mapM_ok (A B : Type) (f : A -> result B) (l : list A) :
  (forall x, In x l -> exists y, f x = Ok y) ->
  exists ys, mapM f l = Ok ys /\ length ys = length l.
Proof.
  induction l as [|a l IH]; intro H; [exists []; split; reflexivity|].
  destruct (H a (or_introl eq_refl)) as (y & Hy).
  destruct IH as (ys & Hys & Hl); [intros x Hx; apply H; right; exact Hx|].
  exists (y :: ys). cbn [mapM length]. rewrite Hy, Hys, Hl. split; reflexivity.
Qed.




Lemma key_items_resolve (self : t) (inst : Instance)
      (cols : list (option pystr)) :
  forall items,
    mapM (key_item self inst) cols = Ok items ->
    forall k, In k (List.map fst items) ->
              exists f, get_field (model self) (Some k) = Ok f.
Proof.
  induction cols as [|c cols IH]; intros items H k Hk.
  - injection H as <-. contradiction.
  - destruct (CompositeKeyFieldFacts.mapM_cons_inv _ _ _ _ _ _ H)
      as (it & its & Hit & Hits & ->).
    cbn [List.map In] in Hk. destruct Hk as [<-|Hk]; [|eapply IH; eassumption].
    unfold key_item in Hit. destruct c as [c|]; [|discriminate].
    destruct (get_field (model self) (Some c)) as [f|e] eqn:Ef;
      cbn [bind] in Hit; [|discriminate].
    destruct (value_from_object f inst) as [v|e]; cbn [bind] in Hit;
      [|discriminate].
    destruct (to_json v) as [j|e]; cbn [bind] in Hit; [|discriminate].
    injection Hit as <-. exists f. exact Ef.
Qed.

Lemma keys_of_fold (V : Type) (items : list (pystr * V)) :
  forall (d : Dict.t V) k,
    In k (Dict.keys (fold_left (fun d kv => Dict.set d (fst kv) (snd kv))
                               items d)) ->
    In k (Dict.keys d) \/ In k (List.map fst items).
Proof.
  induction items as [|[k' v] items IH]; intros d k H; cbn [fold_left] in H.
  - left. exact H.
  - destruct (IH _ _ H) as [Hd|Hi].
    + apply keys_set in Hd. cbn [fst] in Hd. destruct Hd as [->|Hd];
        [right; left; reflexivity|left; exact Hd].
    + right. right. exact Hi.
Qed.


End FieldMore.

(* ================================================================== *)
(** ** More on columns, tables and models *)

Module ModelMore.
Import Json Django SQLAlchemy Init Examples More.


Lemma column_field_primary (capitalize : pystr -> pystr)
      (pk_column : option Column) (column : Column) :
  SA_TYPE_TO_MODEL (type_ column) <> None ->
  exists exposed f,
    _column_as_field capitalize column pk_column = Ok (exposed, f) /\
    Django.primary_key f = column_primary pk_column column.
Proof.
  intro Hc. unfold _column_as_field.
  destruct (SA_TYPE_TO_MODEL (type_ column)) as [cls|];
    cbn [of_option bind]; [|congruence].
  destruct (foreign_keys column); eexists _, _; repeat split.
Qed.

Lemma column_field_outcome (capitalize : pystr -> pystr)
      (pk_column : option Column) (column : Column) :
  _column_as_field capitalize column pk_column = Raise KeyError \/
  exists nf, _column_as_field capitalize column pk_column = Ok nf.
Proof.
  unfold _column_as_field.
  destruct (SA_TYPE_TO_MODEL (type_ column)) as [cls|];
    cbn [of_option bind]; [|left; reflexivity].
  right. destruct (foreign_keys column); eexists; reflexivity.
Qed.

Lemma referred_column_end :
  forall c, foreign_keys (referred_column c) = [] /\
            refers_to c (referred_column c).
Proof.
  fix IH 1. intros [tn n ty nu d pk fks]. destruct fks as [|target others].
  - split; [reflexivity|apply refers_here].
  - destruct (IH target) as [H1 H2]. split; [exact H1|].
    eapply refers_on; [reflexivity|exact H2].
Qed.

(** X17.  The field of a column with foreign keys points at the column
    found by following the first foreign key of each column until a column
    without foreign keys is reached: [to_field] is the name of that column,
    [to] is the model name of its table after ["sqlalchemy_django_admin."],
    and [on_delete] is [PROTECT].  A column without foreign keys keeps its
    name and gets none of [to], [on_delete], [to_field], [db_column]. *)
Theorem foreign_key_target (capitalize : pystr -> pystr)
    (column : Column) (pk_column : option Column) (exposed : pystr) (f : Field) :
  _column_as_field capitalize column pk_column = Ok (exposed, f) ->
  match foreign_keys column with
  | [] =>
      exposed = name column /\ to f = None /\ on_delete f = None /\
      to_field f = None /\ db_column f = None /\
      field_class f <> ForeignKey
  | _ :: _ =>
      exists referred,
        refers_to column referred /\ foreign_keys referred = [] /\
        to_field f = Some (name referred) /\
        to f = Some (lit "sqlalchemy_django_admin."
                     ++ _generate_model_name capitalize (table_name referred)) /\
        on_delete f = Some PROTECT
  end.
Proof.
  unfold _column_as_field.
  destruct (SA_TYPE_TO_MODEL (type_ column)) as [cls|] eqn:Hcls;
    cbn [of_option bind]; [|discriminate].
  destruct (foreign_keys column) as [|t others] eqn:Hfk; intro H;
    injection H as <- <-.
  - repeat split. cbn [field_class].
    destruct (type_ column); cbn in Hcls |- *;
      try (destruct (truthy_length _)); cbn; congruence.
  - exists (referred_column column).
    destruct (referred_column_end column) as [H1 H2]. repeat split; assumption.
Qed.

Lemma foreign_key_target_witness :
  exists referred,
    refers_to order_user_id referred /\ foreign_keys referred = [] /\
    to_field (mkField ForeignKey false (DValue SNone) false true false None None
                (Some (lit "sqlalchemy_django_admin.authuser"))
                (Some PROTECT) (Some (lit "id")) (Some (lit "user_id")))
    = Some (name referred) /\
    to (mkField ForeignKey false (DValue SNone) false true false None None
                (Some (lit "sqlalchemy_django_admin.authuser"))
                (Some PROTECT) (Some (lit "id")) (Some (lit "user_id")))
    = Some (lit "sqlalchemy_django_admin."
            ++ _generate_model_name (fun s => s) (table_name referred)) /\
    on_delete (mkField ForeignKey false (DValue SNone) false true false None None
                (Some (lit "sqlalchemy_django_admin.authuser"))
                (Some PROTECT) (Some (lit "id")) (Some (lit "user_id")))
    = Some PROTECT.
Proof.
  apply (foreign_key_target (fun s => s) order_user_id None (lit "user")).
  reflexivity.
Defined.

(** *** Model names *)

Lemma split_nonempty (sep : N) (s : pystr) : split sep s <> [].
Proof.
  destruct s as [|c r]; cbn [split]; [discriminate|].
  destruct (c =? sep); [discriminate|]. destruct (split sep r); discriminate.
Qed.

Lemma split_part (sep : N) (p rest : pystr) :
  Forall (fun c => c <> sep) p ->
  split sep (p ++ sep :: rest) = p :: split sep rest.
Proof.
  induction 1 as [|c p Hc _ IH]; cbn [app split].
  - rewrite N.eqb_refl. reflexivity.
  - apply N.eqb_neq in Hc. rewrite Hc, IH. reflexivity.
Qed.

Lemma split_last_part (sep : N) (p : pystr) :
  Forall (fun c => c <> sep) p -> split sep p = [p].
Proof.
  induction 1 as [|c p Hc _ IH]; cbn [split]; [reflexivity|].
  apply N.eqb_neq in Hc. rewrite Hc, IH. reflexivity.
Qed.

Lemma split_join (sep : N) (parts : list pystr) :
  parts <> [] ->
  Forall (Forall (fun c => c <> sep)) parts ->
  split sep (join [sep] parts) = parts.
Proof.
  intros Hne Hall. revert Hne.
  induction Hall as [|p ps Hp Hps IH]; intro Hne;
    [exfalso; apply Hne; reflexivity|].
  destruct ps as [|q ps].
  - cbn [join]. apply split_last_part, Hp.
  - change (join [sep] (p :: q :: ps)) with (p ++ sep :: join [sep] (q :: ps)).
    rewrite (split_part sep p _ Hp), IH; [reflexivity|discriminate].
Qed.

Lemma join_split (sep : N) (s : pystr) :
  join [sep] (split sep s) = s /\
  Forall (Forall (fun c => c <> sep)) (split sep s).
Proof.
  induction s as [|c r [IH1 IH2]]; cbn [split].
  - split; [reflexivity|repeat constructor].
  - destruct (c =? sep) eqn:E.
    + apply N.eqb_eq in E. subst c. split.
      * pose proof (split_nonempty sep r) as Hne.
        destruct (split sep r) as [|q qs]; [congruence|].
        change (join [sep] ([] :: q :: qs)) with (sep :: join [sep] (q :: qs)).
        rewrite IH1. reflexivity.
      * constructor; [constructor|exact IH2].
    + apply N.eqb_neq in E.
      pose proof (split_nonempty sep r) as Hne.
      destruct (split sep r) as [|q qs]; [congruence|]. split.
      * rewrite <- IH1. destruct qs; reflexivity.
      * inversion IH2; subst. constructor; [constructor; assumption|assumption].
Qed.

(** X18.  The model name of a table whose name is the words [parts] joined
    by underscores (no word holding an underscore; empty words stand for
    doubled, leading or trailing underscores) is the capitalized words put
    together; and every table name is such a join of its own parts. *)
Theorem model_name_of_words (capitalize : pystr -> pystr) (parts : list pystr) :
  parts <> [] ->
  Forall (Forall (fun c => c <> 95)) parts ->
  _generate_model_name capitalize (join (lit "_") parts)
  = concat (List.map capitalize parts) /\
  forall table_name,
    join (lit "_") (split 95 table_name) = table_name /\
    split 95 table_name <> [] /\
    Forall (Forall (fun c => c <> 95)) (split 95 table_name).
Proof.
  intros Hne Hall. split.
  - unfold _generate_model_name. change (lit "_") with [95].
    rewrite (split_join 95 parts Hne Hall). reflexivity.
  - intro tn. destruct (join_split 95 tn) as [H1 H2].
    split; [exact H1|]. split; [apply split_nonempty|exact H2].
Qed.

Lemma model_name_of_words_witness :
  _generate_model_name (fun s => lit "<" ++ s)
                       (join (lit "_") [lit "auth"; lit ""; lit "user"])
  = concat (List.map (fun s => lit "<" ++ s) [lit "auth"; lit ""; lit "user"]) /\
  forall table_name,
    join (lit "_") (split 95 table_name) = table_name /\
    split 95 table_name <> [] /\
    Forall (Forall (fun c => c <> 95)) (split 95 table_name).
Proof.
  apply (model_name_of_words (fun s => lit "<" ++ s)
           [lit "auth"; lit ""; lit "user"]).
  - discriminate.
  - repeat constructor; discriminate.
Defined.

(** *** [table_as_model] *)



Lemma count_set_le (d : Dict.t Attr) (k : pystr) (a : Attr) :
  (length (List.filter (fun kv : pystr * Attr => attr_primary (snd kv))
                       (Dict.set d k a))
   <= length (List.filter (fun kv : pystr * Attr => attr_primary (snd kv)) d)
      + (if attr_primary a then 1 else 0))%nat.
Proof.
  induction d as [|[k' a'] d IH]; cbn [Dict.set List.filter snd].
  - destruct (attr_primary a); cbn [length]; lia.
  - destruct (str_eqb k' k); cbn [List.filter snd].
    + destruct (attr_primary a), (attr_primary a'); cbn [length]; lia.
    + destruct (attr_primary a'); cbn [length]; lia.
Qed.

Lemma count_fold_le (items : list (pystr * Attr)) :
  forall d : Dict.t Attr,
    (length (List.filter (fun kv : pystr * Attr => attr_primary (snd kv))
               (fold_left (fun d kv => Dict.set d (fst kv) (snd kv)) items d))
     <= length (List.filter (fun kv : pystr * Attr => attr_primary (snd kv)) d)
        + length (List.filter (fun kv : pystr * Attr => attr_primary (snd kv))
                              items))%nat.
Proof.
  induction items as [|[k a] items IH]; intro d; cbn [fold_left fst snd].
  - cbn [List.filter length]. lia.
  - eapply Nat.le_trans; [apply IH|].
    pose proof (count_set_le d k a) as H. cbn [List.filter snd].
    destruct (attr_primary a); cbn [length]; lia.
Qed.

Lemma fields_of_columns (capitalize : pystr -> pystr)
      (pk_column : option Column) (cols : list Column) :
  Forall (fun c => SA_TYPE_TO_MODEL (type_ c) <> None) cols ->
  exists items,
    mapM (fun column => _column_as_field capitalize column pk_column) cols
    = Ok items /\
    length (List.filter (fun kv : pystr * Attr => attr_primary (snd kv))
              (List.map (fun nf => (fst nf, AttrField (snd nf))) items))
    = length (List.filter (column_primary pk_column) cols).
Proof.
  induction 1 as [|c cols Hc _ (items & Hi & Hn)]; [exists []; split; reflexivity|].
  destruct (column_field_primary capitalize pk_column c Hc)
    as (exposed & f & Hf & Hp).
  exists ((exposed, f) :: items). cbn [mapM]. rewrite Hf, Hi. cbn [bind].
  split; [reflexivity|]. cbn [List.map List.filter fst snd attr_primary].
  rewrite Hp. destruct (column_primary pk_column c); cbn [length];
    rewrite Hn; reflexivity.
Qed.



(** X21.  The attribute under which a record holds the value of a generated
    foreign key field is the column name itself (and not the exposed name
    followed by ["_id"]), unless the column name is empty. *)
Theorem foreign_key_attname (capitalize : pystr -> pystr)
    (column : Column) (pk_column : option Column) (exposed : pystr) (f : Field) :
  foreign_keys column <> [] ->
  _column_as_field capitalize column pk_column = Ok (exposed, f) ->
  ForeignKey.get_attname exposed f
  = Some (match name column with
          | [] => lit "_obj_id"
          | c :: r => c :: r
          end).
Proof.
  intros Hfk. unfold _column_as_field.
  destruct (SA_TYPE_TO_MODEL (type_ column)) as [cls|];
    cbn [of_option bind]; [|discriminate].
  destruct (foreign_keys column) as [|t others]; [congruence|].
  intro H. injection H as <- <-.
  unfold ForeignKey.get_attname. cbn [db_column].
  destruct (name column) as [|c r]; reflexivity.
Qed.

Lemma foreign_key_attname_witness :
  ForeignKey.get_attname (lit "country_obj")
    (mkField ForeignKey false (DValue SNone) false true false None (Some 2%Z)
             (Some (lit "sqlalchemy_django_admin.country")) (Some PROTECT)
             (Some (lit "code")) (Some (lit "country")))
  = Some (lit "country").
Proof.
  apply (foreign_key_attname (fun s => s) city_country None).
  - discriminate.
  - reflexivity.
Defined.

End ModelMore.

(* ================================================================== *)
(** ** More on the admin class, the JSON field and the key as text *)

Module AdminMore.
Import Json Django Admin Examples More.

Lemma FieldClass_eqb_eq (a b : FieldClass) :
  FieldClass_eqb a b = true <-> a = b.
Proof. destruct a, b; cbn; split; congruence. Qed.

Lemma in_filter_not_listed (primary_fields : list (option pystr))
      (fields : list pystr) (n : pystr) :
  In n (List.filter
          (fun field =>
             negb (existsb (fun p => match p with
                                     | Some x => str_eqb x field
                                     | None => false
                                     end) primary_fields))
          fields)
  <-> In n fields /\ ~ In (Some n) primary_fields.
Proof.
  rewrite filter_In. apply and_iff_compat_l.
  rewrite negb_true_iff. split.
  - intros Hf Hin. apply not_true_iff_false in Hf. apply Hf.
    apply existsb_exists. exists (Some n).
    split; [exact Hin|apply DictFacts.str_eqb_refl].
  - intro Hn. apply not_true_is_false. intro Hex.
    apply existsb_exists in Hex. destruct Hex as ([x|] & Hin & Hx);
      [|discriminate].
    apply DictFacts.str_eqb_eq in Hx. subst. contradiction.
Qed.

(** X22.  With a plain primary key, the add page ([obj] missing) shows the
    fields Django gives, and the change page shows them in the same order
    without the primary key field: a name is shown exactly when it is
    among the fields and is not the name of the primary key. *)
Theorem change_page_hides_primary_key (self : ModelAdmin) (fields : list pystr) :
  mf_class (pk (opts self)) <> CompositeKeyField ->
  Admin.get_fields self fields false = Ok fields /\
  exists shown,
    Admin.get_fields self fields true = Ok shown /\
    shown = List.filter (fun n => negb (str_eqb (mf_name (pk (opts self))) n))
                        fields /\
    forall n, In n shown <-> In n fields /\ n <> mf_name (pk (opts self)).
Proof.
  intro Hcls. split; [reflexivity|]. unfold Admin.get_fields. cbn [negb].
  destruct (FieldClass_eqb (mf_class (pk (opts self))) CompositeKeyField) eqn:E;
    [apply FieldClass_eqb_eq in E; contradiction|].
  cbn [bind]. eexists. split; [reflexivity|]. split.
  - apply filter_ext. intro n. cbn [existsb]. now rewrite orb_false_r.
  - intro n. rewrite in_filter_not_listed. apply and_iff_compat_l.
    cbn [In]. split.
    + intros H E'. apply H. left. congruence.
    + intros H [E'|[]]. apply H. congruence.
Qed.

Lemma change_page_hides_primary_key_witness :
  Admin.get_fields order_admin [lit "id"; lit "user"; lit "total"] false
  = Ok [lit "id"; lit "user"; lit "total"] /\
  exists shown,
    Admin.get_fields order_admin [lit "id"; lit "user"; lit "total"] true
    = Ok shown /\
    shown = List.filter (fun n => negb (str_eqb (lit "id") n))
                        [lit "id"; lit "user"; lit "total"] /\
    forall n, In n shown <->
              In n [lit "id"; lit "user"; lit "total"] /\ n <> lit "id".
Proof.
  apply (change_page_hides_primary_key order_admin
           [lit "id"; lit "user"; lit "total"]).
  discriminate.
Defined.

(** X23.  With a composite key whose [fields] are field objects, the change
    page shows the fields Django gives without the fields of the key: a
    name is shown exactly when it is among the fields and no key field has
    that name.  When the key holds a [str] among its [fields],
    [get_fields] raises [AttributeError] on the change page. *)
Theorem change_page_hides_key_fields (self : ModelAdmin) (fields : list pystr) :
  mf_class (pk (opts self)) = CompositeKeyField ->
  (forall l : list (option pystr * Field),
     mf_key_fields (pk (opts self)) = List.map as_field l ->
     exists shown,
       Admin.get_fields self fields true = Ok shown /\
       forall n, In n shown <->
                 In n fields /\ ~ In (Some n) (List.map fst l)) /\
  (forall s before after,
     mf_key_fields (pk (opts self)) = before ++ ObjStr s :: after ->
     Admin.get_fields self fields true = Raise AttributeError).
Proof.
  intro Hcls. unfold Admin.get_fields. cbn [negb]. rewrite Hcls.
  cbn [FieldClass_eqb]. split.
  - intros l Hl. rewrite Hl.
    assert (Hm : mapM getattr_name (List.map as_field l)
                 = Ok (List.map fst l)).
    { clear Hl. induction l as [|[n f] l IH]; [reflexivity|].
      cbn [List.map mapM as_field getattr_name fst snd bind].
      rewrite IH. reflexivity. }
    rewrite Hm. cbn [bind]. eexists. split; [reflexivity|].
    intro n. apply in_filter_not_listed.
  - intros s before after Hk. rewrite Hk.
    rewrite (TokenMore.mapM_raises _ _ getattr_name AttributeError
               (before ++ ObjStr s :: after)); [reflexivity| |].
    + intros [x|n f] _; [left; reflexivity|right; eexists; reflexivity].
    + exists (ObjStr s). split; [|reflexivity].
      apply in_or_app. right. left. reflexivity.
Qed.

Lemma change_page_hides_key_fields_witness :
  (forall l : list (option pystr * Field),
     mf_key_fields (pk (opts slot_admin)) = List.map as_field l ->
     exists shown,
       Admin.get_fields slot_admin [lit "device"; lit "slot"; lit "note"] true
       = Ok shown /\
       forall n, In n shown <->
                 In n [lit "device"; lit "slot"; lit "note"] /\
                 ~ In (Some n) (List.map fst l)) /\
  (forall s before after,
     mf_key_fields (pk (opts slot_admin)) = before ++ ObjStr s :: after ->
     Admin.get_fields slot_admin [lit "device"; lit "slot"; lit "note"] true
     = Raise AttributeError).
Proof.
  apply (change_page_hides_key_fields slot_admin
           [lit "device"; lit "slot"; lit "note"]).
  reflexivity.
Defined.

(** X24.  [RawJSONField.from_db_value] never raises [TypeError]: it raises
    exactly when the inherited conversion raises another exception, and
    then raises that exception. *)
Theorem from_db_value_raises_iff (obj expression connection : Type)
    (super_from_db_value : obj -> expression -> connection -> result obj)
    (value : obj) (e : expression) (c : connection) (x : exn) :
  RawJSONField.from_db_value super_from_db_value value e c = Raise x <->
  super_from_db_value value e c = Raise x /\ x <> TypeError.
Proof.
  unfold RawJSONField.from_db_value.
  destruct (super_from_db_value value e c) as [d|y].
  - split; [discriminate|intros [H _]; discriminate].
  - destruct y; split;
      try (intro H; injection H as <-; split; [reflexivity|discriminate]);
      try (intros [H _]; exact H);
      try discriminate.
    intros [H Hx]. injection H as <-. congruence.
Qed.



End AdminMore.
